(** * hmf.transfer: a shallow embedding of the [Transfer] class

    The Python class [Transfer] (src/hmf/transfer.py) computes transfer
    functions, power spectra and the HALOFIT non-linear correction, and caches
    every derived quantity in the instance.  This development embeds

    - the low-k convergence filter [_check_low_k] over exact rationals,
    - the value checks of the settable parameters [z], [wdm_mass] and
      [transfer_fit], the cache invalidation, [update] and the constructor,
    - the growth factor switch, the sigma_8 normalisation and the HALOFIT
      routines [_get_spec], [_halofit] and [nonlinear_delta_k] over the reals,
    - the conversions [delta_k] and [nonlinear_power] and the fitting
      formulae [_bbks] and [_bond_efs] over the reals.

    numpy's float64 arrays are idealised as lists of exact numbers: rationals
    where the code only subtracts, divides and compares, reals where it calls
    [np.exp] and [np.log].  Where a statement is about the float64 values
    themselves, [nonlinear_delta_k] and the routines it calls are embedded a
    second time, over an arithmetic of which nothing is assumed
    ([HalofitFloat]). *)

From Stdlib Require Import List ZArith QArith Qabs Reals Lra Lia String.
From stdpp Require Import gmap strings.
Import ListNotations.

Local Open Scope string_scope.

(** * The model *)

(** ** Python values, exceptions and results *)

(** A float64: a finite value (idealised as a rational), an infinity or nan. *)
Inductive pyfloat : Type :=
  | Fin (q : Q)
  | PInf
  | NInf
  | NaN.

(** The values that reach the parameters of [Transfer]: [None], booleans,
    integers, floats, strings and numpy arrays. *)
Inductive pyval : Type :=
  | VNone
  | VBool (b : bool)
  | VInt (n : Z)
  | VFloat (x : pyfloat)
  | VStr (s : string)
  | VArr (a : list pyfloat).

(** An exception with its [args]. *)
Inductive pyexn : Type :=
  | ValueError (args : list pyval)
  | TypeError (args : list pyval)
  | AttributeError (args : list pyval)
  | IndexError (args : list pyval)
  | UnboundLocalError (args : list pyval)
  | OverflowError (args : list pyval).

(** The name of the exception's class, as [type(e).__name__] gives it. *)
Definition exn_class (e : pyexn) : string :=
  match e with
  | ValueError _ => "ValueError"
  | TypeError _ => "TypeError"
  | AttributeError _ => "AttributeError"
  | IndexError _ => "IndexError"
  | UnboundLocalError _ => "UnboundLocalError"
  | OverflowError _ => "OverflowError"
  end.

Inductive result (A : Type) : Type :=
  | Ok (a : A)
  | Raise (e : pyexn).
Arguments Ok {A} a.
Arguments Raise {A} e.

Definition rbind {A B : Type} (r : result A) (f : A -> result B) : result B :=
  match r with
  | Ok a => f a
  | Raise e => Raise e
  end.

Notation "'let*' x ':=' r 'in' k" := (rbind r (fun x => k))
  (at level 10, x pattern, r at level 100, k at level 200).

(** ** The low-k convergence filter *)

Module LowK.

Local Open Scope Q_scope.

(** [lnT[i]] on a numpy array: an index past the end raises [IndexError]. *)
Definition getitem (a : list Q) (i : nat) : result Q :=
  match nth_error a i with
  | Some x => Ok x
  | None => Raise (IndexError [VStr "index out of bounds"])
  end.

(** [abs(dT / dk) < 0.01] on float64 scalars.  A zero [dk] gives [inf] or
    [nan] in numpy, and neither is below 0.01. *)
Definition slope_below (dT dk : Q) : bool :=
  if Qeq_bool dk 0 then false
  else negb (Qle_bool (1 # 100) (Qabs (dT / dk))).

(** The [for i in range(len(lnk) - 1)] loop with its [break]: the remaining
    indices are [idxs]; the result is the new value of [start], if any. *)
Fixpoint scan (lnk lnT : list Q) (idxs : list nat) : result (option nat) :=
  match idxs with
  | [] => Ok None
  | i :: rest =>
      let* t1 := getitem lnT (i + 1) in
      let* t0 := getitem lnT i in
      let* k1 := getitem lnk (i + 1) in
      let* k0 := getitem lnk i in
      if slope_below (t1 - t0) (k1 - k0) then Ok (Some i)
      else scan lnk lnT rest
  end.

(** [a[start:-1]] for [start >= 0]: from [start] up to, and not including,
    the last element. *)
Definition slice_to_last {A : Type} (start : nat) (a : list A) : list A :=
  firstn (length a - 1 - start) (skipn start a).

Definition _check_low_k (lnk lnT : list Q) : result (list Q * list Q) :=
  let* found := scan lnk lnT (seq 0 (length lnk - 1)) in
  let start := match found with Some i => i | None => 0%nat end in
  Ok (slice_to_last start lnk, slice_to_last start lnT).

(** The test of the loop at index [i], false where an index is out of
    range. *)
Definition flat_at (lnk lnT : list Q) (i : nat) : bool :=
  match nth_error lnT (i + 1), nth_error lnT i,
        nth_error lnk (i + 1), nth_error lnk i with
  | Some t1, Some t0, Some k1, Some k0 => slope_below (t1 - t0) (k1 - k0)
  | _, _, _, _ => false
  end.

(** The index the loop leaves in [start]: the first index whose slope is
    below 0.01, and 0 when there is none. *)
Definition first_flat (lnk lnT : list Q) : nat :=
  match scan lnk lnT (seq 0 (length lnk - 1)) with
  | Ok (Some i) => i
  | _ => 0%nat
  end.

End LowK.

(** ** Python's operations on the values above *)

Module Py.

(** [x < y], [x == y] and [x <= y] on floats; every comparison with nan is
    false. *)
Definition float_ltb (x y : pyfloat) : bool :=
  match x, y with
  | Fin a, Fin b => negb (Qle_bool b a)
  | Fin _, PInf => true
  | NInf, Fin _ => true
  | NInf, PInf => true
  | _, _ => false
  end.

Definition float_eqb (x y : pyfloat) : bool :=
  match x, y with
  | Fin a, Fin b => Qeq_bool a b
  | PInf, PInf => true
  | NInf, NInf => true
  | _, _ => false
  end.

Definition float_leb (x y : pyfloat) : bool :=
  float_ltb x y || float_eqb x y.

Definition zero : pyfloat := Fin 0.

(** The numeric tower: booleans and integers compare as floats. *)
Definition to_number (v : pyval) : option pyfloat :=
  match v with
  | VBool b => Some (Fin (if b then 1 else 0))
  | VInt n => Some (Fin (inject_Z n))
  | VFloat x => Some x
  | _ => None
  end.

(** [a == b] on scalars. *)
Definition py_eq (a b : pyval) : bool :=
  match to_number a, to_number b with
  | Some x, Some y => float_eqb x y
  | _, _ =>
      match a, b with
      | VNone, VNone => true
      | VStr s, VStr t => String.eqb s t
      | _, _ => false
      end
  end.

Fixpoint any_ne (xs ys : list pyfloat) : bool :=
  match xs, ys with
  | x :: xs', y :: ys' => negb (float_eqb x y) || any_ne xs' ys'
  | [], [] => false
  | _, _ => true
  end.

(** [np.any(a != b)]: element by element on arrays, a scalar is broadcast. *)
Definition py_any_ne (a b : pyval) : bool :=
  match a, b with
  | VArr xs, VArr ys => any_ne xs ys
  | VArr xs, _ =>
      match to_number b with
      | Some y => existsb (fun x => negb (float_eqb x y)) xs
      | None => true
      end
  | _, VArr ys =>
      match to_number a with
      | Some x => existsb (fun y => negb (float_eqb x y)) ys
      | None => true
      end
  | _, _ => negb (py_eq a b)
  end.

(** [v > 0] as Python 2 orders values: numbers by value, [None] below every
    number, strings and arrays are not used with it in [Transfer]. *)
Definition py_gt_zero (v : pyval) : bool :=
  match to_number v with
  | Some x => float_ltb zero x
  | None => false
  end.

Section Float.

(** The parser behind [float(s)] on a string is Python's own: [None] stands
    for a string it rejects. *)
Variable float_of_string : string -> option pyfloat.

(** The least magnitude of an integer that [float] cannot convert: halfway
    between the largest float64, 2^1024 - 2^971, and 2^1024, from where the
    conversion rounds out of range. *)
Definition float_overflow : Z := 2 ^ 1024 - 2 ^ 970.

(** The builtin [float(v)].  An integer beyond the range of float64 is an
    [OverflowError]; within the range the conversion is idealised as exact. *)
Definition py_float (v : pyval) : result pyfloat :=
  match v with
  | VFloat x => Ok x
  | VInt n =>
      if Z.leb float_overflow (Z.abs n)
      then Raise (OverflowError
                    [VStr "long int too large to convert to float"])
      else Ok (Fin (inject_Z n))
  | VBool b => Ok (Fin (if b then 1 else 0))
  | VStr s =>
      match float_of_string s with
      | Some x => Ok x
      | None => Raise (ValueError [VStr "could not convert string to float"])
      end
  | VArr [x] => Ok x
  | VArr _ =>
      Raise (TypeError [VStr "only length-1 arrays can be converted"])
  | VNone => Raise (TypeError [VStr "float() argument must be a string or a number"])
  end.

End Float.

End Py.

(** ** The [Transfer] object: parameters, cache and [update] *)

Module TransferObj.
Import Py.
Local Open Scope list_scope.

(** Class attributes. *)
Definition fits : list string := ["CAMB"; "EH"; "bbks"; "bond_efs"]%string.

Definition _cp : list string :=
  ["sigma_8"; "n"; "w"; "cs2_lam"; "t_cmb"; "y_he"; "N_nu";
   "omegan"; "H0"; "h"; "omegab";
   "omegac"; "omegav"; "omegab_h2"; "omegac_h2";
   "force_flat"; "default"]%string.

(** The name under which the instance stores the attribute [name] of the
    class: Python's mangling of [self.__name]. *)
Definition mangle (name : string) : string := ("_Transfer__" ++ name)%string.

(** The arguments of the [@cached_property(...)] decorators: for each cached
    quantity, the quantities to delete with it. *)
Definition cached_children : list (string * list string) :=
  [("lnk", ["_unnormalised_lnT"]);
   ("_unnormalised_lnT", ["_unnormalised_lnP"; "_lnT_cdm"]);
   ("_unnormalised_lnP", ["_lnP_cdm_0"]);
   ("_lnP_cdm_0", ["_lnP_0"]);
   ("_lnT_cdm", ["transfer"]);
   ("_lnP_0", ["power"]);
   ("growth", ["power"]);
   ("power", ["delta_k"]);
   ("transfer", []);
   ("delta_k", ["nonlinear_delta_k"]);
   ("nonlinear_power", []);
   ("nonlinear_delta_k", ["nonlinear_power"])]%string.

(** The arguments of the [@set_property(...)] decorators. *)
Definition set_children : list (string * list string) :=
  [("lnk_min", ["lnk"]);
   ("lnk_max", ["lnk"]);
   ("dlnk", ["lnk"]);
   ("z", ["growth"]);
   ("wdm_mass", ["_lnP_0"; "transfer"]);
   ("transfer_fit", ["_unnormalised_lnT"])]%string.

Fixpoint assoc {A : Type} (k : string) (l : list (string * A)) : option A :=
  match l with
  | [] => None
  | (k', a) :: rest => if String.eqb k k' then Some a else assoc k rest
  end.

Definition has_key {A : Type} (k : string) (l : list (string * A)) : bool :=
  match assoc k l with Some _ => true | None => false end.

Definition children_of (name : string) : list string :=
  match assoc name cached_children with
  | Some kids => kids
  | None => []
  end.

(** The quantity [name] and everything below it in the decorators' graph,
    to depth [fuel].  The graph has twelve nodes and no cycle, so depth 12
    reaches all of it (see [descendants_closed]). *)
Fixpoint descendants (fuel : nat) (name : string) : list string :=
  match fuel with
  | O => []
  | S fuel' => name :: flat_map (descendants fuel') (children_of name)
  end.

Definition dependents (name : string) : list string := descendants 12 name.
Arguments dependents : simpl never.

Section Object.

(** The cosmology container [cosmo.Cosmology] is outside this module: its
    instances are opaque here and built from the keyword dictionary. *)
Variable Cosmo : Type.
Variable Cosmology : gmap string pyval -> Cosmo.

(** The module-level flag set by [import pycamb]. *)
Variable HAVE_PYCAMB : bool.

Variable float_of_string : string -> option pyfloat.

Record Transfer : Type := mkTransfer {
  _cpdict : gmap string pyval;
  _camb_options : gmap string pyval;
  cosmo : Cosmo;
  (** the entries [_Transfer__...] of the instance's [__dict__]: the settable
      parameters and the cached quantities *)
  __dict__ : gmap string pyval
}.

(** The object together with what it has printed and the calls it has made
    to the numerical routines of [tools]. *)
Record World : Type := mkWorld {
  self : Transfer;
  stdout : list string;
  tools_calls : list string
}.

Definition M (A : Type) : Type := World -> result A * World.

Definition ret {A : Type} (a : A) : M A := fun w => (Ok a, w).
Definition raise {A : Type} (e : pyexn) : M A := fun w => (Raise e, w).
Definition bind {A B : Type} (m : M A) (f : A -> M B) : M B :=
  fun w => match m w with
           | (Ok a, w') => f a w'
           | (Raise e, w') => (Raise e, w')
           end.
Definition lift {A : Type} (r : result A) : M A := fun w => (r, w).
Definition gets {A : Type} (f : Transfer -> A) : M A :=
  fun w => (Ok (f (self w)), w).
Definition modify (f : Transfer -> Transfer) : M unit :=
  fun w => (Ok tt, mkWorld (f (self w)) (stdout w) (tools_calls w)).
Definition print (line : string) : M unit :=
  fun w => (Ok tt, mkWorld (self w) (stdout w ++ [line]) (tools_calls w)).
Definition call_tools {A : Type} (fn : string) (a : A) : M A :=
  fun w => (Ok a, mkWorld (self w) (stdout w) (tools_calls w ++ [fn])).

Notation "x <-- m ;; k" := (bind m (fun x => k))
  (at level 100, m at next level, right associativity).
Notation "m ;;; k" := (bind m (fun _ => k))
  (at level 100, right associativity).

Fixpoint for_each {A : Type} (l : list A) (body : A -> M unit) : M unit :=
  match l with
  | [] => ret tt
  | a :: rest => body a ;;; for_each rest body
  end.

Definition set_dict (d : gmap string pyval) (t : Transfer) : Transfer :=
  mkTransfer (_cpdict t) (_camb_options t) (cosmo t) d.

(** *** The decorators of [_cache] *)

(** Modelled from the spec: the module [_cache] with [cached_property] and
    [set_property] is not among the sources.  Deleting a cached quantity
    removes it and, transitively, every quantity that depends on it, and
    nothing else (spec 4.5); deleting what is not cached is silent. *)
Definition del_cached (name : string) : M unit :=
  modify (fun t =>
    set_dict (foldr (fun n d => delete (mangle n) d) (__dict__ t)
                    (dependents name)) t).

(** The world after [del name]. *)
Definition dropped (name : string) (w : World) : World :=
  mkWorld
    (set_dict
       (foldr (fun n d => delete (mangle n) d) (__dict__ (self w))
              (dependents name))
       (self w))
    (stdout w) (tools_calls w).

(** Modelled from the spec: a cached quantity is computed on first access and
    stored; later reads return the stored value (spec 3, lifecycle). *)
Definition get_cached (name : string) (compute : M pyval) : M pyval :=
  d <-- gets __dict__ ;;
  match d !! mangle name with
  | Some v => ret v
  | None =>
      v <-- compute ;;
      modify (fun t => set_dict (<[mangle name := v]> (__dict__ t)) t) ;;;
      ret v
  end.

(** Modelled from the spec: setting a parameter first runs the decorated
    function on the value, which validates it and may raise; only then the
    value is stored and the dependent quantities are deleted (spec 7). *)
Definition set_property (name : string) (check : pyval -> result pyval)
    (val : pyval) : M unit :=
  v <-- lift (check val) ;;
  modify (fun t => set_dict (<[mangle name := v]> (__dict__ t)) t) ;;;
  for_each (match assoc name set_children with Some c => c | None => [] end)
           del_cached.

(** Reading a settable parameter. *)
Definition get_property (name : string) : M pyval :=
  d <-- gets __dict__ ;;
  match d !! mangle name with
  | Some v => ret v
  | None => raise (AttributeError [VStr (mangle name)])
  end.

(** *** The bodies of the settable parameters *)

Definition lnk_min (val : pyval) : result pyval := Ok val.
Definition lnk_max (val : pyval) : result pyval := Ok val.
Definition dlnk (val : pyval) : result pyval := Ok val.

Definition z (val : pyval) : result pyval :=
  match py_float float_of_string val with
  | Raise (ValueError _) =>
      Raise (ValueError [VStr "z must be a number ("; val; VStr ")"])
  | Raise e => Raise e
  | Ok x =>
      if float_ltb x zero
      then Raise (ValueError [VStr "z must be > 0 ("; VFloat x; VStr ")"])
      else Ok (VFloat x)
  end.

Definition wdm_mass (val : pyval) : result pyval :=
  match val with
  | VNone => Ok val
  | _ =>
      match py_float float_of_string val with
      | Raise (ValueError _) =>
          Raise (ValueError [VStr "wdm_mass must be a number ("; val; VStr ")"])
      | Raise e => Raise e
      | Ok x =>
          if float_leb x zero
          then Raise (ValueError
                        [VStr "wdm_mass must be > 0 ("; VFloat x; VStr ")"])
          else Ok (VFloat x)
      end
  end.

Definition transfer_fit (val : pyval) : result pyval :=
  if negb HAVE_PYCAMB && py_eq val (VStr "CAMB")
  then Raise (ValueError
         [VStr "You cannot use the CAMB transfer since pycamb isn't installed"])
  else Ok val.

(** What the setters of [z] and [wdm_mass] turn away: a string that
    [float] rejects, and a number below the allowed range. *)
Definition unparsable (val : pyval) : Prop :=
  exists s, val = VStr s /\ float_of_string s = None.

Definition out_of_range (name : string) (x : pyfloat) : bool :=
  if String.eqb name "z" then float_ltb x zero
  else if String.eqb name "wdm_mass" then float_leb x zero
  else false.

(** [setattr(self, key, val)]: the six settable parameters go through their
    checks; a cached quantity is a property without a setter. *)
Definition setattr (key : string) (val : pyval) : M unit :=
  if String.eqb key "lnk_min" then set_property key lnk_min val
  else if String.eqb key "lnk_max" then set_property key lnk_max val
  else if String.eqb key "dlnk" then set_property key dlnk val
  else if String.eqb key "z" then set_property key z val
  else if String.eqb key "wdm_mass" then set_property key wdm_mass val
  else if String.eqb key "transfer_fit" then set_property key transfer_fit val
  else raise (AttributeError [VStr "can't set attribute"]).

(** *** The growth factor *)

(** [tools.growth_factor], the numerical integration of the growth factor,
    is outside this module. *)
Variable growth_factor : pyval -> Cosmo -> pyval.

(** The body of the cached quantity [growth]. *)
Definition growth : M pyval :=
  zv <-- get_property "z" ;;
  if py_gt_zero zv then
    c <-- gets cosmo ;;
    call_tools "growth_factor" (growth_factor zv c)
  else ret (VFloat (Fin 1)).

(** *** [update] *)

Definition in_list (k : string) (l : list string) : bool :=
  existsb (String.eqb k) l.

Definition set_cpdict (d : gmap string pyval) (t : Transfer) : Transfer :=
  mkTransfer d (_camb_options t) (cosmo t) (__dict__ t).

Definition set_camb_options (d : gmap string pyval) (t : Transfer) : Transfer :=
  mkTransfer (_cpdict t) d (cosmo t) (__dict__ t).

Definition set_cosmo (c : Cosmo) (t : Transfer) : Transfer :=
  mkTransfer (_cpdict t) (_camb_options t) c (__dict__ t).

(** The [if cp:] block: [cp] holds the cosmological keywords among [kwargs];
    the result is [kwargs] without them. *)
Definition update_cosmology (cp kwargs : list (string * pyval))
  : M (list (string * pyval)) :=
  cpd <-- gets _cpdict ;;
  let true_cp :=
    List.filter (fun kv : string * pyval =>
              match cpd !! fst kv with
              | None => true
              | Some old => negb (py_eq (snd kv) old)
              end) cp in
  modify (set_cpdict
            (fold_left (fun d (kv : string * pyval) => <[fst kv := snd kv]> d)
                       true_cp cpd)) ;;;
  let kwargs' :=
    List.filter (fun kv : string * pyval => negb (has_key (fst kv) cp)) kwargs in
  modify (fun t => set_cosmo (Cosmology (_cpdict t)) t) ;;;
  (if has_key "n" true_cp then del_cached "_unnormalised_lnP" else ret tt) ;;;
  (if has_key "sigma_8" true_cp
   then del_cached "_lnP_cdm_0" ;;; del_cached "_lnT_cdm"
   else ret tt) ;;;
  for_each ["omegab"; "omegac"; "h"; "H0"; "omegab_h2"; "omegac_h2"]%string
    (fun item =>
       if has_key item true_cp then del_cached "_unnormalised_lnT"
       else ret tt) ;;;
  ret kwargs'.

(** The line that [update] prints for a keyword it does not know. *)
Definition warning (key : string) : string :=
  ("WARNING:  " ++ key ++
   "  is not a valid parameter for the Transfer class")%string.

(** The body of the loop over the remaining keywords. *)
Definition update_other (kv : string * pyval) : M unit :=
  let key := fst kv in
  let val := snd kv in
  opts <-- gets _camb_options ;;
  match opts !! key with
  | Some old =>
      if negb (py_eq old val) then
        modify (fun t => set_camb_options (<[key := val]> (_camb_options t)) t) ;;;
        if negb (String.eqb key "ThreadNum")
        then del_cached "_unnormalised_lnT"
        else ret tt
      else ret tt
  | None =>
      d <-- gets __dict__ ;;
      match d !! mangle key with
      | None => print (warning key)
      | Some cur =>
          if py_any_ne cur val then setattr key val else ret tt
      end
  end.

(** The "extra logic for deletes" at the end of [update]. *)
Definition update_growth (cp kwargs : list (string * pyval)) : M unit :=
  let on_z :=
    match assoc "z" kwargs with
    | Some v => if py_eq v (VInt 0) then del_cached "growth" else ret tt
    | None => ret tt
    end in
  if has_key "omegab" cp || has_key "omegac" cp || has_key "omegav" cp then
    zv <-- get_property "z" ;;
    if py_gt_zero zv then del_cached "growth" else on_z
  else on_z.

(** [update] with its keyword arguments, in the order in which the
    dictionary [kwargs] is iterated. *)
Definition update (kwargs : list (string * pyval)) : M unit :=
  let cp := List.filter (fun kv : string * pyval => in_list (fst kv) _cp) kwargs in
  kwargs' <-- match cp with
              | [] => ret kwargs
              | _ :: _ => update_cosmology cp kwargs
              end ;;
  for_each kwargs' update_other ;;;
  update_growth cp kwargs'.

(** The cached quantities that depend on the normalisation: what the
    decorators list below [_lnP_cdm_0] and [_lnT_cdm]. *)
Definition normalisation_dependent : list string :=
  dependents "_lnP_cdm_0" ++ dependents "_lnT_cdm".

(** A keyword that is no cosmological parameter, no CAMB option and has no
    entry [_Transfer__key] in the instance. *)
Definition unknown_keyword (t : Transfer) (kv : string * pyval) : Prop :=
  in_list (fst kv) _cp = false /\
  _camb_options t !! fst kv = None /\
  __dict__ t !! mangle (fst kv) = None.

(** Whether [update(sigma_8=v)] finds [v] different from the value in
    [_cpdict]. *)
Definition sigma_8_changes (t : Transfer) (v : pyval) : bool :=
  match _cpdict t !! "sigma_8" with
  | None => true
  | Some old => negb (py_eq v old)
  end.

End Object.

Arguments mkTransfer {Cosmo}.
Arguments _cpdict {Cosmo}.
Arguments _camb_options {Cosmo}.
Arguments cosmo {Cosmo}.
Arguments __dict__ {Cosmo}.
Arguments mkWorld {Cosmo}.
Arguments self {Cosmo}.
Arguments stdout {Cosmo}.
Arguments tools_calls {Cosmo}.
Arguments unknown_keyword {Cosmo}.
Arguments sigma_8_changes {Cosmo}.

End TransferObj.

(** ** numpy and scipy on lists of reals *)

Module Numpy.
Local Open Scope list_scope.
Local Open Scope R_scope.

Definition Rltb (a b : R) : bool := if Rlt_dec a b then true else false.

(** [np.linspace(a, b, n)]: [n] points from [a] to [b], evenly spaced. *)
Definition linspace (a b : R) (n : nat) : list R :=
  map (fun i => a + INR i * ((b - a) / INR (n - 1))) (seq 0 n).

(** [a[mask]] for a boolean [mask]. *)
Fixpoint compress {A : Type} (mask : list bool) (a : list A) : list A :=
  match mask, a with
  | true :: mask', x :: a' => x :: compress mask' a'
  | false :: mask', _ :: a' => compress mask' a'
  | _, _ => []
  end.

(** [a[mask] = vals]: the selected places take the values in order; numpy
    raises when the shapes do not fit. *)
Fixpoint put_mask (a : list R) (mask : list bool) (vals : list R)
  : result (list R) :=
  match a, mask with
  | [], [] =>
      match vals with
      | [] => Ok []
      | _ :: _ => Raise (ValueError [VStr "shape mismatch"])
      end
  | x :: a', true :: mask' =>
      match vals with
      | v :: vals' =>
          let* rest := put_mask a' mask' vals' in Ok (v :: rest)
      | [] => Raise (ValueError [VStr "shape mismatch"])
      end
  | x :: a', false :: mask' =>
      let* rest := put_mask a' mask' vals in Ok (x :: rest)
  | _, _ => Raise (IndexError [VStr "boolean index did not match"])
  end.

(** Simpson's rule on consecutive pairs of intervals with their own widths;
    a last interval without partner is left out. *)
Fixpoint basic_simps (y x : list R) : R :=
  match y, x with
  | y0 :: yt, x0 :: xt =>
      match yt, xt with
      | y1 :: yt', x1 :: xt' =>
          match yt', xt' with
          | y2 :: _, x2 :: _ =>
              let h0 := x1 - x0 in
              let h1 := x2 - x1 in
              let hsum := h0 + h1 in
              let hprod := h0 * h1 in
              let h0divh1 := h0 / h1 in
              hsum / 6 * (y0 * (2 - 1 / h0divh1) + y1 * hsum * hsum / hprod
                          + y2 * (2 - h0divh1))
              + basic_simps yt' xt'
          | _, _ => 0
          end
      | _, _ => 0
      end
  | _, _ => 0
  end.

(** The composite rule of [scipy.integrate.simps(y, x)] with its default
    [even='avg']: on an even number of samples, the mean of the rule on the
    first [N-1] samples plus a trapezoid on the last interval and of the
    rule on the last [N-1] samples plus a trapezoid on the first. *)
Definition simpson (y x : list R) : R :=
  if Nat.even (length y) then
    let ry := rev y in
    let rx := rev x in
    let last_trap :=
      0.5 * (nth 0 rx 0 - nth 1 rx 0) * (nth 0 ry 0 + nth 1 ry 0) in
    let first_trap :=
      0.5 * (nth 1 x 0 - nth 0 x 0) * (nth 1 y 0 + nth 0 y 0) in
    (basic_simps y x + basic_simps (tl y) (tl x)) / 2
    + (last_trap + first_trap) / 2
  else basic_simps y x.

End Numpy.

(** ** HALOFIT: [_get_spec], [_halofit] and [nonlinear_delta_k] *)

Module Halofit.
Import Numpy.
Local Open Scope list_scope.
Local Open Scope R_scope.

(** The fields of [self.cosmo] that the routines read. *)
Record cosmology : Type := mkCosmology {
  sigma_8 : R;
  omegam : R;
  omegav : R;
  omegan : R;
  w : R
}.

(** The radii tried when [sigma_8] is outside (0.6, 1.0). *)
Definition candidates : list R :=
  [0.0001; 0.001; 0.01; 0.1; 1.0; 10.0; 100.0; 1000.0].

(** [dev1, dev2 = derivatives[1:3]]. *)
Definition unpack_1_3 (d : list R) : result (R * R) :=
  match firstn 2 (skipn 1 d) with
  | [d1; d2] => Ok (d1, d2)
  | _ => Raise (ValueError [VStr "wrong number of values to unpack"])
  end.

Section Backend.

(** scipy and cosmolopy are libraries outside the repository:
    [integ.simps(y, x)], the spline [spline(x, y, k=deg)] evaluated at a
    point, its method [derivatives], which may raise, and cosmolopy's
    [omega_M_z] and [e_z]. *)
Variable simps : list R -> list R -> R.
Variable spline : list R -> list R -> nat -> R -> R.
Variable spline_derivatives : list R -> list R -> nat -> R -> result (list R).
Variable omega_M_z : R -> cosmology -> R.
Variable e_z : R -> cosmology -> R.

(** [integ.simps(delta_k * np.exp(-(k * R) ** 2), np.log(k))] at the radius
    [R = radius]. *)
Definition sigma2 (k delta_k : list R) (radius : R) : R :=
  simps (zip_with (fun d kk => d * exp (- (kk * radius) ^ 2)) delta_k k)
        (map ln k).

(** [ln sigma^2] at the radius [r], as the search loop computes it from
    [self.lnk] and [self.delta_k]. *)
Definition lnsig_at (lnk delta_k : list R) (r : R) : R :=
  ln (sigma2 (map exp lnk) (map exp delta_k) r).

(** The loops that fill [lnsig] from [lnr]. *)
Definition lnsig_on (k delta_k lnr : list R) : list R :=
  map (fun r => ln (sigma2 k delta_k (exp r))) lnr.

(** The loop over the candidate radii.  [lnsig_old] is [None] until the
    first pass has completed; at the end of the loop, and after the [break],
    [lnsig1] holds the last value that was not negative. *)
Fixpoint search (k delta_k : list R) (rs : list R) (lnsig_old : option R)
  : result R :=
  match rs with
  | [] =>
      match lnsig_old with
      | Some v => Ok v
      | None => Raise (UnboundLocalError [VStr "lnsig1"])
      end
  | r :: rest =>
      let lnsig1 := ln (sigma2 k delta_k r) in
      if Rltb lnsig1 0 then
        match lnsig_old with
        | Some v => Ok v
        | None => Raise (UnboundLocalError [VStr "lnsig_old"])
        end
      else search k delta_k rest (Some lnsig1)
  end.

(** "Initialize sigma spline": the grid [lnr] and the values [lnsig]. *)
Definition sigma_grid (c : cosmology) (k delta_k : list R)
  : result (list R * list R) :=
  if Rltb (sigma_8 c) 1.0 && Rltb 0.6 (sigma_8 c) then
    let lnr := linspace (ln 0.1) (ln 10.0) 500 in
    Ok (lnr, lnsig_on k delta_k lnr)
  else
    let* lnsig1 := search k delta_k candidates None in
    let lnr := linspace (ln 0.01) (ln (10 * lnsig1)) 500 in
    Ok (lnr, lnsig_on k delta_k lnr).

(** [rknl] from the spline of [lnr] against [lnsig], both reversed. *)
Definition rknl_of (lnr lnsig : list R) : R :=
  1.0 / exp (spline (rev lnsig) (rev lnr) 5 0.0).

(** [_get_spec]; [lnk] is [self.lnk] and [delta_k] is [self.delta_k], the
    logarithm of the dimensionless power.  The [print] is left out. *)
Definition _get_spec (c : cosmology) (lnk delta_k : list R)
  : result (R * R * R) :=
  let k := map exp lnk in
  let delta_k := map exp delta_k in
  let* grid := sigma_grid c k delta_k in
  let lnr := fst grid in
  let lnsig := snd grid in
  let rknl := rknl_of lnr lnsig in
  let* devs :=
    match rbind (spline_derivatives lnr lnsig 5 (ln (1.0 / rknl))) unpack_1_3
    with
    | Ok d => Ok d
    | Raise _ =>
        let lnr := linspace (ln (0.2 / rknl)) (ln (5 / rknl)) 100 in
        let lnsig := lnsig_on k delta_k lnr in
        rbind (spline_derivatives lnr lnsig 5 (ln (1.0 / rknl))) unpack_1_3
    end in
  let rneff := - fst devs - 3.0 in
  let rncur := - snd devs in
  Ok (rknl, rneff, rncur).

(** [_halofit] at one wavenumber [k] with linear power [plin]; on arrays it
    works element by element.  [x ** y] with a float exponent is [Rpower],
    which agrees with it on a positive base.  The [print] is left out. *)
Definition _halofit_at (self_cosmo : cosmology) (self_z : R)
    (neff rncur rknl : R) (k plin : R) : R :=
  let omegam_z := omega_M_z self_z self_cosmo in
  let omegav_z := omegav self_cosmo / e_z self_z self_cosmo ^ 2 in
  let w := w self_cosmo in
  let fnu := omegan self_cosmo / omegam self_cosmo in
  let a := Rpower 10 (1.5222 + 2.8553 * neff + 2.3706 * neff ^ 2 +
                      0.9903 * neff ^ 3 + 0.2250 * neff ^ 4 +
                      - 0.6038 * rncur + 0.1749 * omegav_z * (1 + w)) in
  let b := Rpower 10 (-0.5642 + 0.5864 * neff + 0.5716 * neff ^ 2 +
                      - 1.5474 * rncur + 0.2279 * omegav_z * (1 + w)) in
  let c := Rpower 10 (0.3698 + 2.0404 * neff + 0.8161 * neff ^ 2
                      + 0.5869 * rncur) in
  let gam := 0.1971 - 0.0843 * neff + 0.8460 * rncur in
  let alpha := Rabs (6.0835 + 1.3373 * neff - 0.1959 * neff ^ 2 +
                     - 5.5274 * rncur) in
  let beta := 2.0379 - 0.7354 * neff + 0.3157 * neff ^ 2 +
              1.2490 * neff ^ 3 + 0.3980 * neff ^ 4 - 0.1682 * rncur +
              fnu * (1.081 + 0.395 * neff ^ 2) in
  let xmu := 0.0 in
  let xnu := Rpower 10 (5.2105 + 3.6902 * neff) in
  let curved := Rltb 0.01 (Rabs (1 - omegam_z)) in
  let frac := omegav_z / (1 - omegam_z) in
  let f1 := if curved
            then frac * Rpower omegam_z (-0.0307)
                 + (1 - frac) * Rpower omegam_z (-0.0732)
            else 1.0 in
  let f2 := if curved
            then frac * Rpower omegam_z (-0.0585)
                 + (1 - frac) * Rpower omegam_z (-0.1423)
            else 1.0 in
  let f3 := if curved
            then frac * Rpower omegam_z 0.0743
                 + (1 - frac) * Rpower omegam_z 0.0725
            else 1.0 in
  let y := k / rknl in
  let ph := a * Rpower y (f1 * 3)
            / (1 + b * Rpower y f2 + Rpower (f3 * c * y) (3 - gam)) in
  let ph := ph / (1 + xmu * / y + xnu * / (y ^ 2))
            * (1 + fnu * (0.977 - 18.015 * (omegam self_cosmo - 0.3))) in
  let plinaa := plin * (1 + fnu * 47.48 * k ^ 2 / (1 + 1.5 * k ^ 2)) in
  let pq := plin * Rpower (1 + plinaa) beta / (1 + plinaa * alpha)
            * exp (- y / 4.0 - y ^ 2 / 8.0) in
  pq + ph.

Definition _halofit (self_cosmo : cosmology) (self_z : R)
    (k : list R) (neff rncur rknl : R) (plin : list R) : list R :=
  zip_with (_halofit_at self_cosmo self_z neff rncur rknl) k plin.

(** [nonlinear_delta_k]; [lnk] is [self.lnk], [delta_k] is [self.delta_k]. *)
Definition nonlinear_delta_k (self_cosmo : cosmology) (self_z : R)
    (lnk delta_k : list R) : result (list R) :=
  let* spec := _get_spec self_cosmo lnk delta_k in
  let rknl := fst (fst spec) in
  let rneff := snd (fst spec) in
  let rncur := snd spec in
  let mask := map (fun x => Rltb 0.005 (exp x)) lnk in
  let plin := map exp delta_k in
  let k := map exp (compress mask lnk) in
  let pnl := _halofit self_cosmo self_z k rneff rncur rknl
                      (compress mask plin) in
  let* nonlinear := put_mask (map exp delta_k) mask pnl in
  Ok (map ln nonlinear).

End Backend.

End Halofit.

(** ** The sigma_8 normalisation *)

Module Normalize.
Local Open Scope list_scope.
Local Open Scope R_scope.

(** The top-hat window in Fourier space. *)
Definition top_hat (x : R) : R := 3 * (sin x - x * cos x) / x ^ 3.

Section Quadrature.

(** The integral over [ln k] is taken on the grid by a quadrature rule: the
    rule gives each node of the grid its weight. *)
Variable weights : list R -> list R.

Definition integrate (lnk ys : list R) : R :=
  fold_right Rplus 0 (zip_with Rmult (weights lnk) ys).

(** The integrand [Delta^2(k) W^2(k R)] on the grid, from the logarithm of
    the power: [Delta^2 = k^3 P / (2 pi^2)]. *)
Definition variance_integrand (radius : R) (lnk lnP : list R) : list R :=
  zip_with (fun x p =>
              exp x ^ 3 * exp p / (2 * PI ^ 2)
              * top_hat (exp x * radius) ^ 2)
           lnk lnP.

Definition mass_variance (radius : R) (lnk lnP : list R) : R :=
  integrate lnk (variance_integrand radius lnk lnP).

(** Modelled from the spec: [tools.normalize] is not among the sources.  It
    computes the variance in a top-hat of 8 Mpc/h from the unnormalised
    spectrum; the normalisation constant is (target sigma_8 / computed
    sigma) squared, applied as an additive offset to the log power
    (spec 4.2).  It returns the normalised log power and the constant. *)
Definition normalize (norm_sigma_8 : R) (unn_power lnk : list R)
    (mean_dens : R) : list R * R :=
  let sigma := sqrt (mass_variance 8 lnk unn_power) in
  let normalization := (norm_sigma_8 / sigma) ^ 2 in
  (map (fun p => p + ln normalization) unn_power, normalization).

(** The cached quantity [_lnP_cdm_0] of [Transfer]. *)
Definition _lnP_cdm_0 (cosmo_sigma_8 : R) (_unnormalised_lnP lnk : list R)
    (cosmo_mean_dens : R) : list R :=
  fst (normalize cosmo_sigma_8 _unnormalised_lnP lnk cosmo_mean_dens).

(** The cached quantity [_lnT_cdm]: the pair that [normalize] returns for the
    transfer function. *)
Definition _lnT_cdm (cosmo_sigma_8 : R) (_unnormalised_lnT lnk : list R)
    (cosmo_mean_dens : R) : list R * R :=
  normalize cosmo_sigma_8 _unnormalised_lnT lnk cosmo_mean_dens.

End Quadrature.

(** The rectangle rule on a grid of step 0.05. *)
Definition rectangle (lnk : list R) : list R := map (fun _ => 0.05) lnk.

End Normalize.

(** ** An object to run the methods on *)

Module Sample.
Import Py TransferObj.
Local Open Scope list_scope.

(** The cosmology stands for itself: the keyword dictionary. *)
Definition Cosmology (d : gmap string pyval) : gmap string pyval := d.

(** Python's parser of floats on the strings "0", "1" and "-1"; every other
    string used with it below is one that Python rejects. *)
Definition float_of_string (s : string) : option pyfloat :=
  if String.eqb s "0" then Some (Fin 0)
  else if String.eqb s "1" then Some (Fin 1)
  else if String.eqb s "-1" then Some (Fin (-1))
  else None.

Definition growth_factor (zv : pyval) (c : gmap string pyval) : pyval :=
  VFloat (Fin (1 # 2)).

Definition cpdict0 : gmap string pyval :=
  <["sigma_8" := VFloat (Fin 0.8344)]>
    (<["n" := VFloat (Fin 0.9624)]>
       (<["default" := VStr "planck1_base"]> ∅)).

Definition camb0 : gmap string pyval :=
  <["ThreadNum" := VInt 0]> (<["AccuracyBoost" := VInt 1]> ∅).

(** [z = 0], the Eisenstein-Hu fit, and the grid, the transfer function and
    the normalised power already computed. *)
Definition dict0 : gmap string pyval :=
  <[mangle "lnk_min" := VFloat (Fin (-1))]>
  (<[mangle "lnk_max" := VFloat (Fin 1)]>
  (<[mangle "dlnk" := VFloat (Fin 1)]>
  (<[mangle "wdm_mass" := VNone]>
  (<[mangle "z" := VFloat (Fin 0)]>
  (<[mangle "transfer_fit" := VStr "EH"]>
  (<[mangle "lnk" := VArr [Fin (-1); Fin 0]]>
  (<[mangle "_unnormalised_lnT" := VArr [Fin 0; Fin (-(1 # 2))]]>
  (<[mangle "_lnP_cdm_0" := VArr [Fin 3; Fin 2]]> ∅)))))))).

Definition transfer0 : Transfer (gmap string pyval) :=
  mkTransfer cpdict0 camb0 (Cosmology cpdict0) dict0.

Definition world0 : World (gmap string pyval) := mkWorld transfer0 [] [].

End Sample.

(** ** A numerical backend and a grid to run HALOFIT on *)

Module SampleBackend.
Import Numpy Halofit.
Local Open Scope list_scope.
Local Open Scope R_scope.

(** Stand-ins for scipy's spline and cosmolopy: the splines below evaluate to
    their argument and have zero derivatives; the cosmology is taken at
    [z = 0].  The integrator is Simpson's rule itself. *)
Definition spline (x y : list R) (deg : nat) (t : R) : R := t.

Definition spline_derivatives (x y : list R) (deg : nat) (t : R)
  : result (list R) := Ok (repeat 0 (S deg)).

Definition omega_M_z (z : R) (c : cosmology) : R := omegam c.

Definition e_z (z : R) (c : cosmology) : R := 1.

(** Three wavenumbers, 1000, 3000 and 9000 h/Mpc, evenly spaced in [ln k]. *)
Definition lnk3 : list R := [ln 1000; ln 3000; ln 9000].

Definition cosmo_low : cosmology := mkCosmology 0.3 0.3 0.7 0 (-1).

Definition cosmo_planck : cosmology :=
  mkCosmology 0.8344 0.3175 0.6825 0 (-1).

End SampleBackend.

(** ** Invariants of the object *)

Module Invariants.
Import Py TransferObj.
Local Open Scope list_scope.

(** The settable parameters and the cached quantities of the class. *)
Definition settable : list string := map fst set_children.

Definition cached : list string := map fst cached_children.

(** For each cached quantity, the cached quantities that its body reads
    through [self]:  [_unnormalised_lnP] reads [self.lnk] and
    [self._unnormalised_lnT], and so on down the class. *)
Definition cached_reads : list (string * list string) :=
  [("lnk", []);
   ("_unnormalised_lnT", ["lnk"]);
   ("_unnormalised_lnP", ["lnk"; "_unnormalised_lnT"]);
   ("_lnP_cdm_0", ["_unnormalised_lnP"; "lnk"]);
   ("_lnT_cdm", ["_unnormalised_lnT"; "lnk"]);
   ("_lnP_0", ["_lnP_cdm_0"; "lnk"]);
   ("growth", []);
   ("power", ["growth"; "_lnP_0"]);
   ("transfer", ["_lnT_cdm"; "lnk"]);
   ("delta_k", ["lnk"; "power"]);
   ("nonlinear_power", ["lnk"; "nonlinear_delta_k"]);
   ("nonlinear_delta_k", ["lnk"; "delta_k"])]%string.

(** For each cached quantity, the settable parameters that its body reads. *)
Definition parameter_reads : list (string * list string) :=
  [("lnk", ["lnk_min"; "lnk_max"; "dlnk"]);
   ("_unnormalised_lnT", ["transfer_fit"]);
   ("_lnP_0", ["wdm_mass"]);
   ("growth", ["z"]);
   ("transfer", ["wdm_mass"]);
   ("nonlinear_delta_k", ["z"])]%string.

Definition reads_of (q : string) : list string :=
  match assoc q cached_reads with
  | Some rs => rs
  | None => []
  end.

(** The names that [update] deletes by name. *)
Definition update_deletes : list string :=
  ["_unnormalised_lnP"; "_lnP_cdm_0"; "_lnT_cdm"; "_unnormalised_lnT";
   "growth"]%string.

(** The entries of an instance after deleting the cached quantity [c]. *)
Definition without (c : string) (d : gmap string pyval) : gmap string pyval :=
  foldr (fun n d => delete (mangle n) d) d (dependents c).

(** An instance is well formed when its six parameters are set, its redshift
    is a float for which [val < 0] is false and its warm dark matter mass is
    [None] or a float for which [val <= 0] is false.  That is what the
    setters check: a positive number and [inf] pass, and so does nan, with
    which every comparison is false. *)
Definition well_formed (d : gmap string pyval) : Prop :=
  (forall p, In p settable -> is_Some (d !! mangle p)) /\
  (forall v, d !! mangle "z" = Some v ->
     exists x, v = VFloat x /\ float_ltb x zero = false) /\
  (forall v, d !! mangle "wdm_mass" = Some v ->
     v = VNone \/ exists x, v = VFloat x /\ float_leb x zero = false).

(** The cache is consistent when every cached quantity still has the cached
    quantities it was computed from. *)
Definition consistent (d : gmap string pyval) : Prop :=
  forall q r, In r (reads_of q) ->
    is_Some (d !! mangle q) -> is_Some (d !! mangle r).

(** The cached quantities that setting the parameter [key] deletes: the
    children named by its decorator with all their dependents. *)
Definition invalidated (key : string) : list string :=
  flat_map dependents
    match assoc key set_children with
    | Some cs => cs
    | None => []
    end.

(** The cosmological parameters that [update] treats alike: it stores them
    and deletes nothing. *)
Definition inert_keywords : list string :=
  ["w"; "cs2_lam"; "t_cmb"; "y_he"; "N_nu"; "omegan"; "force_flat";
   "default"]%string.

(** The parameters for which [update] recalculates everything. *)
Definition matter_keywords : list string :=
  ["omegab"; "omegac"; "h"; "H0"; "omegab_h2"; "omegac_h2"]%string.

(** The parameters of the wavenumber grid. *)
Definition grid_keywords : list string :=
  ["lnk_min"; "lnk_max"; "dlnk"]%string.

(** The keywords that the end of [update] looks at before it deletes the
    growth factor. *)
Definition growth_keywords : list string :=
  ["omegab"; "omegac"; "omegav"; "z"].

(** The entries of the instance after the deletions of the block that
    updates the cosmology, where [changed] tells which keywords are in
    [true_cp]. *)
Definition cosmology_drops (changed : string -> bool)
    (d : gmap string pyval) : gmap string pyval :=
  let d1 := if changed "n" then without "_unnormalised_lnP" d else d in
  let d2 := if changed "sigma_8"
            then without "_lnT_cdm" (without "_lnP_cdm_0" d1) else d1 in
  fold_left (fun d item =>
               if changed item then without "_unnormalised_lnT" d else d)
            matter_keywords d2.

(** The keywords of [cp] whose value differs from the one in [_cpdict]. *)
Definition true_cp_of (cpd : gmap string pyval) (cp : list (string * pyval))
  : list (string * pyval) :=
  List.filter (fun kv : string * pyval =>
                 match cpd !! fst kv with
                 | None => true
                 | Some old => negb (py_eq (snd kv) old)
                 end) cp.

(** The body that [setattr] runs for a settable parameter. *)
Definition check_of (HAVE_PYCAMB : bool)
    (float_of_string : string -> option pyfloat) (key : string)
  : pyval -> result pyval :=
  if String.eqb key "lnk_min" then lnk_min
  else if String.eqb key "lnk_max" then lnk_max
  else if String.eqb key "dlnk" then dlnk
  else if String.eqb key "z" then z float_of_string
  else if String.eqb key "wdm_mass" then wdm_mass float_of_string
  else if String.eqb key "transfer_fit" then transfer_fit HAVE_PYCAMB
  else fun _ => Raise (AttributeError [VStr "can't set attribute"]).

(** The two invariants as checks that run on a given dictionary. *)
Definition is_set (d : gmap string pyval) (name : string) : bool :=
  match d !! mangle name with Some _ => true | None => false end.

Definition well_formedb (d : gmap string pyval) : bool :=
  forallb (is_set d) settable
  && match d !! mangle "z" with
     | Some (VFloat x) => negb (float_ltb x zero)
     | Some _ => false
     | None => true
     end
  && match d !! mangle "wdm_mass" with
     | Some VNone => true
     | Some (VFloat x) => negb (float_leb x zero)
     | Some _ => false
     | None => true
     end.

Definition consistentb (d : gmap string pyval) : bool :=
  forallb (fun qr : string * list string =>
             implb (is_set d (fst qr)) (forallb (is_set d) (snd qr)))
          cached_reads.

Section Keeps.

Variable Cosmo : Type.

(** The action [m] keeps the property [P] of the instance's entries, whether
    it returns or raises. *)
Definition keeps (P : gmap string pyval -> Prop) {A : Type} (m : M Cosmo A)
  : Prop :=
  forall w, P (__dict__ (self w)) -> P (__dict__ (self (snd (m w)))).

(** The action [m] leaves the field [f] of the instance as it is, whether it
    returns or raises. *)
Definition frames {B : Type} (f : Transfer Cosmo -> B) {A : Type}
    (m : M Cosmo A) : Prop :=
  forall w, f (self (snd (m w))) = f (self w).

End Keeps.

Arguments keeps {Cosmo} P {A} m.
Arguments frames {Cosmo B} f {A} m.

End Invariants.

(** ** A sample object whose cache is complete up to the normalised power *)

Module SampleCache.
Import Py TransferObj.
Local Open Scope list_scope.

(** The sample object with the unnormalised power cached as well, as it is
    once [_lnP_cdm_0] has been read. *)
Definition dict1 : gmap string pyval :=
  <[mangle "_unnormalised_lnP" := VArr [Fin 1; Fin 0]]> Sample.dict0.

Definition transfer1 : Transfer (gmap string pyval) :=
  mkTransfer Sample.cpdict0 Sample.camb0 (Sample.Cosmology Sample.cpdict0)
             dict1.

Definition world1 : World (gmap string pyval) := mkWorld transfer1 [] [].

End SampleCache.

(** ** The spectra computed from the grid *)

Module Spectra.
Local Open Scope list_scope.
Local Open Scope R_scope.

(** [a + b] on one-dimensional arrays: element by element on equal lengths;
    an array of length one is stretched over the other; any other pair of
    lengths is refused. *)
Definition np_add (a b : list R) : result (list R) :=
  if Nat.eqb (length a) (length b) then Ok (zip_with Rplus a b)
  else if Nat.eqb (length a) 1 then Ok (map (Rplus (nth 0 a 0)) b)
  else if Nat.eqb (length b) 1 then Ok (map (fun x => x + nth 0 b 0) a)
  else Raise (ValueError [VStr "operands could not be broadcast together"]).

(** [delta_k]: [lnk] is [self.lnk], [power] is [self.power]. *)
Definition delta_k (lnk power : list R) : result (list R) :=
  let* s := np_add (map (Rmult 3) lnk) power in
  Ok (map (fun x => x - ln (2 * PI ^ 2)) s).

(** [nonlinear_power]: [nonlinear_delta_k] is [self.nonlinear_delta_k]. *)
Definition nonlinear_power (lnk nonlinear_delta_k : list R)
  : result (list R) :=
  let* s := np_add (map (Rmult (-3)) lnk) nonlinear_delta_k in
  Ok (map (fun x => x + ln (2 * PI ^ 2)) s).

End Spectra.

(** ** The fitting formulae for the transfer function *)

Module Fits.
Local Open Scope list_scope.
Local Open Scope R_scope.

(** The fields of [self.cosmo] that the two formulae read. *)
Record cosmology : Type := mkCosmology {
  omegam : R;
  omegab : R;
  h : R
}.

(** [_bbks] at one entry [k] of the array of [ln k]; on the array it works
    element by element.  [x ** y] with a float exponent is [Rpower], which
    agrees with it on a positive base. *)
Definition _bbks_at (self_cosmo : cosmology) (k : R) : R :=
  let Gamma := omegam self_cosmo * h self_cosmo in
  let q := exp k / Gamma *
           exp (omegab self_cosmo + sqrt (2 * h self_cosmo) *
                omegab self_cosmo / omegam self_cosmo) in
  ln (ln (1.0 + 2.34 * q) / (2.34 * q) *
      Rpower (1 + 3.89 * q + (16.1 * q) ^ 2 + (5.47 * q) ^ 3 +
              (6.71 * q) ^ 4) (-0.25)).

Definition _bbks (self_cosmo : cosmology) (k : list R) : list R :=
  map (_bbks_at self_cosmo) k.

(** [_bond_efs] at one entry [k] of the array of [ln k]. *)
Definition _bond_efs_at (self_cosmo : cosmology) (k : R) : R :=
  let omegah2 := 1.0 / (omegam self_cosmo * h self_cosmo ^ 2) in
  let a := 6.4 * omegah2 in
  let b := 3.0 * omegah2 in
  let c := 1.7 * omegah2 in
  let nu := 1.13 in
  let k := exp k in
  ln (Rpower (1 + Rpower (a * k + Rpower (b * k) 1.5 + (c * k) ^ 2) nu)
             (-1 / nu)).

Definition _bond_efs (self_cosmo : cosmology) (k : list R) : list R :=
  map (_bond_efs_at self_cosmo) k.

End Fits.

(** ** The constructor *)

Module TransferInit.
Import Py TransferObj Invariants.
Local Open Scope list_scope.

(** [__init__] can fail with the exceptions of the setters and, where it
    deletes a key from a dictionary, with [KeyError]. *)
Inductive init_exn : Type :=
  | Raised (e : pyexn)
  | KeyError (key : string).

(** An exception in [__init__] leaves no instance behind. *)
Inductive init_result (A : Type) : Type :=
  | Built (a : A)
  | Failed (e : init_exn).

Arguments Built {A} a.
Arguments Failed {A} e.

(** [k in d]. *)
Definition contains (k : string) (d : gmap string pyval) : bool :=
  match d !! k with Some _ => true | None => false end.

(** The comprehension [{k: v for k, v in d.iteritems() if keep(k)}]. *)
Definition keys_in (keep : string -> bool) (d : gmap string pyval)
  : gmap string pyval :=
  filter (fun kv : string * pyval => keep (fst kv) = true) d.

(** [del d[k]]. *)
Definition del_key (k : string) (d : gmap string pyval)
  : init_result (gmap string pyval) :=
  match d !! k with
  | Some _ => Built (delete k d)
  | None => Failed (KeyError k)
  end.

(** The entries of the instance after the parameter [key] has been given the
    checked value [v]. *)
Definition stored (key : string) (v : pyval) (d : gmap string pyval)
  : gmap string pyval :=
  fold_left (fun d c => without c d)
            (match assoc key set_children with Some cs => cs | None => [] end)
            (<[mangle key := v]> d).

Section Object.

Variable Cosmo : Type.
Variable Cosmology : gmap string pyval -> Cosmo.
Variable HAVE_PYCAMB : bool.
Variable float_of_string : string -> option pyfloat.

(** [self.cosmo.__dict__], the attributes of the class [Cosmology], which is
    outside this module. *)
Variable cosmo_dict : Cosmo -> gmap string pyval.

Local Notation "m ;;; k" := (bind Cosmo m (fun _ => k))
  (at level 100, right associativity).

(** [__init__] with its named arguments and the dictionary [kwargs] of the
    remaining keywords.  The instance starts without entries; the attribute
    [cosmo] does not exist until the parameters have been set, and no setter
    reads it. *)
Definition __init__
    (z lnk_min lnk_max dlnk wdm_mass transfer_fit
     Scalar_initial_condition lAccuracyBoost AccuracyBoost w_perturb
     transfer__k_per_logint transfer__kmax ThreadNum : pyval)
    (kwargs : gmap string pyval) : init_result (Transfer Cosmo) :=
  let kwargs := if contains "default" kwargs then kwargs
                else <["default" := VStr "planck1_base"]> kwargs in
  let cpdict := keys_in (fun k => in_list k _cp) kwargs in
  let camb_options :=
    <["Scalar_initial_condition" := Scalar_initial_condition]>
    (<["scalar_amp" := VFloat (Fin (1 # 1000000000))]>
    (<["lAccuracyBoost" := lAccuracyBoost]>
    (<["AccuracyBoost" := AccuracyBoost]>
    (<["w_perturb" := w_perturb]>
    (<["transfer__k_per_logint" := transfer__k_per_logint]>
    (<["transfer__kmax" := transfer__kmax]>
    (<["ThreadNum" := ThreadNum]> ∅))))))) in
  let w0 := mkWorld (mkTransfer cpdict camb_options (Cosmology cpdict) ∅)
                    [] [] in
  match (setattr Cosmo HAVE_PYCAMB float_of_string "lnk_min" lnk_min ;;;
         setattr Cosmo HAVE_PYCAMB float_of_string "lnk_max" lnk_max ;;;
         setattr Cosmo HAVE_PYCAMB float_of_string "dlnk" dlnk ;;;
         setattr Cosmo HAVE_PYCAMB float_of_string "wdm_mass" wdm_mass ;;;
         setattr Cosmo HAVE_PYCAMB float_of_string "z" z ;;;
         setattr Cosmo HAVE_PYCAMB float_of_string "transfer_fit"
                 transfer_fit) w0 with
  | (Raise e, _) => Failed (Raised e)
  | (Ok _, w) =>
      let t := set_cosmo Cosmo (Cosmology (_cpdict (self w))) (self w) in
      let left_out := if contains "omegab" kwargs
                      then ["omegab_h2"; "omegac_h2"]
                      else ["omegab"; "omegac"] in
      let actual_cosmo :=
        keys_in (fun k => in_list k _cp && negb (in_list k left_out))
                (cosmo_dict (cosmo t)) in
      match (if contains "h" kwargs then del_key "H0" actual_cosmo
             else if contains "H0" kwargs then del_key "h" actual_cosmo
             else Built actual_cosmo) with
      | Failed e => Failed e
      | Built actual_cosmo =>
          Built (set_cpdict Cosmo (actual_cosmo ∪ _cpdict t) t)
      end
  end.

End Object.

End TransferInit.

(** ** Arguments for the constructor *)

Module SampleInit.
Import Py TransferObj TransferInit.
Local Open Scope list_scope.

(** The attributes of the sample cosmology: the keywords it was built from
    and the two forms of the Hubble parameter. *)
Definition cosmo_dict (c : gmap string pyval) : gmap string pyval :=
  <["h" := VFloat (Fin 0.7)]> (<["H0" := VFloat (Fin 70)]> c).

(** The constructor of the sample object with the Eisenstein-Hu fit; pycamb
    is not installed. *)
Definition init (kwargs : gmap string pyval)
  : init_result (Transfer (gmap string pyval)) :=
  __init__ (gmap string pyval) Sample.Cosmology false Sample.float_of_string
           cosmo_dict
           (VFloat (Fin 0)) (VFloat (Fin (-18))) (VFloat (Fin 10))
           (VFloat (Fin 0.05)) VNone (VStr "EH")
           (VInt 1) (VInt 1) (VInt 1) (VBool false) (VInt 11) (VInt 5)
           (VInt 0) kwargs.

End SampleInit.

(** ** HALOFIT on float64 as numpy computes it *)

Module HalofitFloat.
Import Numpy.
Local Open Scope list_scope.

Declare Scope fl_scope.
Delimit Scope fl_scope with fl.

(** The arithmetic of Python and numpy on float64, taken as it is: a literal
    of the source, the four operations, the unary minus, [x ** y],
    [np.abs], [np.exp], [np.log] and [x < y].  Nothing is assumed of them;
    on float64 they round, overflow to an infinity and give nan. *)
Record arith (F : Type) : Type := mkArith {
  f_lit : Q -> F;
  f_add : F -> F -> F;
  f_sub : F -> F -> F;
  f_mul : F -> F -> F;
  f_div : F -> F -> F;
  f_neg : F -> F;
  f_pow : F -> F -> F;
  f_abs : F -> F;
  f_exp : F -> F;
  f_log : F -> F;
  f_lt : F -> F -> bool
}.

Arguments f_lit {F} a q.
Arguments f_add {F} a x y.
Arguments f_sub {F} a x y.
Arguments f_mul {F} a x y.
Arguments f_div {F} a x y.
Arguments f_neg {F} a x.
Arguments f_pow {F} a x y.
Arguments f_abs {F} a x.
Arguments f_exp {F} a x.
Arguments f_log {F} a x.
Arguments f_lt {F} a x y.

(** The fields of [self.cosmo] that the routines read. *)
Record cosmology (F : Type) : Type := mkCosmology {
  sigma_8 : F;
  omegam : F;
  omegav : F;
  omegan : F;
  w : F
}.

Arguments mkCosmology {F} sigma_8 omegam omegav omegan w.
Arguments sigma_8 {F} c.
Arguments omegam {F} c.
Arguments omegav {F} c.
Arguments omegan {F} c.
Arguments w {F} c.

(** [a[mask] = vals] on arrays of any kind of entry. *)
Fixpoint put_mask {F : Type} (a : list F) (mask : list bool) (vals : list F)
  : result (list F) :=
  match a, mask with
  | [], [] =>
      match vals with
      | [] => Ok []
      | _ :: _ => Raise (ValueError [VStr "shape mismatch"])
      end
  | x :: a', true :: mask' =>
      match vals with
      | v :: vals' =>
          let* rest := put_mask a' mask' vals' in Ok (v :: rest)
      | [] => Raise (ValueError [VStr "shape mismatch"])
      end
  | x :: a', false :: mask' =>
      let* rest := put_mask a' mask' vals in Ok (x :: rest)
  | _, _ => Raise (IndexError [VStr "boolean index did not match"])
  end.

(** [dev1, dev2 = derivatives[1:3]]. *)
Definition unpack_1_3 {F : Type} (d : list F) : result (F * F) :=
  match firstn 2 (skipn 1 d) with
  | [d1; d2] => Ok (d1, d2)
  | _ => Raise (ValueError [VStr "wrong number of values to unpack"])
  end.

Section Arith.

Variable F : Type.
Variable A : arith F.

(** scipy, numpy's [linspace] and cosmolopy, on float64. *)
Variable simps : list F -> list F -> F.
Variable spline : list F -> list F -> nat -> F -> F.
Variable spline_derivatives : list F -> list F -> nat -> F -> result (list F).
Variable np_linspace : F -> F -> nat -> list F.
Variable omega_M_z : F -> cosmology F -> F.
Variable e_z : F -> cosmology F -> F.

Local Abbreviation lit := (f_lit A).
Local Notation "x + y" := (f_add A x y) : fl_scope.
Local Notation "x - y" := (f_sub A x y) : fl_scope.
Local Notation "x * y" := (f_mul A x y) : fl_scope.
Local Notation "x / y" := (f_div A x y) : fl_scope.
Local Notation "- x" := (f_neg A x) : fl_scope.
Local Notation "x ** y" := (f_pow A x y)
  (at level 30, right associativity) : fl_scope.
Local Notation "x <? y" := (f_lt A x y) : fl_scope.
Local Open Scope fl_scope.

(** [integ.simps(delta_k * np.exp(-(k * R) ** 2), np.log(k))]. *)
Definition sigma2 (k delta_k : list F) (radius : F) : F :=
  simps (zip_with (fun d kk => d * f_exp A (- (kk * radius) ** lit 2))
                  delta_k k)
        (map (f_log A) k).

(** The loops that fill [lnsig] from [lnr]. *)
Definition lnsig_on (k delta_k lnr : list F) : list F :=
  map (fun r => f_log A (sigma2 k delta_k (f_exp A r))) lnr.

(** The loop over the candidate radii. *)
Fixpoint search (k delta_k : list F) (rs : list F) (lnsig_old : option F)
  : result F :=
  match rs with
  | [] =>
      match lnsig_old with
      | Some v => Ok v
      | None => Raise (UnboundLocalError [VStr "lnsig1"])
      end
  | r :: rest =>
      let lnsig1 := f_log A (sigma2 k delta_k r) in
      if lnsig1 <? lit 0 then
        match lnsig_old with
        | Some v => Ok v
        | None => Raise (UnboundLocalError [VStr "lnsig_old"])
        end
      else search k delta_k rest (Some lnsig1)
  end.

(** "Initialize sigma spline". *)
Definition sigma_grid (c : cosmology F) (k delta_k : list F)
  : result (list F * list F) :=
  if (sigma_8 c <? lit 1.0) && (lit 0.6 <? sigma_8 c) then
    let lnr := np_linspace (f_log A (lit 0.1)) (f_log A (lit 10.0)) 500 in
    Ok (lnr, lnsig_on k delta_k lnr)
  else
    let* lnsig1 :=
      search k delta_k
             (map lit [0.0001; 0.001; 0.01; 0.1; 1.0; 10.0; 100.0; 1000.0]%Q)
             None in
    let lnr := np_linspace (f_log A (lit 0.01)) (f_log A (lit 10 * lnsig1))
                           500 in
    Ok (lnr, lnsig_on k delta_k lnr).

(** [_get_spec]; the [print] is left out. *)
Definition _get_spec (c : cosmology F) (lnk delta_k : list F)
  : result (F * F * F) :=
  let k := map (f_exp A) lnk in
  let delta_k := map (f_exp A) delta_k in
  let* grid := sigma_grid c k delta_k in
  let lnr := fst grid in
  let lnsig := snd grid in
  let rknl := lit 1.0 / f_exp A (spline (rev lnsig) (rev lnr) 5 (lit 0.0)) in
  let* devs :=
    match rbind (spline_derivatives lnr lnsig 5 (f_log A (lit 1.0 / rknl)))
                unpack_1_3
    with
    | Ok d => Ok d
    | Raise _ =>
        let lnr := np_linspace (f_log A (lit 0.2 / rknl))
                               (f_log A (lit 5 / rknl)) 100 in
        let lnsig := lnsig_on k delta_k lnr in
        rbind (spline_derivatives lnr lnsig 5 (f_log A (lit 1.0 / rknl)))
              unpack_1_3
    end in
  let rneff := - fst devs - lit 3.0 in
  let rncur := - snd devs in
  Ok (rknl, rneff, rncur).

(** [_halofit] at one wavenumber [k] with linear power [plin]; on arrays it
    works element by element.  The [print] is left out. *)
Definition _halofit_at (self_cosmo : cosmology F) (self_z : F)
    (neff rncur rknl : F) (k plin : F) : F :=
  let omegam_z := omega_M_z self_z self_cosmo in
  let omegav_z := omegav self_cosmo / e_z self_z self_cosmo ** lit 2 in
  let w := w self_cosmo in
  let fnu := omegan self_cosmo / omegam self_cosmo in
  let a := lit 10 ** (lit 1.5222 + lit 2.8553 * neff
                      + lit 2.3706 * neff ** lit 2
                      + lit 0.9903 * neff ** lit 3
                      + lit 0.2250 * neff ** lit 4
                      + - lit 0.6038 * rncur
                      + lit 0.1749 * omegav_z * (lit 1 + w)) in
  let b := lit 10 ** (- lit 0.5642 + lit 0.5864 * neff
                      + lit 0.5716 * neff ** lit 2
                      + - lit 1.5474 * rncur
                      + lit 0.2279 * omegav_z * (lit 1 + w)) in
  let c := lit 10 ** (lit 0.3698 + lit 2.0404 * neff
                      + lit 0.8161 * neff ** lit 2
                      + lit 0.5869 * rncur) in
  let gam := lit 0.1971 - lit 0.0843 * neff + lit 0.8460 * rncur in
  let alpha := f_abs A (lit 6.0835 + lit 1.3373 * neff
                        - lit 0.1959 * neff ** lit 2
                        + - lit 5.5274 * rncur) in
  let beta := lit 2.0379 - lit 0.7354 * neff + lit 0.3157 * neff ** lit 2
              + lit 1.2490 * neff ** lit 3 + lit 0.3980 * neff ** lit 4
              - lit 0.1682 * rncur
              + fnu * (lit 1.081 + lit 0.395 * neff ** lit 2) in
  let xmu := lit 0.0 in
  let xnu := lit 10 ** (lit 5.2105 + lit 3.6902 * neff) in
  let curved := lit 0.01 <? f_abs A (lit 1 - omegam_z) in
  let frac := omegav_z / (lit 1 - omegam_z) in
  let f1 := if curved
            then frac * omegam_z ** (- lit 0.0307)
                 + (lit 1 - frac) * omegam_z ** (- lit 0.0732)
            else lit 1.0 in
  let f2 := if curved
            then frac * omegam_z ** (- lit 0.0585)
                 + (lit 1 - frac) * omegam_z ** (- lit 0.1423)
            else lit 1.0 in
  let f3 := if curved
            then frac * omegam_z ** lit 0.0743
                 + (lit 1 - frac) * omegam_z ** lit 0.0725
            else lit 1.0 in
  let y := k / rknl in
  let ph := a * y ** (f1 * lit 3)
            / (lit 1 + b * y ** f2 + (f3 * c * y) ** (lit 3 - gam)) in
  let ph := ph / (lit 1 + xmu * y ** (- lit 1) + xnu * y ** (- lit 2))
            * (lit 1 + fnu * (lit 0.977
                              - lit 18.015 * (omegam self_cosmo - lit 0.3))) in
  let plinaa := plin * (lit 1 + fnu * lit 47.48 * k ** lit 2
                                / (lit 1 + lit 1.5 * k ** lit 2)) in
  let pq := plin * (lit 1 + plinaa) ** beta / (lit 1 + plinaa * alpha)
            * f_exp A (- y / lit 4.0 - y ** lit 2 / lit 8.0) in
  pq + ph.

Definition _halofit (self_cosmo : cosmology F) (self_z : F)
    (k : list F) (neff rncur rknl : F) (plin : list F) : list F :=
  zip_with (_halofit_at self_cosmo self_z neff rncur rknl) k plin.

(** [nonlinear_delta_k]; [lnk] is [self.lnk], [delta_k] is [self.delta_k]. *)
Definition nonlinear_delta_k (self_cosmo : cosmology F) (self_z : F)
    (lnk delta_k : list F) : result (list F) :=
  let* spec := _get_spec self_cosmo lnk delta_k in
  let rknl := fst (fst spec) in
  let rneff := snd (fst spec) in
  let rncur := snd spec in
  let mask := map (fun x => lit 0.005 <? f_exp A x) lnk in
  let plin := map (f_exp A) delta_k in
  let k := map (f_exp A) (compress mask lnk) in
  let pnl := _halofit self_cosmo self_z k rneff rncur rknl
                      (compress mask plin) in
  let* nonlinear := put_mask (map (f_exp A) delta_k) mask pnl in
  Ok (map (f_log A) nonlinear).

End Arith.

End HalofitFloat.

(** ** A sample of float64 *)

Module SampleFloat.
Import Py HalofitFloat.
Local Open Scope list_scope.

(** What the sample knows of a float64: its value (a finite one idealised as
    a rational, as everywhere in this file); that it is at least 0 and below
    0.0025; or nothing.  The sample never makes up a value: where the
    float64 result is not fixed by the rules below it is [Unknown]. *)
Inductive sample64 : Type :=
  | Known (x : pyfloat)
  | Tiny
  | Unknown.

(** [np.exp]: [inf] from 710 on (the largest float64 is below [e^710]), 0.0
    up to -746 (half the smallest float64 is above [e^-746]), a number
    between 0 and 0.0025 up to -6 ([e^-6] is 0.00248), 1.0 at 0. *)
Definition exp64 (x : sample64) : sample64 :=
  match x with
  | Known NaN => Known NaN
  | Known PInf => Known PInf
  | Known NInf => Known (Fin 0)
  | Known (Fin q) =>
      if Qle_bool 710 q then Known PInf
      else if Qle_bool q (-746) then Known (Fin 0)
      else if Qle_bool q (-6) then Tiny
      else if Qeq_bool q 0 then Known (Fin 1)
      else Unknown
  | Tiny => Unknown
  | Unknown => Unknown
  end.

(** [np.log]: [-inf] at 0.0, nan below 0, 0.0 at 1, [inf] at [inf]. *)
Definition log64 (x : sample64) : sample64 :=
  match x with
  | Known NaN => Known NaN
  | Known PInf => Known PInf
  | Known NInf => Known NaN
  | Known (Fin q) =>
      if Qeq_bool q 0 then Known NInf
      else if Qle_bool q 0 then Known NaN
      else if Qeq_bool q 1 then Known (Fin 0)
      else Unknown
  | Tiny => Unknown
  | Unknown => Unknown
  end.

Definition neg64 (x : sample64) : sample64 :=
  match x with
  | Known (Fin q) => Known (Fin (- q))
  | Known PInf => Known NInf
  | Known NInf => Known PInf
  | Known NaN => Known NaN
  | _ => Unknown
  end.

Definition abs64 (x : sample64) : sample64 :=
  match x with
  | Known (Fin q) => Known (Fin (Qabs q))
  | Known PInf => Known PInf
  | Known NInf => Known PInf
  | Known NaN => Known NaN
  | Tiny => Tiny
  | Unknown => Unknown
  end.

(** Sums, differences, products and quotients of finite numbers are
    idealised as exact; the rest is left [Unknown]. *)
Definition exact64 (f : Q -> Q -> Q) (x y : sample64) : sample64 :=
  match x, y with
  | Known (Fin a), Known (Fin b) => Known (Fin (f a b))
  | _, _ => Unknown
  end.

Definition div64 (x y : sample64) : sample64 :=
  match x, y with
  | Known (Fin a), Known (Fin b) =>
      if Qeq_bool b 0 then Unknown else Known (Fin (a / b))
  | _, _ => Unknown
  end.

(** [x < y]; a comparison that the sample cannot decide is left [false]. *)
Definition lt64 (x y : sample64) : bool :=
  match x, y with
  | Known a, Known b => float_ltb a b
  | Known (Fin c), Tiny => negb (Qle_bool 0 c)
  | Known NInf, Tiny => true
  | Tiny, Known (Fin c) => Qle_bool 0.0025 c
  | Tiny, Known PInf => true
  | _, _ => false
  end.

Definition arith64 : arith sample64 :=
  mkArith sample64 (fun q => Known (Fin q))
          (exact64 Qplus) (exact64 Qminus) (exact64 Qmult) div64
          neg64 (fun _ _ => Unknown) abs64 exp64 log64 lt64.

(** Stand-ins for scipy, [np.linspace] and cosmolopy: an integral that is
    1, a spline that evaluates to its argument and has zero derivatives, a
    constant grid, and the cosmology at [z = 0]. *)
Definition simps (y x : list sample64) : sample64 := Known (Fin 1).

Definition spline (x y : list sample64) (deg : nat) (t : sample64)
  : sample64 := t.

Definition spline_derivatives (x y : list sample64) (deg : nat)
    (t : sample64) : result (list sample64) :=
  Ok (repeat (Known (Fin 0)) (S deg)).

Definition np_linspace (a b : sample64) (n : nat) : list sample64 :=
  repeat a n.

Definition omega_M_z (z : sample64) (c : cosmology sample64) : sample64 :=
  omegam c.

Definition e_z (z : sample64) (c : cosmology sample64) : sample64 :=
  Known (Fin 1).

Definition cosmo_planck : cosmology sample64 :=
  mkCosmology (Known (Fin 0.8344)) (Known (Fin 0.3175))
              (Known (Fin 0.6825)) (Known (Fin 0)) (Known (Fin (-1))).

(** The grid of [lnk_min = -700], [lnk_max = 1], [dlnk = 7]: 101 wavenumbers
    from [e^-700] to 1, and on it a spectrum with [delta_k = 4 lnk]. *)
Definition lnk_wide : list sample64 :=
  map (fun i => Known (Fin (inject_Z (-700 + 7 * Z.of_nat i)))) (seq 0 101).

Definition delta_k_wide : list sample64 :=
  map (fun i => Known (Fin (inject_Z (4 * (-700 + 7 * Z.of_nat i)))))
      (seq 0 101).

(** [nonlinear_delta_k] on the sample. *)
Definition run (lnk delta_k : list sample64) : result (list sample64) :=
  nonlinear_delta_k sample64 arith64 simps spline spline_derivatives
                    np_linspace omega_M_z e_z cosmo_planck (Known (Fin 0))
                    lnk delta_k.

End SampleFloat.

(** * Theorems *)

(** ** Facts about the low-k filter *)

Module LowKFacts.
Import LowK.

Lemma slice_to_last_removelast {A : Type} (start : nat) (a : list A) :
  slice_to_last start a = removelast (skipn start a).
Proof.
  unfold slice_to_last.
  rewrite removelast_firstn_len, length_skipn.
  f_equal. lia.
Qed.

(** In range, the loop is a search for the first flat index. *)
Lemma scan_is_find (lnk lnT : list Q) (idxs : list nat) :
  length lnT = length lnk ->
  Forall (fun i => (i + 1 < length lnk)%nat) idxs ->
  scan lnk lnT idxs = Ok (List.find (flat_at lnk lnT) idxs).
Proof.
  intros Hlen Hall. induction Hall as [| i rest Hi _ IH]; simpl;
    [reflexivity |].
  unfold getitem, flat_at.
  destruct (nth_error lnT (i + 1)) as [t1|] eqn:E1;
    [| apply nth_error_None in E1; lia].
  destruct (nth_error lnT i) as [t0|] eqn:E0;
    [| apply nth_error_None in E0; lia].
  destruct (nth_error lnk (i + 1)) as [k1|] eqn:E3;
    [| apply nth_error_None in E3; lia].
  destruct (nth_error lnk i) as [k0|] eqn:E2;
    [| apply nth_error_None in E2; lia].
  simpl. destruct (slope_below _ _); [reflexivity | exact IH].
Qed.

(** In particular the loop raises nothing on arrays of one length. *)
Lemma scan_ok (lnk lnT : list Q) (idxs : list nat) :
  length lnT = length lnk ->
  Forall (fun i => (i + 1 < length lnk)%nat) idxs ->
  exists r, scan lnk lnT idxs = Ok r.
Proof.
  intros Hlen Hall. eexists. apply scan_is_find; assumption.
Qed.

Lemma seq_below (n : nat) (len : nat) :
  (n = len - 1)%nat -> Forall (fun i => (i + 1 < len)%nat) (seq 0 n).
Proof.
  intros ->. apply List.Forall_forall. intros i Hi.
  apply in_seq in Hi. lia.
Qed.

(** On arrays of one length the filter returns, and its result is the tail
    from the first flat index with the LAST point removed. *)
Lemma check_low_k_shape (lnk lnT : list Q) :
  length lnT = length lnk ->
  _check_low_k lnk lnT =
    Ok (removelast (skipn (first_flat lnk lnT) lnk),
        removelast (skipn (first_flat lnk lnT) lnT)).
Proof.
  intros Hlen. unfold _check_low_k, first_flat.
  destruct (scan_ok lnk lnT (seq 0 (length lnk - 1)) Hlen
              (seq_below _ _ eq_refl)) as [r Hr].
  rewrite Hr. simpl.
  rewrite !slice_to_last_removelast.
  destruct r; reflexivity.
Qed.

(** The start index is the first flat index of the table, 0 without one. *)
Lemma first_flat_is_first (lnk lnT : list Q) :
  length lnT = length lnk ->
  first_flat lnk lnT =
    match List.find (flat_at lnk lnT) (seq 0 (length lnk - 1)) with
    | Some i => i
    | None => 0%nat
    end.
Proof.
  intros Hlen. unfold first_flat.
  rewrite (scan_is_find lnk lnT _ Hlen (seq_below _ _ eq_refl)).
  reflexivity.
Qed.

End LowKFacts.

(** ** Claims about the low-k filter *)

Module LowKClaims.
Import LowK LowKFacts.
Local Open Scope list_scope.

Lemma scan_found_in (lnk lnT : list Q) (idxs : list nat) (i : nat) :
  scan lnk lnT idxs = Ok (Some i) -> In i idxs.
Proof.
  induction idxs as [| j rest IH]; simpl; [discriminate |].
  destruct (getitem lnT (j + 1)); simpl; [| discriminate].
  destruct (getitem lnT j); simpl; [| discriminate].
  destruct (getitem lnk (j + 1)); simpl; [| discriminate].
  destruct (getitem lnk j); simpl; [| discriminate].
  destruct (slope_below _ _).
  - intros [= ->]. now left.
  - intros H. right. auto.
Qed.

Lemma first_flat_lt (lnk lnT : list Q) :
  lnk <> [] -> (first_flat lnk lnT < length lnk)%nat.
Proof.
  intros Hne. unfold first_flat.
  assert (0 < length lnk)%nat by (destruct lnk; simpl; [congruence | lia]).
  destruct (scan lnk lnT _) as [[i|]|] eqn:E; try assumption.
  apply scan_found_in, in_seq in E. lia.
Qed.

Lemma last_skipn {A : Type} (n : nat) (l : list A) (d : A) :
  (n < length l)%nat -> List.last (skipn n l) d = List.last l d.
Proof.
  revert l. induction n as [| n IH]; intros l Hn; [reflexivity |].
  destruct l as [| x l]; simpl in *; [lia |].
  rewrite IH by lia.
  destruct l; simpl in *; [lia | reflexivity].
Qed.

Lemma skipn_split_last {A : Type} (n : nat) (l : list A) (d : A) :
  (n < length l)%nat ->
  skipn n l = removelast (skipn n l) ++ [List.last l d].
Proof.
  intros Hn. rewrite <- (last_skipn n l d Hn).
  apply app_removelast_last.
  intros E. apply (f_equal (@length A)) in E.
  rewrite length_skipn in E. simpl in E. lia.
Qed.

(** C2 (the code departs from the claim): on every non-empty table the filter
    returns, but what it returns is not the tail that starts at the first flat
    index: the slice [[start:-1]] also removes the last point, so that tail is
    the output followed by the point of highest k. *)
Theorem check_low_k_drops_last_point (lnk lnT : list Q) :
  length lnT = length lnk ->
  lnk <> [] ->
  exists out_k out_T,
    _check_low_k lnk lnT = Ok (out_k, out_T) /\
    skipn (first_flat lnk lnT) lnk = out_k ++ [List.last lnk 0%Q] /\
    skipn (first_flat lnk lnT) lnT = out_T ++ [List.last lnT 0%Q] /\
    out_k <> skipn (first_flat lnk lnT) lnk.
Proof.
  intros Hlen Hne.
  pose proof (first_flat_lt lnk lnT Hne) as Hlt.
  exists (removelast (skipn (first_flat lnk lnT) lnk)),
         (removelast (skipn (first_flat lnk lnT) lnT)).
  split; [apply check_low_k_shape; assumption |].
  split; [apply skipn_split_last; assumption |].
  split; [apply skipn_split_last; rewrite Hlen; assumption |].
  intros E. apply (f_equal (@length Q)) in E.
  rewrite (skipn_split_last _ lnk 0%Q Hlt) in E at 2.
  rewrite length_app in E. simpl in E. lia.
Qed.

(** A table whose first slope is already flat: nothing is to be trimmed, and
    the point (0, -3/2) is lost all the same. *)
Lemma check_low_k_drops_last_point_witness :
  _check_low_k [-3; -2; -1; 0]%Q [0; 0; -(1 # 2); -(3 # 2)]%Q
    = Ok ([-3; -2; -1]%Q, [0; 0; -(1 # 2)]%Q) /\
  exists out_k out_T,
    _check_low_k [-3; -2; -1; 0]%Q [0; 0; -(1 # 2); -(3 # 2)]%Q
      = Ok (out_k, out_T) /\
    skipn (first_flat [-3; -2; -1; 0]%Q [0; 0; -(1 # 2); -(3 # 2)]%Q)
          [-3; -2; -1; 0]%Q = out_k ++ [List.last [-3; -2; -1; 0]%Q 0%Q] /\
    skipn (first_flat [-3; -2; -1; 0]%Q [0; 0; -(1 # 2); -(3 # 2)]%Q)
          [0; 0; -(1 # 2); -(3 # 2)]%Q
      = out_T ++ [List.last [0; 0; -(1 # 2); -(3 # 2)]%Q 0%Q] /\
    out_k <> skipn (first_flat [-3; -2; -1; 0]%Q [0; 0; -(1 # 2); -(3 # 2)]%Q)
                   [-3; -2; -1; 0]%Q.
Proof.
  split; [reflexivity |].
  apply (check_low_k_drops_last_point
           [-3; -2; -1; 0]%Q [0; 0; -(1 # 2); -(3 # 2)]%Q);
    [reflexivity | discriminate].
Defined.

End LowKClaims.

(** ** Facts about the cache and the setters *)

Module TransferFacts.
Import Py TransferObj.
Local Open Scope list_scope.

(** Depth 12 reaches the whole graph: the list of dependents of a cached
    quantity contains the children of each of its members. *)
Lemma descendants_closed :
  forallb (fun top =>
    forallb (fun n =>
      forallb (fun c => in_list c (dependents top)) (children_of n))
    (dependents top))
  (map fst cached_children) = true.
Proof. vm_compute. reflexivity. Qed.

(** No cached quantity lists the wavenumber grid among its children. *)
Lemma lnk_has_no_parent :
  forallb (fun kv : string * list string => negb (in_list "lnk" (snd kv)))
          cached_children = true.
Proof. vm_compute. reflexivity. Qed.

Section Facts.

Variable Cosmo : Type.

Lemma lookup_delete_all (names : list string) (d : gmap string pyval)
    (key : string) :
  ~ In key (map mangle names) ->
  foldr (fun n d => delete (mangle n) d) d names !! key = d !! key.
Proof.
  induction names as [| n names IH]; simpl; intros Hnot; [reflexivity |].
  rewrite lookup_delete_ne by (intros E; apply Hnot; now left).
  apply IH. intros Hin. apply Hnot. now right.
Qed.

Lemma lookup_delete_hit (names : list string) (d : gmap string pyval)
    (key : string) :
  In key (map mangle names) ->
  foldr (fun n d => delete (mangle n) d) d names !! key = None.
Proof.
  induction names as [| n names IH]; simpl; intros Hin; [contradiction |].
  destruct (decide (mangle n = key)) as [-> | Hne].
  - apply lookup_delete_eq.
  - rewrite lookup_delete_ne by assumption.
    apply IH. destruct Hin; [contradiction | assumption].
Qed.

Lemma del_cached_run (name : string) (w : World Cosmo) :
  del_cached Cosmo name w = (Ok tt, dropped Cosmo name w).
Proof. reflexivity. Qed.

(** Deleting a cached quantity touches the entries of its dependents only. *)
Lemma dropped_frame (name key : string) (w : World Cosmo) :
  ~ In key (map mangle (dependents name)) ->
  __dict__ (self (dropped Cosmo name w)) !! key = __dict__ (self w) !! key.
Proof.
  intros Hnot. unfold dropped, set_dict.
  cbn [self __dict__].
  exact (lookup_delete_all (dependents name) _ key Hnot).
Qed.

Lemma dropped_hit (name key : string) (w : World Cosmo) :
  In key (map mangle (dependents name)) ->
  __dict__ (self (dropped Cosmo name w)) !! key = None.
Proof.
  intros Hin. unfold dropped, set_dict.
  cbn [self __dict__].
  exact (lookup_delete_hit (dependents name) _ key Hin).
Qed.

Lemma dropped_fields (name : string) (w : World Cosmo) :
  _cpdict (self (dropped Cosmo name w)) = _cpdict (self w) /\
  _camb_options (self (dropped Cosmo name w)) = _camb_options (self w) /\
  cosmo (self (dropped Cosmo name w)) = cosmo (self w) /\
  stdout (dropped Cosmo name w) = stdout w /\
  tools_calls (dropped Cosmo name w) = tools_calls w.
Proof. unfold dropped, set_dict. cbn. tauto. Qed.

End Facts.

End TransferFacts.

(** ** Claims about the settable parameters *)

Module SetterClaims.
Import Py TransferObj TransferFacts.
Local Open Scope list_scope.

Section Setters.

Variable Cosmo : Type.
Variable Cosmology : gmap string pyval -> Cosmo.
Variable float_of_string : string -> option pyfloat.

(** C7 (amended): without pycamb, setting [transfer_fit] to "CAMB" raises a
    [ValueError] in the setter itself, and the object, with everything it has
    cached, is left exactly as it was.  The same holds when the assignment is
    made through [update] on an object whose fit is another one: the error
    comes out of [update] and nothing has changed. *)
Theorem transfer_fit_camb_without_pycamb (w : World Cosmo) :
  setattr Cosmo false float_of_string "transfer_fit" (VStr "CAMB") w
    = (Raise (ValueError
         [VStr "You cannot use the CAMB transfer since pycamb isn't installed"]),
       w) /\
  forall cur : pyval,
    _camb_options (self w) !! "transfer_fit" = None ->
    __dict__ (self w) !! mangle "transfer_fit" = Some cur ->
    py_any_ne cur (VStr "CAMB") = true ->
    update Cosmo Cosmology false float_of_string
           [("transfer_fit", VStr "CAMB")] w
      = (Raise (ValueError
           [VStr "You cannot use the CAMB transfer since pycamb isn't installed"]),
         w).
Proof.
  split; [reflexivity |].
  intros cur Hopt Hcur Hne.
  unfold update.
  cbn [List.filter fst in_list existsb _cp String.eqb Ascii.eqb Bool.eqb orb].
  unfold bind at 1. unfold ret at 1.
  unfold bind at 1. cbn [for_each]. unfold bind at 1.
  unfold update_other, bind, gets. cbn [fst snd].
  rewrite Hopt, Hcur, Hne.
  reflexivity.
Qed.

(** With pycamb installed the same assignment is accepted: the value is
    stored and the transfer function, with what depends on it, is dropped. *)
Lemma transfer_fit_camb_with_pycamb (w : World Cosmo) :
  fst (setattr Cosmo true float_of_string "transfer_fit" (VStr "CAMB") w)
    = Ok tt /\
  __dict__ (self (snd (setattr Cosmo true float_of_string
                         "transfer_fit" (VStr "CAMB") w)))
    !! mangle "transfer_fit" = Some (VStr "CAMB") /\
  __dict__ (self (snd (setattr Cosmo true float_of_string
                         "transfer_fit" (VStr "CAMB") w)))
    !! mangle "_unnormalised_lnT" = None.
Proof.
  split; [reflexivity |].
  unfold setattr. cbn [String.eqb Ascii.eqb Bool.eqb].
  unfold set_property, transfer_fit, bind, lift, modify.
  cbn [negb andb assoc set_children String.eqb Ascii.eqb Bool.eqb
       for_each].
  unfold bind. rewrite del_cached_run. cbn [ret fst snd].
  split.
  - rewrite dropped_frame by (vm_compute; intuition discriminate).
    cbn [self __dict__ set_dict]. apply lookup_insert_eq.
  - apply dropped_hit. vm_compute. tauto.
Qed.

(** C8 (amended): setting [z] to a value that [float] converts to a number
    below 0, or [wdm_mass] to one that it converts to a number at or below 0,
    or either of them to a string that [float] rejects, raises a
    [ValueError] in the setter, before the value is stored and before any
    cached quantity is deleted: the object is left exactly as it was.  What
    [float] cannot convert is not covered: [None] and arrays give a
    [TypeError] and an integer beyond the range of float64 gives an
    [OverflowError], neither of which the setters catch. *)
Theorem setter_rejects_before_storing (w : World Cosmo) (have_pycamb : bool)
    (name : string) (val : pyval) :
  name = "z" \/ name = "wdm_mass" ->
  unparsable float_of_string val \/
    (exists x, py_float float_of_string val = Ok x /\
               out_of_range name x = true) ->
  exists args,
    setattr Cosmo have_pycamb float_of_string name val w
      = (Raise (ValueError args), w).
Proof.
  intros Hname Hbad.
  destruct Hname as [-> | ->]; unfold setattr;
    cbn [String.eqb Ascii.eqb Bool.eqb];
    unfold set_property, bind, lift.
  - unfold z.
    destruct Hbad as [(s & -> & Hs) | (x & Hx & Hr)].
    + cbn [py_float]. rewrite Hs. eauto.
    + rewrite Hx. cbn in Hr. rewrite Hr. eauto.
  - unfold wdm_mass.
    destruct Hbad as [(s & -> & Hs) | (x & Hx & Hr)].
    + cbn [py_float]. rewrite Hs. eauto.
    + destruct val; try discriminate Hx;
        rewrite Hx; cbn in Hr; rewrite Hr; eauto.
Qed.

(** [None] passes the check of [wdm_mass] as it is. *)
Lemma wdm_mass_None_ok : wdm_mass float_of_string VNone = Ok VNone.
Proof. reflexivity. Qed.

(** [float(None)] is a [TypeError], which the setter of [z] does not catch. *)
Lemma z_None_TypeError :
  exists args, z float_of_string VNone = Raise (TypeError args).
Proof. cbn. eauto. Qed.

(** An integer that [float] cannot convert is an [OverflowError] in both
    setters, however far below zero it is: the exception is not caught, the
    value is not stored and the object is left as it was. *)
Lemma setter_overflow_not_caught (w : World Cosmo) (have_pycamb : bool)
    (name : string) (n : Z) :
  name = "z" \/ name = "wdm_mass" ->
  (float_overflow <= Z.abs n)%Z ->
  setattr Cosmo have_pycamb float_of_string name (VInt n) w
    = (Raise (OverflowError [VStr "long int too large to convert to float"]),
       w).
Proof.
  intros Hname Hn. apply Z.leb_le in Hn.
  destruct Hname as [-> | ->]; unfold setattr;
    cbn [String.eqb Ascii.eqb Bool.eqb];
    unfold set_property, bind, lift.
  - unfold z, py_float. rewrite Hn. reflexivity.
  - unfold wdm_mass, py_float. rewrite Hn. reflexivity.
Qed.

End Setters.

(** C7, as stated: the exception raised is not a [ConfigurationError]. *)
Lemma transfer_fit_camb_not_ConfigurationError :
  ~ exists e w',
      setattr (gmap string pyval) false Sample.float_of_string
              "transfer_fit" (VStr "CAMB") Sample.world0 = (Raise e, w') /\
      exn_class e = "ConfigurationError".
Proof.
  intros (e & w' & Hrun & Hclass).
  change (setattr _ _ _ _ _ _) with
    (@Raise unit (ValueError
       [VStr "You cannot use the CAMB transfer since pycamb isn't installed"]),
     Sample.world0) in Hrun.
  injection Hrun as <- _. discriminate Hclass.
Qed.


(** C8, as stated: [None] is not a number, and [wdm_mass] takes it without
    raising. *)
Lemma wdm_mass_None_is_accepted :
  (exists e, py_float Sample.float_of_string VNone = Raise e) /\
  fst (setattr (gmap string pyval) false Sample.float_of_string
               "wdm_mass" VNone Sample.world0) = Ok tt /\
  ~ exists args w',
      setattr (gmap string pyval) false Sample.float_of_string
              "wdm_mass" VNone Sample.world0 = (Raise (ValueError args), w').
Proof.
  split; [cbn; eauto |].
  split; [reflexivity |].
  intros (args & w' & Hrun).
  apply (f_equal fst) in Hrun.
  change (fst (setattr _ _ _ _ _ _)) with (@Ok unit tt) in Hrun.
  discriminate Hrun.
Qed.

(** The sample object uses the Eisenstein-Hu fit; asking for CAMB fails both
    ways and leaves it as it is. *)
Lemma transfer_fit_camb_without_pycamb_witness :
  setattr (gmap string pyval) false Sample.float_of_string
          "transfer_fit" (VStr "CAMB") Sample.world0
    = (Raise (ValueError
         [VStr "You cannot use the CAMB transfer since pycamb isn't installed"]),
       Sample.world0) /\
  update (gmap string pyval) Sample.Cosmology false Sample.float_of_string
         [("transfer_fit", VStr "CAMB")] Sample.world0
    = (Raise (ValueError
         [VStr "You cannot use the CAMB transfer since pycamb isn't installed"]),
       Sample.world0).
Proof.
  destruct (transfer_fit_camb_without_pycamb (gmap string pyval)
              Sample.Cosmology Sample.float_of_string Sample.world0)
    as [Hset Hupd].
  split; [exact Hset |].
  apply (Hupd (VStr "EH")); vm_compute; reflexivity.
Defined.

(** [z = -10^400] on the sample object: below zero, and no [ValueError]. *)
Lemma z_beyond_float_range :
  setattr (gmap string pyval) false Sample.float_of_string
          "z" (VInt (- 10 ^ 400)) Sample.world0
    = (Raise (OverflowError [VStr "long int too large to convert to float"]),
       Sample.world0).
Proof.
  apply (setter_overflow_not_caught (gmap string pyval)
           Sample.float_of_string Sample.world0 false "z" (- 10 ^ 400)).
  - left. reflexivity.
  - vm_compute. discriminate.
Qed.

(** [z = -1] and [wdm_mass = "abc"] on the sample object. *)
Lemma setter_rejects_before_storing_witness :
  (exists args,
     setattr (gmap string pyval) false Sample.float_of_string
             "z" (VInt (-1)) Sample.world0
       = (Raise (ValueError args), Sample.world0)) /\
  (exists args,
     setattr (gmap string pyval) false Sample.float_of_string
             "wdm_mass" (VStr "abc") Sample.world0
       = (Raise (ValueError args), Sample.world0)).
Proof.
  split.
  - apply (setter_rejects_before_storing (gmap string pyval)
             Sample.float_of_string Sample.world0 false "z" (VInt (-1))).
    + left. reflexivity.
    + right. exists (Fin (-1)). split; reflexivity.
  - apply (setter_rejects_before_storing (gmap string pyval)
             Sample.float_of_string Sample.world0 false "wdm_mass"
             (VStr "abc")).
    + right. reflexivity.
    + left. exists "abc". split; reflexivity.
Defined.

End SetterClaims.

(** ** Claims about the growth factor *)

Module GrowthClaims.
Import Py TransferObj TransferFacts.
Local Open Scope list_scope.

Lemma zero_not_positive (zv : pyval) :
  py_eq zv (VFloat (Fin 0)) = true -> py_gt_zero zv = false.
Proof.
  unfold py_eq, py_gt_zero.
  destruct (to_number zv) as [x |] eqn:E.
  - cbn [to_number]. destruct x as [a | | |]; cbn; try discriminate.
    intros H. apply Qeq_bool_iff in H.
    apply Bool.negb_false_iff, Qle_bool_iff.
    rewrite H. apply Qle_refl.
  - destruct zv; cbn in *; congruence.
Qed.

Section Growth.

Variable Cosmo : Type.
Variable growth_factor : pyval -> Cosmo -> pyval.

(** The body of [growth] at redshift zero: the constant, and the same world. *)
Lemma growth_short_circuit (w : World Cosmo) (zv : pyval) :
  __dict__ (self w) !! mangle "z" = Some zv ->
  py_eq zv (VFloat (Fin 0)) = true ->
  growth Cosmo growth_factor w = (Ok (VFloat (Fin 1)), w).
Proof.
  intros Hz H0. unfold growth, get_property, bind, gets.
  rewrite Hz. unfold ret at 1.
  rewrite (zero_not_positive zv H0). reflexivity.
Qed.

(** Read through the cache when nothing is cached: the constant is returned,
    stored, and [tools] is not called. *)
Lemma growth_first_read (w : World Cosmo) (zv : pyval) :
  __dict__ (self w) !! mangle "z" = Some zv ->
  py_eq zv (VFloat (Fin 0)) = true ->
  __dict__ (self w) !! mangle "growth" = None ->
  get_cached Cosmo "growth" (growth Cosmo growth_factor) w
    = (Ok (VFloat (Fin 1)),
       mkWorld (set_dict Cosmo
                  (<[mangle "growth" := VFloat (Fin 1)]> (__dict__ (self w)))
                  (self w))
               (stdout w) (tools_calls w)).
Proof.
  intros Hz H0 Hnone.
  unfold get_cached, bind, gets. rewrite Hnone.
  rewrite (growth_short_circuit w zv Hz H0). reflexivity.
Qed.

(** C4: when the redshift of the object is zero the growth factor is the
    float 1.0, whatever the cosmology and whatever [tools.growth_factor]
    would compute, and the integrator is not called: the world after the
    call, with its record of calls to [tools], is the world before.  Read
    through the cache, the value 1.0 is what is returned and stored. *)
Theorem growth_at_z0 (w : World Cosmo) (zv : pyval) :
  __dict__ (self w) !! mangle "z" = Some zv ->
  py_eq zv (VFloat (Fin 0)) = true ->
  growth Cosmo growth_factor w = (Ok (VFloat (Fin 1)), w) /\
  (__dict__ (self w) !! mangle "growth" = None ->
   fst (get_cached Cosmo "growth" (growth Cosmo growth_factor) w)
     = Ok (VFloat (Fin 1)) /\
   tools_calls (snd (get_cached Cosmo "growth" (growth Cosmo growth_factor) w))
     = tools_calls w).
Proof.
  intros Hz H0.
  split; [exact (growth_short_circuit w zv Hz H0) |].
  intros Hnone.
  rewrite (growth_first_read w zv Hz H0 Hnone).
  split; reflexivity.
Qed.

(** Setting [z] to 0 drops whatever growth factor was cached, so the next
    read gives 1.0 without a call to [tools]. *)
Lemma growth_after_setting_z0 (have_pycamb : bool)
    (float_of_string : string -> option pyfloat) (w : World Cosmo) :
  exists w',
    setattr Cosmo have_pycamb float_of_string "z" (VInt 0) w = (Ok tt, w') /\
    fst (get_cached Cosmo "growth" (growth Cosmo growth_factor) w')
      = Ok (VFloat (Fin 1)) /\
    tools_calls (snd (get_cached Cosmo "growth"
                        (growth Cosmo growth_factor) w'))
      = tools_calls w.
Proof.
  eexists. split.
  - unfold setattr. cbn [String.eqb Ascii.eqb Bool.eqb].
    unfold set_property, bind, lift.
    change (z float_of_string (VInt 0))
      with (@Ok pyval (VFloat (Fin (inject_Z 0)))).
    cbn [assoc set_children String.eqb Ascii.eqb Bool.eqb for_each].
    unfold modify at 1. unfold bind. rewrite del_cached_run. reflexivity.
  - rewrite (growth_first_read _ (VFloat (Fin (inject_Z 0)))).
    + split; reflexivity.
    + rewrite dropped_frame by (vm_compute; intuition discriminate).
      cbn [self __dict__ set_dict]. apply lookup_insert_eq.
    + reflexivity.
    + apply dropped_hit. vm_compute. tauto.
Qed.

End Growth.

Lemma growth_at_z0_witness :
  growth (gmap string pyval) Sample.growth_factor Sample.world0
    = (Ok (VFloat (Fin 1)), Sample.world0) /\
  (__dict__ (self Sample.world0) !! mangle "growth" = None ->
   fst (get_cached (gmap string pyval) "growth"
          (growth (gmap string pyval) Sample.growth_factor) Sample.world0)
     = Ok (VFloat (Fin 1)) /\
   tools_calls (snd (get_cached (gmap string pyval) "growth"
          (growth (gmap string pyval) Sample.growth_factor) Sample.world0))
     = tools_calls Sample.world0).
Proof.
  apply (growth_at_z0 (gmap string pyval) Sample.growth_factor
           Sample.world0 (VFloat (Fin 0))).
  - vm_compute. reflexivity.
  - reflexivity.
Defined.

(** At a positive redshift the integrator is what answers. *)
Lemma growth_at_positive_z (Cosmo : Type)
    (growth_factor : pyval -> Cosmo -> pyval) (w : World Cosmo) (zv : pyval) :
  __dict__ (self w) !! mangle "z" = Some zv ->
  py_gt_zero zv = true ->
  growth Cosmo growth_factor w
    = (Ok (growth_factor zv (cosmo (self w))),
       mkWorld (self w) (stdout w) (tools_calls w ++ ["growth_factor"])).
Proof.
  intros Hz Hpos. unfold growth, get_property, bind, gets.
  rewrite Hz. unfold ret at 1. rewrite Hpos. reflexivity.
Qed.

End GrowthClaims.

(** ** Claims about [update] *)

Module UpdateClaims.
Import Py TransferObj TransferFacts.
Local Open Scope list_scope.

Section Update.

Variable Cosmo : Type.
Variable Cosmology : gmap string pyval -> Cosmo.
Variable HAVE_PYCAMB : bool.
Variable float_of_string : string -> option pyfloat.

Abbreviation update := (update Cosmo Cosmology HAVE_PYCAMB float_of_string).
Abbreviation update_other :=
  (update_other Cosmo HAVE_PYCAMB float_of_string).

Lemma filter_nothing {A : Type} (f : A -> bool) (l : list A) :
  Forall (fun a => f a = false) l -> List.filter f l = [].
Proof.
  induction 1 as [| a l Ha _ IH]; simpl; [reflexivity |].
  rewrite Ha. exact IH.
Qed.

Lemma warn_each (kwargs : list (string * pyval)) (w : World Cosmo) :
  Forall (unknown_keyword (self w)) kwargs ->
  for_each Cosmo kwargs update_other w
    = (Ok tt,
       mkWorld (self w)
               (stdout w ++ map (fun kv => warning (fst kv)) kwargs)
               (tools_calls w)).
Proof.
  revert w. induction kwargs as [| kv rest IH]; intros w Hall.
  - simpl. rewrite app_nil_r. destruct w; reflexivity.
  - inversion Hall as [| ? ? (Hcp & Hopt & Hdict) Hrest]; subst.
    cbn [for_each]. unfold bind at 1.
    assert (Hone : update_other kv w
                   = (Ok tt, mkWorld (self w) (stdout w ++ [warning (fst kv)])
                                     (tools_calls w))).
    { unfold TransferObj.update_other, bind, gets. cbn [self].
      rewrite Hopt, Hdict. reflexivity. }
    rewrite Hone. rewrite IH by exact Hrest.
    cbn [self stdout tools_calls map].
    rewrite <- app_assoc. reflexivity.
Qed.

Lemma assoc_absent {A : Type} (k : string) (l : list (string * A)) :
  Forall (fun kv => fst kv <> k) l -> assoc k l = None.
Proof.
  induction 1 as [| [k' a] l Hk _ IH]; simpl; [reflexivity |].
  destruct (String.eqb_spec k k') as [-> | _]; [now elim Hk | exact IH].
Qed.

(** C10 (amended): on a constructed object (one whose [z] is set), keywords
    that are neither cosmological parameters nor CAMB options and for which
    the instance has no entry [_Transfer__key], be it a parameter or a
    cached quantity, make [update] return normally: for each keyword, in
    turn, it prints the line "WARNING:  key  is not a valid parameter for
    the Transfer class", and it leaves the parameters, the cosmology and
    every cached quantity as they were. *)
Theorem update_unknown_keywords (w : World Cosmo)
    (kwargs : list (string * pyval)) :
  is_Some (__dict__ (self w) !! mangle "z") ->
  Forall (unknown_keyword (self w)) kwargs ->
  update kwargs w
    = (Ok tt,
       mkWorld (self w)
               (stdout w ++
                  map (fun kv : string * pyval =>
                         ("WARNING:  " ++ fst kv ++
                          "  is not a valid parameter for the Transfer class"
                         )%string) kwargs)
               (tools_calls w)).
Proof.
  intros Hz Hall.
  change (fun kv : string * pyval =>
            ("WARNING:  " ++ fst kv ++
             "  is not a valid parameter for the Transfer class")%string)
    with (fun kv : string * pyval => warning (fst kv)).
  unfold TransferObj.update.
  rewrite filter_nothing
    by (eapply List.Forall_impl; [| exact Hall]; intros kv H; apply H).
  unfold bind at 1. unfold ret at 1.
  unfold bind at 1. rewrite warn_each by exact Hall.
  unfold update_growth. cbn [has_key assoc orb].
  rewrite assoc_absent; [reflexivity |].
  eapply List.Forall_impl; [| exact Hall].
  intros kv (_ & _ & Hdict) E. rewrite E in Hdict.
  rewrite Hdict in Hz. destruct Hz as [? Hz]. discriminate Hz.
Qed.

Lemma normalisation_dependent_names :
  normalisation_dependent =
    ["_lnP_cdm_0"; "_lnP_0"; "power"; "delta_k"; "nonlinear_delta_k";
     "nonlinear_power"; "_lnT_cdm"; "transfer"]%string.
Proof. vm_compute. reflexivity. Qed.

(** Reading a quantity that is cached returns it and computes nothing. *)
Lemma get_cached_hit (name : string) (compute : M Cosmo pyval)
    (w : World Cosmo) (v : pyval) :
  __dict__ (self w) !! mangle name = Some v ->
  get_cached Cosmo name compute w = (Ok v, w).
Proof.
  intros H. unfold get_cached, bind, gets. rewrite H. reflexivity.
Qed.

Lemma update_sigma_8_run (w : World Cosmo) (v : pyval) :
  update [("sigma_8", v)] w =
    (Ok tt,
     if sigma_8_changes (self w) v then
       dropped Cosmo "_lnT_cdm"
         (dropped Cosmo "_lnP_cdm_0"
            (mkWorld
               (mkTransfer (<["sigma_8" := v]> (_cpdict (self w)))
                           (_camb_options (self w))
                           (Cosmology (<["sigma_8" := v]> (_cpdict (self w))))
                           (__dict__ (self w)))
               (stdout w) (tools_calls w)))
     else
       mkWorld
         (mkTransfer (_cpdict (self w)) (_camb_options (self w))
                     (Cosmology (_cpdict (self w))) (__dict__ (self w)))
         (stdout w) (tools_calls w)).
Proof.
  unfold TransferObj.update, sigma_8_changes.
  cbn [List.filter fst in_list existsb _cp String.eqb Ascii.eqb Bool.eqb orb].
  unfold update_cosmology, bind at 1. unfold bind at 1, gets at 1.
  cbn [List.filter fst snd].
  destruct (_cpdict (self w) !! "sigma_8") as [old |] eqn:E;
    [destruct (py_eq v old) |]; cbn [negb];
    reflexivity.
Qed.

Lemma dropped_twice_frame (n1 n2 key : string) (w : World Cosmo) :
  ~ In key (map mangle (dependents n1 ++ dependents n2)) ->
  __dict__ (self (dropped Cosmo n2 (dropped Cosmo n1 w))) !! key
    = __dict__ (self w) !! key.
Proof.
  intros Hnot. rewrite map_app, in_app_iff in Hnot.
  rewrite dropped_frame by tauto.
  apply dropped_frame. tauto.
Qed.

Lemma dropped_twice_hit (n1 n2 key : string) (w : World Cosmo) :
  In key (map mangle (dependents n1 ++ dependents n2)) ->
  __dict__ (self (dropped Cosmo n2 (dropped Cosmo n1 w))) !! key = None.
Proof.
  intros Hin. rewrite map_app, in_app_iff in Hin.
  destruct (in_dec string_dec key (map mangle (dependents n2))) as [H2 | H2].
  - apply dropped_hit. exact H2.
  - rewrite dropped_frame by exact H2.
    apply dropped_hit. tauto.
Qed.

(** C6: [update] with the one keyword [sigma_8] returns normally, and
    afterwards the wavenumber grid [lnk] and the transfer function
    [_unnormalised_lnT] are still cached with the values they had: reading
    them returns those values without running their bodies.  The entries of
    the instance that differ are among the normalisation-dependent quantities
    (all of which are dropped when the value of [sigma_8] changes); the CAMB
    options are untouched and [update] itself calls no numerical routine. *)
Theorem update_sigma_8_keeps_grid (w : World Cosmo) (v a b : pyval) :
  __dict__ (self w) !! mangle "lnk" = Some a ->
  __dict__ (self w) !! mangle "_unnormalised_lnT" = Some b ->
  exists w',
    update [("sigma_8", v)] w = (Ok tt, w') /\
    (forall compute, get_cached Cosmo "lnk" compute w' = (Ok a, w')) /\
    (forall compute,
       get_cached Cosmo "_unnormalised_lnT" compute w' = (Ok b, w')) /\
    (forall key, ~ In key (map mangle normalisation_dependent) ->
       __dict__ (self w') !! key = __dict__ (self w) !! key) /\
    (sigma_8_changes (self w) v = true ->
     forall key, In key (map mangle normalisation_dependent) ->
       __dict__ (self w') !! key = None) /\
    _camb_options (self w') = _camb_options (self w) /\
    stdout w' = stdout w /\
    tools_calls w' = tools_calls w.
Proof.
  intros Ha Hb. eexists. split; [apply update_sigma_8_run |].
  assert (Hframe : forall key,
    ~ In key (map mangle normalisation_dependent) ->
    __dict__ (self (if sigma_8_changes (self w) v then
       dropped Cosmo "_lnT_cdm"
         (dropped Cosmo "_lnP_cdm_0"
            (mkWorld
               (mkTransfer (<["sigma_8" := v]> (_cpdict (self w)))
                           (_camb_options (self w))
                           (Cosmology (<["sigma_8" := v]> (_cpdict (self w))))
                           (__dict__ (self w)))
               (stdout w) (tools_calls w)))
     else
       mkWorld
         (mkTransfer (_cpdict (self w)) (_camb_options (self w))
                     (Cosmology (_cpdict (self w))) (__dict__ (self w)))
         (stdout w) (tools_calls w))) !! key = __dict__ (self w) !! key).
  { intros key Hkey. destruct (sigma_8_changes (self w) v).
    - rewrite dropped_twice_frame by exact Hkey. reflexivity.
    - reflexivity. }
  split; [| split; [| split; [exact Hframe | split; [| split; [| split]]]]].
  - intros compute. apply get_cached_hit. rewrite <- Ha.
    apply Hframe. vm_compute. intuition discriminate.
  - intros compute. apply get_cached_hit. rewrite <- Hb.
    apply Hframe. vm_compute. intuition discriminate.
  - intros -> key Hkey. apply dropped_twice_hit. exact Hkey.
  - destruct (sigma_8_changes (self w) v); reflexivity.
  - destruct (sigma_8_changes (self w) v); reflexivity.
  - destruct (sigma_8_changes (self w) v); reflexivity.
Qed.

End Update.

(** C10, as stated: [lnk] is no cosmological parameter, no CAMB option and no
    settable parameter, yet on the sample object, where the grid is cached,
    [update(lnk=...)] with another array raises and prints no warning. *)
Lemma update_cached_name_raises :
  in_list "lnk" _cp = false /\
  _camb_options (self Sample.world0) !! "lnk" = None /\
  assoc "lnk" set_children = None /\
  TransferObj.update (gmap string pyval) Sample.Cosmology false
      Sample.float_of_string [("lnk", VArr [Fin 0; Fin 1])] Sample.world0
    = (Raise (AttributeError [VStr "can't set attribute"]), Sample.world0).
Proof. repeat split; vm_compute; reflexivity. Qed.

(** The sample object, called with [foo=1]. *)
Lemma update_unknown_keywords_witness :
  TransferObj.update (gmap string pyval) Sample.Cosmology false
      Sample.float_of_string [("foo", VInt 1)] Sample.world0
    = (Ok tt,
       mkWorld (self Sample.world0)
               (stdout Sample.world0 ++
                  ["WARNING:  foo  is not a valid parameter for the Transfer class"])
               (tools_calls Sample.world0)).
Proof.
  apply (update_unknown_keywords (gmap string pyval) Sample.Cosmology false
           Sample.float_of_string Sample.world0 [("foo", VInt 1)]).
  - exists (VFloat (Fin 0)). vm_compute. reflexivity.
  - constructor; [| constructor].
    repeat split; vm_compute; reflexivity.
Defined.


(** The sample object has the grid, the transfer function and the normalised
    power cached; [sigma_8] goes from 0.8344 to 0.9. *)
Lemma update_sigma_8_keeps_grid_witness :
  exists w',
    TransferObj.update (gmap string pyval) Sample.Cosmology false
        Sample.float_of_string [("sigma_8", VFloat (Fin 0.9))] Sample.world0
      = (Ok tt, w') /\
    (forall compute,
       get_cached (gmap string pyval) "lnk" compute w'
         = (Ok (VArr [Fin (-1); Fin 0]), w')) /\
    (forall compute,
       get_cached (gmap string pyval) "_unnormalised_lnT" compute w'
         = (Ok (VArr [Fin 0; Fin (-(1 # 2))]), w')) /\
    (forall key, ~ In key (map mangle normalisation_dependent) ->
       __dict__ (self w') !! key = __dict__ (self Sample.world0) !! key) /\
    (sigma_8_changes (self Sample.world0) (VFloat (Fin 0.9)) = true ->
     forall key, In key (map mangle normalisation_dependent) ->
       __dict__ (self w') !! key = None) /\
    _camb_options (self w') = _camb_options (self Sample.world0) /\
    stdout w' = stdout Sample.world0 /\
    tools_calls w' = tools_calls Sample.world0.
Proof.
  apply (update_sigma_8_keeps_grid (gmap string pyval) Sample.Cosmology false
           Sample.float_of_string Sample.world0 (VFloat (Fin 0.9))
           (VArr [Fin (-1); Fin 0]) (VArr [Fin 0; Fin (-(1 # 2))])).
  - vm_compute. reflexivity.
  - vm_compute. reflexivity.
Defined.

End UpdateClaims.

(** ** Facts about masks *)

Module MaskFacts.
Import Numpy.
Local Open Scope list_scope.

(** Selecting with a mask, computing on the selection and writing the
    results back through the same mask is a computation in place. *)
Lemma put_mask_in_place (m : R -> bool) (e e' : R -> R) (h : R -> R -> R)
    (xs ds : list R) :
  length ds = length xs ->
  put_mask (map e ds) (map m xs)
           (zip_with h (map e' (compress (map m xs) xs))
                       (compress (map m xs) (map e ds)))
    = Ok (zip_with (fun x d => if m x then h (e' x) (e d) else e d) xs ds).
Proof.
  revert ds. induction xs as [| x xs IH]; intros [| d ds] Hlen;
    simpl in Hlen; try discriminate; [reflexivity |].
  injection Hlen as Hlen. specialize (IH ds Hlen).
  cbn [map put_mask compress zip_with].
  destruct (m x); cbn [map zip_with]; rewrite IH; reflexivity.
Qed.

End MaskFacts.

(** ** Claims about the non-linear power *)

Module NonlinearClaims.
Import Numpy Halofit MaskFacts.
Local Open Scope list_scope.
Local Open Scope R_scope.

Section Backend.

Variable simps : list R -> list R -> R.
Variable spline : list R -> list R -> nat -> R -> R.
Variable spline_derivatives : list R -> list R -> nat -> R -> result (list R).
Variable omega_M_z : R -> cosmology -> R.
Variable e_z : R -> cosmology -> R.

(** Over the reals: whenever [_get_spec] returns, [nonlinear_delta_k]
    returns an array on the grid; at every [k = exp(lnk[i])] at or below
    0.005 its entry is the entry of [delta_k], since [ln (exp d) = d], and at
    every [k] above 0.005 it is the logarithm of [_halofit_at] at [k] and at
    the linear dimensionless power [exp(delta_k[i])].  On float64 the round
    trip through [np.exp] and [np.log] rounds: see [NonlinearFloat]. *)
Theorem nonlinear_delta_k_threshold (self_cosmo : cosmology) (self_z : R)
    (lnk delta_k : list R) (rknl rneff rncur : R) :
  length delta_k = length lnk ->
  _get_spec simps spline spline_derivatives self_cosmo lnk delta_k
    = Ok (rknl, rneff, rncur) ->
  exists out,
    nonlinear_delta_k simps spline spline_derivatives omega_M_z e_z
                      self_cosmo self_z lnk delta_k = Ok out /\
    length out = length lnk /\
    forall (i : nat) (x d : R),
      lnk !! i = Some x -> delta_k !! i = Some d ->
      (exp x <= 0.005 -> out !! i = Some d) /\
      (0.005 < exp x ->
       out !! i = Some (ln (_halofit_at omega_M_z e_z self_cosmo self_z
                                        rneff rncur rknl (exp x) (exp d)))).
Proof.
  intros Hlen Hspec.
  unfold nonlinear_delta_k. rewrite Hspec. cbn [rbind fst snd].
  unfold _halofit.
  rewrite (put_mask_in_place (fun x => Rltb 0.005 (exp x)) exp exp
             (_halofit_at omega_M_z e_z self_cosmo self_z rneff rncur rknl)
             lnk delta_k Hlen).
  cbn [rbind]. eexists. split; [reflexivity |]. split.
  - rewrite length_map, length_zip_with. lia.
  - intros i x d Hx Hd.
    rewrite list_lookup_fmap, lookup_zip_with, Hx, Hd. cbn.
    unfold Rltb. destruct (Rlt_dec 0.005 (exp x)) as [Hgt | Hle].
    + split; [lra | reflexivity].
    + split; [| intros; contradiction].
      intros _. rewrite ln_exp. reflexivity.
Qed.

End Backend.

End NonlinearClaims.

(** ** Claims about [_get_spec] *)

Module GetSpecFacts.
Import Numpy Halofit.
Local Open Scope list_scope.
Local Open Scope R_scope.

Lemma Rltb_true (a b : R) : a < b -> Rltb a b = true.
Proof. intros H. unfold Rltb. destruct (Rlt_dec a b); [reflexivity | lra]. Qed.

Lemma Rltb_false (a b : R) : ~ a < b -> Rltb a b = false.
Proof.
  intros H. unfold Rltb. destruct (Rlt_dec a b); [contradiction | reflexivity].
Qed.

(** [sigma_8 < 1.0 and sigma_8 > 0.6] as one test. *)
Lemma in_range_iff (s : R) :
  Rltb s 1.0 && Rltb 0.6 s = true <-> 0.6 < s < 1.0.
Proof.
  unfold Rltb.
  destruct (Rlt_dec s 1.0), (Rlt_dec 0.6 s); cbn; split;
    intros H; try discriminate; try reflexivity; lra.
Qed.

Lemma not_in_range (s : R) :
  ~ (0.6 < s < 1.0) -> Rltb s 1.0 && Rltb 0.6 s = false.
Proof.
  intros H. apply Bool.not_true_is_false. intros E.
  apply in_range_iff in E. contradiction.
Qed.

Lemma length_linspace (a b : R) (n : nat) : length (linspace a b n) = n.
Proof. unfold linspace. rewrite length_map, length_seq. reflexivity. Qed.

(** The points of an ascending [linspace] lie between its ends. *)
Lemma linspace_between (a b : R) (n : nat) (x : R) :
  a <= b -> In x (linspace a b n) -> a <= x <= b.
Proof.
  intros Hab Hin. unfold linspace in Hin.
  apply in_map_iff in Hin. destruct Hin as (i & <- & Hi).
  apply in_seq in Hi.
  assert (Hi' : (i <= n - 1)%nat) by lia.
  apply le_INR in Hi'.
  pose proof (pos_INR i) as Hi0.
  destruct (Req_dec (INR (n - 1)) 0) as [Hz | Hnz].
  - assert (INR i = 0) by lra.
    replace (INR i) with 0 by lra. lra.
  - assert (Hpos : 0 < INR (n - 1)) by lra.
    assert (Hfrac : 0 <= INR i / INR (n - 1) <= 1).
    { split.
      - apply Rmult_le_pos; [lra | left; apply Rinv_0_lt_compat; lra].
      - apply (Rmult_le_reg_r (INR (n - 1))); [lra |].
        unfold Rdiv. rewrite Rmult_assoc, Rinv_l by lra. lra. }
    replace (INR i * ((b - a) / INR (n - 1)))
      with ((INR i / INR (n - 1)) * (b - a)) by (field; lra).
    split; nra.
Qed.

Lemma exp_monotone (a b : R) : a <= b -> exp a <= exp b.
Proof.
  intros [H | ->]; [left; apply exp_increasing; exact H | apply Rle_refl].
Qed.

(** A point at or above [ln a] is the logarithm of a radius at or above
    [a], and likewise below. *)
Lemma exp_above (a x : R) : 0 < a -> ln a <= x -> a <= exp x.
Proof.
  intros Ha H. rewrite <- (exp_ln a Ha). apply exp_monotone. exact H.
Qed.

Lemma exp_below (b x : R) : 0 < b -> x <= ln b -> exp x <= b.
Proof.
  intros Hb H. rewrite <- (exp_ln b Hb). apply exp_monotone. exact H.
Qed.

Section Backend.

Variable simps : list R -> list R -> R.

(** One pass of the loop. *)
Lemma search_step (k delta_k rest : list R) (r : R) (old : option R) :
  search simps k delta_k (r :: rest) old =
    if Rltb (ln (sigma2 simps k delta_k r)) 0 then
      match old with
      | Some v => Ok v
      | None => Raise (UnboundLocalError [VStr "lnsig_old"])
      end
    else search simps k delta_k rest
           (Some (ln (sigma2 simps k delta_k r))).
Proof. reflexivity. Qed.

(** Once a pass of the loop has completed, the search returns. *)
Lemma search_after_first (k delta_k rs : list R) (v : R) :
  exists u, search simps k delta_k rs (Some v) = Ok u.
Proof.
  revert v. induction rs as [| r rs IH]; intros v; simpl; [eauto |].
  destruct (Rltb _ 0); eauto.
Qed.

End Backend.

End GetSpecFacts.

Module GetSpecClaims.
Import Numpy Halofit GetSpecFacts.
Local Open Scope list_scope.
Local Open Scope R_scope.

Section Backend.

Variable simps : list R -> list R -> R.
Variable spline : list R -> list R -> nat -> R -> R.
Variable spline_derivatives : list R -> list R -> nat -> R -> result (list R).
Variable omega_M_z : R -> cosmology -> R.
Variable e_z : R -> cosmology -> R.

(** With [sigma_8] in (0.6, 1.0) the grid is [linspace] from [ln 0.1] to
    [ln 10] with 500 points, each radius between 0.1 and 10, and [rknl] is one
    over the exponential of the degree-5 spline of [lnr] against [lnsig],
    both reversed, at 0. *)
Lemma sigma_grid_in_range (c : cosmology) (k delta_k : list R) :
  0.6 < sigma_8 c < 1.0 ->
  sigma_grid simps c k delta_k
    = Ok (linspace (ln 0.1) (ln 10.0) 500,
          lnsig_on simps k delta_k (linspace (ln 0.1) (ln 10.0) 500)) /\
  length (linspace (ln 0.1) (ln 10.0) 500) = 500%nat /\
  forall x, In x (linspace (ln 0.1) (ln 10.0) 500) ->
            0.1 <= exp x <= 10.0.
Proof.
  intros Hs. unfold sigma_grid.
  rewrite (proj2 (in_range_iff (sigma_8 c)) Hs).
  split; [reflexivity |]. split; [apply length_linspace |].
  intros x Hx.
  apply linspace_between in Hx.
  - destruct Hx as [Hlo Hhi].
    split; [apply exp_above | apply exp_below]; (lra || assumption).
  - left. apply ln_increasing; lra.
Qed.

(** C9: with [sigma_8] outside (0.6, 1.0), the search over the candidate
    radii raises [UnboundLocalError] for [lnsig_old] exactly when [ln sigma^2]
    is negative at the first candidate, R = 1e-4; in that case [_get_spec]
    and [nonlinear_delta_k] fail with that error.  When [ln sigma^2] is not
    negative there, the search returns. *)
Theorem get_spec_unbound_lnsig_old (c : cosmology) (self_z : R)
    (lnk delta_k : list R) :
  ~ (0.6 < sigma_8 c < 1.0) ->
  (lnsig_at simps lnk delta_k 0.0001 < 0 <->
   sigma_grid simps c (map exp lnk) (map exp delta_k)
     = Raise (UnboundLocalError [VStr "lnsig_old"])) /\
  (lnsig_at simps lnk delta_k 0.0001 < 0 ->
   _get_spec simps spline spline_derivatives c lnk delta_k
     = Raise (UnboundLocalError [VStr "lnsig_old"]) /\
   nonlinear_delta_k simps spline spline_derivatives omega_M_z e_z
                     c self_z lnk delta_k
     = Raise (UnboundLocalError [VStr "lnsig_old"])) /\
  (0 <= lnsig_at simps lnk delta_k 0.0001 ->
   exists grid,
     sigma_grid simps c (map exp lnk) (map exp delta_k) = Ok grid).
Proof.
  intros Hout.
  assert (Hneg : lnsig_at simps lnk delta_k 0.0001 < 0 ->
                 sigma_grid simps c (map exp lnk) (map exp delta_k)
                 = Raise (UnboundLocalError [VStr "lnsig_old"])).
  { intros H. unfold sigma_grid. rewrite (not_in_range _ Hout).
    unfold candidates. rewrite search_step.
    unfold lnsig_at in H. rewrite (Rltb_true _ _ H). reflexivity. }
  assert (Hpos : 0 <= lnsig_at simps lnk delta_k 0.0001 ->
                 exists grid,
                   sigma_grid simps c (map exp lnk) (map exp delta_k)
                   = Ok grid).
  { intros H. unfold sigma_grid. rewrite (not_in_range _ Hout).
    unfold candidates. rewrite search_step.
    unfold lnsig_at in H. rewrite Rltb_false by lra.
    destruct (search_after_first simps (map exp lnk) (map exp delta_k)
                [0.001; 0.01; 0.1; 1.0; 10.0; 100.0; 1000.0]
                (ln (sigma2 simps (map exp lnk) (map exp delta_k) 0.0001)))
      as [u Hu].
    rewrite Hu. cbn [rbind]. eauto. }
  split; [| split; [| exact Hpos]].
  - split; [exact Hneg |].
    intros Hraise.
    destruct (Rlt_dec (lnsig_at simps lnk delta_k 0.0001) 0) as [H | H];
      [exact H |].
    destruct Hpos as [grid Hgrid]; [lra |].
    rewrite Hgrid in Hraise. discriminate Hraise.
  - intros H. specialize (Hneg H).
    unfold nonlinear_delta_k, _get_spec. rewrite Hneg. split; reflexivity.
Qed.

(** C3 (the code departs from the claim): with [sigma_8] outside (0.6, 1.0),
    when [ln sigma^2] crosses 0 between the candidates 1e-4 and 1e-3, the
    500-point grid that is built runs from R = 0.01 to R = 10 L, where L is
    the value of [ln sigma^2] at 1e-4: every radius of the grid is at least
    0.01, so the grid lies wholly above the crossing it was to surround. *)
Theorem get_spec_grid_off_crossing (c : cosmology) (lnk delta_k : list R) :
  ~ (0.6 < sigma_8 c < 1.0) ->
  0.001 <= lnsig_at simps lnk delta_k 0.0001 ->
  lnsig_at simps lnk delta_k 0.001 < 0 ->
  exists lnr lnsig,
    sigma_grid simps c (map exp lnk) (map exp delta_k) = Ok (lnr, lnsig) /\
    lnr = linspace (ln 0.01) (ln (10 * lnsig_at simps lnk delta_k 0.0001)) 500 /\
    length lnr = 500%nat /\
    forall x, In x lnr -> 0.001 < 0.01 <= exp x.
Proof.
  intros Hout Hfirst Hsecond.
  exists (linspace (ln 0.01) (ln (10 * lnsig_at simps lnk delta_k 0.0001)) 500).
  eexists. split; [| split; [reflexivity | split]].
  - unfold sigma_grid. rewrite (not_in_range _ Hout).
    unfold candidates. rewrite search_step.
    unfold lnsig_at in *.
    rewrite Rltb_false by lra.
    rewrite search_step.
    rewrite (Rltb_true _ _ Hsecond). cbn [rbind]. reflexivity.
  - apply length_linspace.
  - intros x Hx. split; [lra |].
    apply linspace_between in Hx.
    + destruct Hx as [Hlo _].
      apply exp_above; [lra | exact Hlo].
    + destruct (Req_dec 0.01 (10 * lnsig_at simps lnk delta_k 0.0001)) as [<- | Hne];
        [apply Rle_refl |].
      left. apply ln_increasing; lra.
Qed.

End Backend.

End GetSpecClaims.

(** ** Simpson's rule on the sample grid *)

Module SimpsonFacts.
Import Numpy Halofit GetSpecFacts SampleBackend.
Local Open Scope list_scope.
Local Open Scope R_scope.

Lemma simpson_three (y0 y1 y2 x0 x1 x2 h : R) :
  h <> 0 -> x1 - x0 = h -> x2 - x1 = h ->
  simpson [y0; y1; y2] [x0; x1; x2] = h / 3 * (y0 + 4 * y1 + y2).
Proof.
  intros Hh H0 H1. unfold simpson. cbn [length Nat.even basic_simps].
  rewrite H0, H1. field. exact Hh.
Qed.

Lemma exp_lower (x : R) : 1 + x <= exp x.
Proof.
  destruct (Req_dec x 0) as [-> | Hx].
  - rewrite exp_0. lra.
  - left. apply exp_ineq1. exact Hx.
Qed.

Lemma exp_neg_upper (t : R) : 0 <= t -> exp (- t) <= / (1 + t).
Proof.
  intros Ht. rewrite exp_Ropp.
  apply Rinv_le_contravar; [lra | apply exp_lower].
Qed.

Lemma ln3_bounds : 1 <= ln 3 < 2.
Proof.
  split.
  - destruct exp_le_3 as [H | H].
    + apply ln_increasing in H; [| apply exp_pos].
      rewrite ln_exp in H. lra.
    + rewrite <- H, ln_exp. apply Rle_refl.
  - assert (H : 3 < exp 2).
    { assert (1 + 2 < exp 2) by (apply exp_ineq1; lra). lra. }
    apply ln_increasing in H; [| lra].
    rewrite ln_exp in H. exact H.
Qed.

Lemma ln_3000 : ln 3000 - ln 1000 = ln 3.
Proof.
  replace 3000 with (3 * 1000) by lra.
  rewrite ln_mult by lra. lra.
Qed.

Lemma ln_9000 : ln 9000 - ln 3000 = ln 3.
Proof.
  replace 9000 with (3 * 3000) by lra.
  rewrite ln_mult by lra. lra.
Qed.

(** The variance integral on the three-point grid, for a flat spectrum
    [delta_k = [d; d; d]]. *)
Lemma sigma2_lnk3 (d r : R) :
  sigma2 simpson (map exp lnk3) (map exp [d; d; d]) r
    = ln 3 / 3 * (exp d * exp (- (1000 * r) ^ 2)
                  + 4 * (exp d * exp (- (3000 * r) ^ 2))
                  + exp d * exp (- (9000 * r) ^ 2)).
Proof.
  unfold sigma2, lnk3. cbn [map zip_with].
  rewrite !exp_ln by lra.
  apply simpson_three.
  - pose proof ln3_bounds. lra.
  - apply ln_3000.
  - apply ln_9000.
Qed.

End SimpsonFacts.

Module SampleRuns.
Import Numpy Halofit GetSpecFacts SampleBackend SimpsonFacts.
Local Open Scope list_scope.
Local Open Scope R_scope.

Lemma ln_monotone (a b : R) : 0 < a -> a <= b -> ln a <= ln b.
Proof.
  intros Ha [H | ->]; [left; apply ln_increasing; assumption | apply Rle_refl].
Qed.

Lemma exp_neg_sq_le_1 (x : R) : exp (- x ^ 2) <= 1.
Proof.
  rewrite <- exp_0. apply exp_monotone.
  pose proof (pow2_ge_0 x). lra.
Qed.

(** A faint flat spectrum, [delta_k = [-3; -3; -3]]: the variance at
    R = 1e-4 is already below 1. *)
Lemma faint_first_candidate :
  ln (sigma2 simpson (map exp lnk3) (map exp [-3; -3; -3]) 0.0001) < 0.
Proof.
  rewrite sigma2_lnk3.
  pose proof ln3_bounds as [Hl1 Hl2].
  assert (Hd : 0 < exp (-3) <= / 4).
  { split; [apply exp_pos |].
    replace (-3) with (Ropp 3) by lra.
    eapply Rle_trans; [apply exp_neg_upper; lra |].
    apply Rinv_le_contravar; lra. }
  pose proof (exp_pos (- (1000 * 0.0001) ^ 2)) as P0.
  pose proof (exp_pos (- (3000 * 0.0001) ^ 2)) as P1.
  pose proof (exp_pos (- (9000 * 0.0001) ^ 2)) as P2.
  pose proof (exp_neg_sq_le_1 (1000 * 0.0001)) as U0.
  pose proof (exp_neg_sq_le_1 (3000 * 0.0001)) as U1.
  pose proof (exp_neg_sq_le_1 (9000 * 0.0001)) as U2.
  set (E0 := exp (- (1000 * 0.0001) ^ 2)) in *.
  set (E1 := exp (- (3000 * 0.0001) ^ 2)) in *.
  set (E2 := exp (- (9000 * 0.0001) ^ 2)) in *.
  set (D := exp (-3)) in *.
  assert (A0 : 0 < D * E0 <= D).
  { split; [apply Rmult_lt_0_compat; lra |].
    rewrite <- (Rmult_1_r D) at 2. apply Rmult_le_compat_l; lra. }
  assert (A1 : 0 < D * E1 <= D).
  { split; [apply Rmult_lt_0_compat; lra |].
    rewrite <- (Rmult_1_r D) at 2. apply Rmult_le_compat_l; lra. }
  assert (A2 : 0 < D * E2 <= D).
  { split; [apply Rmult_lt_0_compat; lra |].
    rewrite <- (Rmult_1_r D) at 2. apply Rmult_le_compat_l; lra. }
  set (S := D * E0 + 4 * (D * E1) + D * E2).
  assert (HS : 0 < S <= 3 / 2) by (unfold S; lra).
  rewrite <- ln_1. apply ln_increasing.
  - apply Rmult_lt_0_compat; lra.
  - assert (ln 3 / 3 * S <= ln 3 / 3 * (3 / 2))
      by (apply Rmult_le_compat_l; lra).
    lra.
Qed.

Lemma exp_small : exp 0.001 <= 1.002.
Proof.
  assert (H : exp 0.001 * exp (- 0.001) = 1).
  { rewrite <- exp_plus. replace (0.001 + - 0.001) with 0 by lra.
    apply exp_0. }
  pose proof (exp_pos 0.001) as HX.
  pose proof (exp_lower (- 0.001)) as HY.
  set (X := exp 0.001) in *. set (Y := exp (- 0.001)) in *.
  assert (X * 0.999 <= X * Y) by (apply Rmult_le_compat_l; lra).
  lra.
Qed.

(** A flat spectrum of unit power, [delta_k = [0; 0; 0]]: the variance is
    above 1 at R = 1e-4 and below 1 at R = 1e-3. *)
Lemma flat_first_candidate :
  0.001 <= ln (sigma2 simpson (map exp lnk3) (map exp [0; 0; 0]) 0.0001).
Proof.
  rewrite sigma2_lnk3, exp_0.
  pose proof ln3_bounds as [Hl1 Hl2].
  pose proof (exp_lower (- (1000 * 0.0001) ^ 2)) as L0.
  pose proof (exp_lower (- (3000 * 0.0001) ^ 2)) as L1.
  pose proof (exp_lower (- (9000 * 0.0001) ^ 2)) as L2.
  set (E0 := exp (- (1000 * 0.0001) ^ 2)) in *.
  set (E1 := exp (- (3000 * 0.0001) ^ 2)) in *.
  set (E2 := exp (- (9000 * 0.0001) ^ 2)) in *.
  set (S := 1 * E0 + 4 * (1 * E1) + 1 * E2).
  assert (HS : 4.8 <= S) by (unfold S; lra).
  assert (Hsig : 1.6 <= ln 3 / 3 * S).
  { assert (1 / 3 * S <= ln 3 / 3 * S)
      by (apply Rmult_le_compat_r; lra).
    lra. }
  rewrite <- (ln_exp 0.001) at 1.
  apply ln_monotone; [apply exp_pos |].
  pose proof exp_small. lra.
Qed.

Lemma flat_second_candidate :
  ln (sigma2 simpson (map exp lnk3) (map exp [0; 0; 0]) 0.001) < 0.
Proof.
  rewrite sigma2_lnk3, exp_0.
  pose proof ln3_bounds as [Hl1 Hl2].
  assert (U0 : exp (- (1000 * 0.001) ^ 2) <= / 2).
  { eapply Rle_trans; [apply exp_neg_upper; nra |].
    apply Rinv_le_contravar; lra. }
  assert (U1 : exp (- (3000 * 0.001) ^ 2) <= / 10).
  { eapply Rle_trans; [apply exp_neg_upper; nra |].
    apply Rinv_le_contravar; lra. }
  assert (U2 : exp (- (9000 * 0.001) ^ 2) <= / 82).
  { eapply Rle_trans; [apply exp_neg_upper; nra |].
    apply Rinv_le_contravar; lra. }
  pose proof (exp_pos (- (1000 * 0.001) ^ 2)) as P0.
  pose proof (exp_pos (- (3000 * 0.001) ^ 2)) as P1.
  pose proof (exp_pos (- (9000 * 0.001) ^ 2)) as P2.
  set (E0 := exp (- (1000 * 0.001) ^ 2)) in *.
  set (E1 := exp (- (3000 * 0.001) ^ 2)) in *.
  set (E2 := exp (- (9000 * 0.001) ^ 2)) in *.
  set (S := 1 * E0 + 4 * (1 * E1) + 1 * E2).
  assert (HS : 0 < S <= 1) by (unfold S; lra).
  rewrite <- ln_1. apply ln_increasing.
  - apply Rmult_lt_0_compat; lra.
  - assert (ln 3 / 3 * S <= ln 3 / 3 * 1)
      by (apply Rmult_le_compat_l; lra).
    lra.
Qed.

End SampleRuns.

(** ** The HALOFIT claims on the sample grid *)

Module HalofitRuns.
Import Numpy Halofit GetSpecFacts SampleBackend SimpsonFacts SampleRuns.
Local Open Scope list_scope.
Local Open Scope R_scope.

(** A faint spectrum and [sigma_8 = 0.3]: the first candidate already has
    [ln sigma^2 < 0], and every routine fails on the unassigned name. *)
Lemma get_spec_unbound_lnsig_old_witness :
  sigma_grid simpson cosmo_low (map exp lnk3) (map exp [-3; -3; -3])
    = Raise (UnboundLocalError [VStr "lnsig_old"]) /\
  _get_spec simpson spline spline_derivatives cosmo_low lnk3 [-3; -3; -3]
    = Raise (UnboundLocalError [VStr "lnsig_old"]) /\
  nonlinear_delta_k simpson spline spline_derivatives omega_M_z e_z
                    cosmo_low 0 lnk3 [-3; -3; -3]
    = Raise (UnboundLocalError [VStr "lnsig_old"]).
Proof.
  destruct (GetSpecClaims.get_spec_unbound_lnsig_old
              simpson spline spline_derivatives omega_M_z e_z
              cosmo_low 0 lnk3 [-3; -3; -3]) as (Hiff & Hfail & _).
  - cbn. lra.
  - split.
    + apply Hiff. exact faint_first_candidate.
    + apply Hfail. exact faint_first_candidate.
Defined.

(** A flat spectrum of unit power on k = 1000, 3000, 9000 h/Mpc and
    [sigma_8 = 0.3]: the variance crosses 1 between R = 1e-4 and R = 1e-3,
    and no radius of the grid is below 0.01. *)
Lemma get_spec_grid_off_crossing_witness :
  0 <= ln (sigma2 simpson (map exp lnk3) (map exp [0; 0; 0]) 0.0001) /\
  ln (sigma2 simpson (map exp lnk3) (map exp [0; 0; 0]) 0.001) < 0 /\
  exists lnr lnsig,
    sigma_grid simpson cosmo_low (map exp lnk3) (map exp [0; 0; 0])
      = Ok (lnr, lnsig) /\
    lnr = linspace (ln 0.01)
            (ln (10 * lnsig_at simpson lnk3 [0; 0; 0] 0.0001))
            500 /\
    length lnr = 500%nat /\
    forall x, In x lnr -> 0.001 < 0.01 <= exp x.
Proof.
  split; [pose proof flat_first_candidate; lra |].
  split; [exact flat_second_candidate |].
  apply (GetSpecClaims.get_spec_grid_off_crossing
           simpson cosmo_low lnk3 [0; 0; 0]).
  - cbn. lra.
  - exact flat_first_candidate.
  - exact flat_second_candidate.
Defined.

(** With [sigma_8 = 0.8344] and the stand-in splines, [_get_spec] returns. *)
Lemma get_spec_planck (lnk delta_k : list R) :
  _get_spec simpson spline spline_derivatives cosmo_planck lnk delta_k
    = Ok (1.0 / exp 0.0, - 0 - 3.0, - 0).
Proof.
  unfold _get_spec.
  rewrite (proj1 (GetSpecClaims.sigma_grid_in_range simpson cosmo_planck
                    (map exp lnk) (map exp delta_k)
                    ltac:(cbn; lra))).
  reflexivity.
Qed.

(** Two wavenumbers, k = 0.001 below the threshold and k = 1 above it. *)
Lemma nonlinear_delta_k_threshold_witness :
  exists out,
    nonlinear_delta_k simpson spline spline_derivatives omega_M_z e_z
                      cosmo_planck 0 [ln 0.001; ln 1] [0; 0] = Ok out /\
    length out = length [ln 0.001; ln 1] /\
    forall (i : nat) (x d : R),
      [ln 0.001; ln 1] !! i = Some x -> [0; 0] !! i = Some d ->
      (exp x <= 0.005 -> out !! i = Some d) /\
      (0.005 < exp x ->
       out !! i = Some (ln (_halofit_at omega_M_z e_z cosmo_planck 0
                                        (- 0 - 3.0) (- 0) (1.0 / exp 0.0)
                                        (exp x) (exp d)))).
Proof.
  apply (NonlinearClaims.nonlinear_delta_k_threshold
           simpson spline spline_derivatives omega_M_z e_z
           cosmo_planck 0 [ln 0.001; ln 1] [0; 0]).
  - reflexivity.
  - apply get_spec_planck.
Defined.

End HalofitRuns.

Module NormalizeClaims.
Import Normalize.
Local Open Scope list_scope.
Local Open Scope R_scope.

Section Quadrature.

Variable weights : list R -> list R.

Lemma weighted_sum_scale (c : R) (ws ys : list R) :
  fold_right Rplus 0 (zip_with Rmult ws (map (Rmult c) ys))
    = c * fold_right Rplus 0 (zip_with Rmult ws ys).
Proof.
  revert ys. induction ws as [| w ws IH]; intros [| y ys]; simpl;
    try lra.
  rewrite IH. lra.
Qed.

(** An offset of the log power scales the integrand. *)
Lemma variance_integrand_offset (radius c : R) (lnk lnP : list R) :
  variance_integrand radius lnk (map (fun p => p + c) lnP)
    = map (Rmult (exp c)) (variance_integrand radius lnk lnP).
Proof.
  unfold variance_integrand.
  revert lnP. induction lnk as [| x lnk IH]; intros [| p lnP]; simpl;
    try reflexivity.
  rewrite IH, exp_plus. f_equal. field.
  pose proof PI_RGT_0. nra.
Qed.

Lemma mass_variance_offset (radius c : R) (lnk lnP : list R) :
  mass_variance weights radius lnk (map (fun p => p + c) lnP)
    = exp c * mass_variance weights radius lnk lnP.
Proof.
  unfold mass_variance, integrate.
  rewrite variance_integrand_offset. apply weighted_sum_scale.
Qed.

(** C5: for a positive target sigma_8 and a spectrum whose 8 Mpc/h variance
    is positive, the variance recomputed from the normalised spectrum gives
    back sigma_8; the relative error is zero, so within 1e-6. *)
Theorem normalize_round_trip (sigma8 mean_dens : R)
    (unnormalised_lnP lnk : list R) :
  0 < sigma8 ->
  0 < mass_variance weights 8 lnk unnormalised_lnP ->
  sqrt (mass_variance weights 8 lnk
          (_lnP_cdm_0 weights sigma8 unnormalised_lnP lnk mean_dens))
    = sigma8 /\
  Rabs (sqrt (mass_variance weights 8 lnk
                (_lnP_cdm_0 weights sigma8 unnormalised_lnP lnk mean_dens))
        - sigma8) / sigma8 <= 0.000001.
Proof.
  intros Hs Hv.
  assert (Hround :
    sqrt (mass_variance weights 8 lnk
            (_lnP_cdm_0 weights sigma8 unnormalised_lnP lnk mean_dens))
      = sigma8).
  { unfold _lnP_cdm_0, normalize. cbn [fst].
    rewrite mass_variance_offset.
    set (v := mass_variance weights 8 lnk unnormalised_lnP) in *.
    assert (Hsq : 0 < sqrt v) by (apply sqrt_lt_R0; exact Hv).
    assert (Hn : 0 < (sigma8 / sqrt v) ^ 2).
    { apply pow_lt. apply Rdiv_lt_0_compat; assumption. }
    rewrite exp_ln by exact Hn.
    replace ((sigma8 / sqrt v) ^ 2 * v) with (sigma8 ^ 2).
    - apply sqrt_pow2. lra.
    - rewrite <- (sqrt_sqrt v) at 2 by lra. field. lra. }
  split; [exact Hround |].
  rewrite Hround.
  replace (sigma8 - sigma8) with 0 by lra.
  rewrite Rabs_R0. unfold Rdiv. rewrite Rmult_0_l. lra.
Qed.

End Quadrature.

End NormalizeClaims.

Module NormalizeRuns.
Import Normalize.
Local Open Scope list_scope.
Local Open Scope R_scope.

Lemma top_hat_PI2 : 0 < top_hat (PI / 2).
Proof.
  unfold top_hat. rewrite sin_PI2, cos_PI2.
  pose proof PI_RGT_0 as Hpi.
  apply Rdiv_lt_0_compat; [lra |].
  apply pow_lt. lra.
Qed.

(** One node at the first maximum of the window, [8 k = pi / 2]. *)
Lemma one_node_variance :
  0 < mass_variance rectangle 8 [ln (PI / 16)] [0].
Proof.
  pose proof PI_RGT_0 as Hpi.
  unfold mass_variance, integrate, variance_integrand, rectangle.
  cbn [map zip_with fold_right].
  rewrite exp_ln by lra. rewrite exp_0.
  replace (PI / 16 * 8) with (PI / 2) by field.
  pose proof top_hat_PI2 as Hw.
  assert (H1 : 0 < (PI / 16) ^ 3) by (apply pow_lt; lra).
  assert (H2 : 0 < 2 * PI ^ 2).
  { apply Rmult_lt_0_compat; [lra | apply pow_lt; lra]. }
  assert (H3 : 0 < top_hat (PI / 2) ^ 2) by (apply pow_lt; exact Hw).
  assert (H4 : 0 < (PI / 16) ^ 3 * 1 / (2 * PI ^ 2)).
  { apply Rdiv_lt_0_compat; [lra | exact H2]. }
  assert (H5 : 0 < (PI / 16) ^ 3 * 1 / (2 * PI ^ 2) * top_hat (PI / 2) ^ 2)
    by (apply Rmult_lt_0_compat; assumption).
  lra.
Qed.

Lemma normalize_round_trip_witness :
  sqrt (mass_variance rectangle 8 [ln (PI / 16)]
          (_lnP_cdm_0 rectangle 0.8344 [0] [ln (PI / 16)] 1))
    = 0.8344 /\
  Rabs (sqrt (mass_variance rectangle 8 [ln (PI / 16)]
                (_lnP_cdm_0 rectangle 0.8344 [0] [ln (PI / 16)] 1))
        - 0.8344) / 0.8344 <= 0.000001.
Proof.
  apply (NormalizeClaims.normalize_round_trip rectangle 0.8344 1
           [0] [ln (PI / 16)]).
  - lra.
  - exact one_node_variance.
Defined.

End NormalizeRuns.

(** ** More about the low-k filter *)

Module LowKFront.
Import LowK LowKFacts.
Local Open Scope list_scope.

(** The first hit of a search over consecutive indices. *)
Lemma find_seq_first (f : nat -> bool) (a n i : nat) :
  List.find f (seq a n) = Some i ->
  f i = true /\ (a <= i < a + n)%nat /\
  forall j, (a <= j < i)%nat -> f j = false.
Proof.
  revert a. induction n as [| n IH]; intros a; simpl; [discriminate |].
  destruct (f a) eqn:Ea.
  - intros [= <-]. repeat split; try assumption; lia.
  - intros H. destruct (IH (S a) H) as (Hi & Hr & Hbefore).
    repeat split; try assumption; try lia.
    intros j Hj. destruct (Nat.eq_dec j a) as [-> | Hne]; [exact Ea |].
    apply Hbefore. lia.
Qed.

Lemma find_seq_none (f : nat -> bool) (a n : nat) :
  List.find f (seq a n) = None ->
  forall j, (a <= j < a + n)%nat -> f j = false.
Proof.
  revert a. induction n as [| n IH]; intros a; simpl; [intros _ j Hj; lia |].
  destruct (f a) eqn:Ea; [discriminate |].
  intros H j Hj. destruct (Nat.eq_dec j a) as [-> | Hne]; [exact Ea |].
  apply (IH (S a) H). lia.
Qed.

(** The points trimmed at the low-k end are all points where the table has
    not converged: below the start index no slope is flat, and when the table
    has a flat slope at all the start index is one. *)
Theorem trimmed_front_is_steep (lnk lnT : list Q) :
  length lnT = length lnk ->
  (forall j, (j < first_flat lnk lnT)%nat -> flat_at lnk lnT j = false) /\
  (forall i, (i + 1 < length lnk)%nat -> flat_at lnk lnT i = true ->
     flat_at lnk lnT (first_flat lnk lnT) = true /\
     (first_flat lnk lnT <= i)%nat).
Proof.
  intros Hlen. rewrite (first_flat_is_first lnk lnT Hlen).
  destruct (List.find (flat_at lnk lnT) (seq 0 (length lnk - 1)))
    as [s |] eqn:E.
  - destruct (find_seq_first _ _ _ _ E) as (Hs & Hr & Hbefore).
    split.
    + intros j Hj. apply Hbefore. lia.
    + intros i Hi Hflat. split; [exact Hs |].
      destruct (Nat.le_gt_cases s i) as [H | H]; [exact H |].
      rewrite Hbefore in Hflat by lia. discriminate.
  - split; [intros j Hj; lia |].
    intros i Hi Hflat.
    rewrite (find_seq_none _ _ _ E i) in Hflat by lia. discriminate.
Qed.

Lemma trimmed_front_is_steep_witness :
  (forall j, (j < first_flat [-3; -2; -1; 0]%Q [5; 3; 3; 2]%Q)%nat ->
     flat_at [-3; -2; -1; 0]%Q [5; 3; 3; 2]%Q j = false) /\
  (forall i, (i + 1 < length [-3; -2; -1; 0]%Q)%nat ->
     flat_at [-3; -2; -1; 0]%Q [5; 3; 3; 2]%Q i = true ->
     flat_at [-3; -2; -1; 0]%Q [5; 3; 3; 2]%Q
             (first_flat [-3; -2; -1; 0]%Q [5; 3; 3; 2]%Q) = true /\
     (first_flat [-3; -2; -1; 0]%Q [5; 3; 3; 2]%Q <= i)%nat).
Proof.
  apply (trimmed_front_is_steep [-3; -2; -1; 0]%Q [5; 3; 3; 2]%Q).
  reflexivity.
Defined.

End LowKFront.

Module LowKShift.
Import LowK LowKFacts.
Local Open Scope list_scope.

Lemma Qle_bool_ext (a x y : Q) : (x == y)%Q -> Qle_bool a x = Qle_bool a y.
Proof.
  intros H. apply Bool.eq_true_iff_eq.
  rewrite !Qle_bool_iff, H. reflexivity.
Qed.

Lemma slope_below_shift (c t1 t0 dk : Q) :
  slope_below ((c + t1) - (c + t0)) dk = slope_below (t1 - t0) dk.
Proof.
  unfold slope_below. destruct (Qeq_bool dk 0); [reflexivity |].
  f_equal. apply Qle_bool_ext.
  assert (H : ((c + t1) - (c + t0) == t1 - t0)%Q) by ring.
  rewrite H. reflexivity.
Qed.

Lemma flat_at_shift (c : Q) (lnk lnT : list Q) (i : nat) :
  flat_at lnk (map (Qplus c) lnT) i = flat_at lnk lnT i.
Proof.
  unfold flat_at. rewrite !nth_error_map.
  destruct (nth_error lnT (i + 1)) as [t1 |]; [| reflexivity].
  destruct (nth_error lnT i) as [t0 |]; [| reflexivity].
  cbn [option_map].
  destruct (nth_error lnk (i + 1)) as [k1 |]; [| reflexivity].
  destruct (nth_error lnk i) as [k0 |]; [| reflexivity].
  apply slope_below_shift.
Qed.

Lemma find_pointwise {A : Type} (f g : A -> bool) (l : list A) :
  (forall a, f a = g a) -> List.find f l = List.find g l.
Proof.
  intros H. induction l as [| a l IH]; simpl; [reflexivity |].
  rewrite H, IH. reflexivity.
Qed.

Lemma slice_to_last_map {A B : Type} (f : A -> B) (start : nat) (a : list A) :
  slice_to_last start (map f a) = map f (slice_to_last start a).
Proof.
  unfold slice_to_last.
  rewrite length_map, skipn_map, firstn_map. reflexivity.
Qed.

(** In exact arithmetic, adding a constant to the log transfer (a change of
    normalisation) before the filter is the same as adding it after: the
    same points are trimmed, and the surviving values carry the offset.  On
    float64 the differences [lnT[i + 1] - lnT[i]] of the shifted table round
    differently, and a slope next to 0.01 can fall on the other side. *)
Theorem check_low_k_offset (c : Q) (lnk lnT : list Q) :
  length lnT = length lnk ->
  first_flat lnk (map (Qplus c) lnT) = first_flat lnk lnT /\
  _check_low_k lnk (map (Qplus c) lnT)
    = Ok (slice_to_last (first_flat lnk lnT) lnk,
          map (Qplus c) (slice_to_last (first_flat lnk lnT) lnT)).
Proof.
  intros Hlen.
  assert (Hlen' : length (map (Qplus c) lnT) = length lnk)
    by (rewrite length_map; exact Hlen).
  assert (Hstart : first_flat lnk (map (Qplus c) lnT) = first_flat lnk lnT).
  { rewrite (first_flat_is_first _ _ Hlen'), (first_flat_is_first _ _ Hlen).
    rewrite (find_pointwise (flat_at lnk (map (Qplus c) lnT))
                            (flat_at lnk lnT)); [reflexivity |].
    intros i. apply flat_at_shift. }
  split; [exact Hstart |].
  rewrite (check_low_k_shape _ _ Hlen'), Hstart.
  rewrite <- !slice_to_last_removelast, slice_to_last_map. reflexivity.
Qed.

Lemma check_low_k_offset_witness :
  first_flat [-3; -2; -1; 0]%Q (map (Qplus 7) [5; 3; 3; 2]%Q)
    = first_flat [-3; -2; -1; 0]%Q [5; 3; 3; 2]%Q /\
  _check_low_k [-3; -2; -1; 0]%Q (map (Qplus 7) [5; 3; 3; 2]%Q)
    = Ok (slice_to_last (first_flat [-3; -2; -1; 0]%Q [5; 3; 3; 2]%Q)
                        [-3; -2; -1; 0]%Q,
          map (Qplus 7)
              (slice_to_last (first_flat [-3; -2; -1; 0]%Q [5; 3; 3; 2]%Q)
                             [5; 3; 3; 2]%Q)).
Proof.
  apply (check_low_k_offset 7 [-3; -2; -1; 0]%Q [5; 3; 3; 2]%Q).
  reflexivity.
Defined.

End LowKShift.

(** ** What [update] keeps *)

Module KeepsFacts.
Import Py TransferObj TransferFacts Invariants.
Local Open Scope list_scope.

Section Keeps.

Variable Cosmo : Type.
Variable Cosmology : gmap string pyval -> Cosmo.
Variable HAVE_PYCAMB : bool.
Variable float_of_string : string -> option pyfloat.
Variable P : gmap string pyval -> Prop.

Lemma keeps_ret {A : Type} (a : A) : keeps P (ret Cosmo a).
Proof. intros w H. exact H. Qed.

Lemma keeps_raise {A : Type} (e : pyexn) : keeps P (@raise Cosmo A e).
Proof. intros w H. exact H. Qed.

Lemma keeps_lift {A : Type} (r : result A) : keeps P (lift Cosmo r).
Proof. intros w H. exact H. Qed.

Lemma keeps_gets {A : Type} (f : Transfer Cosmo -> A) : keeps P (gets Cosmo f).
Proof. intros w H. exact H. Qed.

Lemma keeps_print (line : string) : keeps P (print Cosmo line).
Proof. intros w H. exact H. Qed.

Lemma keeps_bind {A B : Type} (m : M Cosmo A) (f : A -> M Cosmo B) :
  keeps P m -> (forall a, keeps P (f a)) -> keeps P (bind Cosmo m f).
Proof.
  intros Hm Hf w H. unfold bind.
  specialize (Hm w H). destruct (m w) as [[a | e] w']; cbn [snd] in *.
  - apply Hf. exact Hm.
  - exact Hm.
Qed.

Lemma keeps_for_each {A : Type} (l : list A) (body : A -> M Cosmo unit) :
  (forall a, In a l -> keeps P (body a)) -> keeps P (for_each Cosmo l body).
Proof.
  induction l as [| a l IH]; intros Hbody; cbn [for_each].
  - apply keeps_ret.
  - apply keeps_bind.
    + apply Hbody. now left.
    + intros _. apply IH. intros b Hb. apply Hbody. now right.
Qed.

(** A change of the object outside its entries keeps every property of the
    entries. *)
Lemma keeps_modify (f : Transfer Cosmo -> Transfer Cosmo) :
  (forall t, __dict__ (f t) = __dict__ t) -> keeps P (modify Cosmo f).
Proof.
  intros Hf w H. unfold modify. cbn [snd self]. rewrite Hf. exact H.
Qed.

Lemma keeps_del_cached (c : string) :
  (forall d, P d -> P (without c d)) -> keeps P (del_cached Cosmo c).
Proof.
  intros Hc w H. unfold del_cached, modify, set_dict. cbn [snd self __dict__].
  apply Hc. exact H.
Qed.

Lemma keeps_get_property (name : string) : keeps P (get_property Cosmo name).
Proof.
  unfold get_property. apply keeps_bind; [apply keeps_gets |].
  intros d. destruct (d !! mangle name); [apply keeps_ret | apply keeps_raise].
Qed.

Lemma bind_value {A B : Type} (m : M Cosmo A) (f : A -> M Cosmo B) (b : B) :
  (forall w, exists x, fst (m w) = Ok x) ->
  (forall x w, fst (f x w) = Ok b) ->
  forall w, fst (bind Cosmo m f w) = Ok b.
Proof.
  intros Hm Hf w. unfold bind. destruct (Hm w) as [x Hx].
  destruct (m w) as [[a | e] w']; cbn [fst] in Hx; [| discriminate].
  apply Hf.
Qed.

Lemma for_each_value {A : Type} (l : list A) (body : A -> M Cosmo unit) :
  (forall a w, fst (body a w) = Ok tt) ->
  forall w, fst (for_each Cosmo l body w) = Ok tt.
Proof.
  intros Hbody. induction l as [| a l IH]; intros w; cbn [for_each].
  - reflexivity.
  - apply bind_value; [intros w'; eauto | intros _; exact IH].
Qed.

(** The block that updates the cosmology never raises; it returns the
    keywords that are not cosmological. *)
Lemma update_cosmology_value (cp kwargs : list (string * pyval))
    (w : World Cosmo) :
  fst (update_cosmology Cosmo Cosmology cp kwargs w)
    = Ok (List.filter
            (fun kv : string * pyval => negb (has_key (fst kv) cp)) kwargs).
Proof.
  revert w. unfold update_cosmology.
  apply bind_value; [intros w; eexists; reflexivity | intros cpd].
  apply bind_value; [intros w; eexists; reflexivity | intros _].
  apply bind_value; [intros w; eexists; reflexivity | intros _].
  apply bind_value.
  { intros w. destruct (has_key "n" _); eexists; reflexivity. }
  intros _. apply bind_value.
  { intros w. destruct (has_key "sigma_8" _); eexists; reflexivity. }
  intros _. apply bind_value; [| reflexivity].
  intros w. exists tt. apply for_each_value.
  intros item w'. destruct (has_key item _); reflexivity.
Qed.

(** Setting a parameter: the checked value is stored, then the children named
    by the decorator are deleted. *)
Lemma set_property_keeps (name : string) (check : pyval -> result pyval)
    (val : pyval) :
  (forall v d, check val = Ok v -> P d -> P (<[mangle name := v]> d)) ->
  (forall cs c, assoc name set_children = Some cs -> In c cs ->
     forall d, P d -> P (without c d)) ->
  keeps P (set_property Cosmo name check val).
Proof.
  intros Hins Hkids w Hw. unfold set_property, bind at 1, lift.
  destruct (check val) as [v | e] eqn:Echeck; [| exact Hw].
  unfold bind, modify.
  apply (keeps_for_each
           match assoc name set_children with Some c => c | None => [] end
           (del_cached Cosmo)).
  - intros c Hc. apply keeps_del_cached.
    destruct (assoc name set_children) as [cs |] eqn:Ecs; [| destruct Hc].
    apply (Hkids cs c eq_refl Hc).
  - cbn [self __dict__ set_dict]. apply (Hins v _ eq_refl Hw).
Qed.

Lemma setattr_as_set_property (key : string) (val : pyval) :
  setattr Cosmo HAVE_PYCAMB float_of_string key val =
    if in_list key settable
    then set_property Cosmo key (check_of HAVE_PYCAMB float_of_string key) val
    else raise Cosmo (AttributeError [VStr "can't set attribute"]).
Proof.
  unfold setattr, check_of, settable, in_list.
  cbn [map fst set_children existsb].
  destruct (String.eqb key "lnk_min"); [reflexivity |].
  destruct (String.eqb key "lnk_max"); [reflexivity |].
  destruct (String.eqb key "dlnk"); [reflexivity |].
  destruct (String.eqb key "z"); [reflexivity |].
  destruct (String.eqb key "wdm_mass"); [reflexivity |].
  destruct (String.eqb key "transfer_fit"); reflexivity.
Qed.

Lemma setattr_keeps (key : string) (val : pyval) :
  (forall v d, check_of HAVE_PYCAMB float_of_string key val = Ok v ->
     P d -> P (<[mangle key := v]> d)) ->
  (forall cs c, assoc key set_children = Some cs -> In c cs ->
     forall d, P d -> P (without c d)) ->
  keeps P (setattr Cosmo HAVE_PYCAMB float_of_string key val).
Proof.
  intros Hins Hkids. rewrite setattr_as_set_property.
  destruct (in_list key settable); [| apply keeps_raise].
  apply set_property_keeps; assumption.
Qed.

Hypothesis Hdel : forall c, In c update_deletes ->
  forall d, P d -> P (without c d).

Lemma update_cosmology_keeps (cp kwargs : list (string * pyval)) :
  keeps P (update_cosmology Cosmo Cosmology cp kwargs).
Proof.
  unfold update_cosmology.
  apply keeps_bind; [apply keeps_gets | intros cpd].
  apply keeps_bind; [apply keeps_modify; reflexivity | intros _].
  apply keeps_bind; [apply keeps_modify; reflexivity | intros _].
  apply keeps_bind.
  { destruct (has_key "n" _); [| apply keeps_ret].
    apply keeps_del_cached, Hdel. cbn. tauto. }
  intros _. apply keeps_bind.
  { destruct (has_key "sigma_8" _); [| apply keeps_ret].
    apply keeps_bind; [| intros _];
      apply keeps_del_cached, Hdel; cbn; tauto. }
  intros _. apply keeps_bind; [| intros _; apply keeps_ret].
  apply keeps_for_each. intros item _.
  destruct (has_key item _); [| apply keeps_ret].
  apply keeps_del_cached, Hdel. cbn. tauto.
Qed.

Lemma update_growth_keeps (cp kwargs : list (string * pyval)) :
  keeps P (update_growth Cosmo cp kwargs).
Proof.
  assert (Hz : keeps P
    match assoc "z" kwargs with
    | Some v => if py_eq v (VInt 0) then del_cached Cosmo "growth"
                else ret Cosmo tt
    | None => ret Cosmo tt
    end).
  { destruct (assoc "z" kwargs) as [v |]; [| apply keeps_ret].
    destruct (py_eq v (VInt 0)); [| apply keeps_ret].
    apply keeps_del_cached, Hdel. cbn. tauto. }
  unfold update_growth. cbv zeta.
  destruct (has_key "omegab" cp || has_key "omegac" cp || has_key "omegav" cp);
    [| exact Hz].
  apply keeps_bind; [apply keeps_get_property | intros zv].
  destruct (py_gt_zero zv); [| exact Hz].
  apply keeps_del_cached, Hdel. cbn. tauto.
Qed.

Lemma update_other_keeps (kv : string * pyval) :
  keeps P (setattr Cosmo HAVE_PYCAMB float_of_string (fst kv) (snd kv)) ->
  keeps P (update_other Cosmo HAVE_PYCAMB float_of_string kv).
Proof.
  intros Hset. unfold update_other. cbv zeta.
  apply keeps_bind; [apply keeps_gets | intros opts].
  destruct (opts !! fst kv) as [old |].
  - destruct (negb (py_eq old (snd kv))); [| apply keeps_ret].
    apply keeps_bind; [apply keeps_modify; reflexivity | intros _].
    destruct (negb (String.eqb (fst kv) "ThreadNum")); [| apply keeps_ret].
    apply keeps_del_cached, Hdel. cbn. tauto.
  - apply keeps_bind; [apply keeps_gets | intros d].
    destruct (d !! mangle (fst kv)) as [cur |]; [| apply keeps_print].
    destruct (py_any_ne cur (snd kv)); [exact Hset | apply keeps_ret].
Qed.

(** [update] keeps a property of the entries when deleting each of the five
    quantities it deletes by name keeps it and setting each of the keywords
    keeps it. *)
Lemma update_keeps (kwargs : list (string * pyval)) :
  (forall kv, In kv kwargs ->
     keeps P (setattr Cosmo HAVE_PYCAMB float_of_string (fst kv) (snd kv))) ->
  keeps P (update Cosmo Cosmology HAVE_PYCAMB float_of_string kwargs).
Proof.
  intros Hset. unfold update. cbv zeta.
  set (cp := List.filter _ kwargs).
  assert (Hrest : forall kwargs', (forall kv, In kv kwargs' -> In kv kwargs) ->
            keeps P
              (bind Cosmo
                 (for_each Cosmo kwargs'
                    (update_other Cosmo HAVE_PYCAMB float_of_string))
                 (fun _ => update_growth Cosmo cp kwargs'))).
  { intros kwargs' Hsub. apply keeps_bind.
    - apply keeps_for_each. intros kv Hkv.
      apply update_other_keeps, Hset, Hsub, Hkv.
    - intros _. apply update_growth_keeps. }
  intros w Hw. unfold bind at 1.
  destruct cp as [| kv0 cp'] eqn:Ecp.
  - unfold ret at 1. apply Hrest; [tauto | exact Hw].
  - pose proof (update_cosmology_keeps (kv0 :: cp') kwargs w Hw) as Hc.
    pose proof (update_cosmology_value (kv0 :: cp') kwargs w) as Hval.
    destruct (update_cosmology Cosmo Cosmology (kv0 :: cp') kwargs w)
      as [[a | e] w'] eqn:Erun; cbn [snd] in Hc.
    + cbn [fst] in Hval. injection Hval as ->.
      apply Hrest; [| exact Hc].
      intros kv Hkv. apply filter_In in Hkv. tauto.
    + exact Hc.
Qed.

End Keeps.

End KeepsFacts.

(** ** Invariants that every operation keeps *)

Module GraphFacts.
Import Py TransferObj TransferFacts Invariants.
Local Open Scope list_scope.

Lemma in_list_In (k : string) (l : list string) :
  in_list k l = true <-> In k l.
Proof.
  unfold in_list. rewrite existsb_exists. split.
  - intros (x & Hx & E). apply String.eqb_eq in E. now subst.
  - intros H. exists k. split; [exact H | apply String.eqb_refl].
Qed.

Lemma mangle_inj (a b : string) : mangle a = mangle b -> a = b.
Proof. unfold mangle. cbn. intros H. injection H as H. exact H. Qed.

Lemma In_mangle (a : string) (l : list string) :
  In (mangle a) (map mangle l) <-> In a l.
Proof.
  rewrite in_map_iff. split.
  - intros (b & E & Hb). apply mangle_inj in E. now subst.
  - intros H. eauto.
Qed.

Lemma assoc_In {A : Type} (k : string) (l : list (string * A)) (a : A) :
  assoc k l = Some a -> In (k, a) l.
Proof.
  induction l as [| [k' a'] l IH]; simpl; [discriminate |].
  destruct (String.eqb_spec k k') as [-> | _].
  - intros [= ->]. now left.
  - intros H. right. auto.
Qed.

Lemma without_frame (c key : string) (d : gmap string pyval) :
  ~ In key (map mangle (dependents c)) -> without c d !! key = d !! key.
Proof. apply lookup_delete_all. Qed.

Lemma without_hit (c key : string) (d : gmap string pyval) :
  In key (map mangle (dependents c)) -> without c d !! key = None.
Proof. apply lookup_delete_hit. Qed.

(** Deleting takes entries away and changes none. *)
Lemma without_Some (c key : string) (d : gmap string pyval) (v : pyval) :
  without c d !! key = Some v -> d !! key = Some v.
Proof.
  destruct (in_dec string_dec key (map mangle (dependents c))) as [H | H].
  - rewrite without_hit by exact H. discriminate.
  - rewrite without_frame by exact H. trivial.
Qed.

(** No cached quantity has a settable parameter among its dependents. *)
Lemma parameters_not_dependent (c p : string) :
  In c cached -> In p settable -> ~ In p (dependents c).
Proof.
  intros Hc Hp Hin.
  assert (Hall : forallb (fun c => forallb
                   (fun p => negb (in_list p (dependents c))) settable)
                   cached = true) by (vm_compute; reflexivity).
  rewrite forallb_forall in Hall. specialize (Hall c Hc).
  rewrite forallb_forall in Hall. specialize (Hall p Hp).
  apply in_list_In in Hin. rewrite Hin in Hall. discriminate.
Qed.

(** What [set_property] deletes are cached quantities. *)
Lemma children_cached (key c : string) (cs : list string) :
  assoc key set_children = Some cs -> In c cs -> In c cached.
Proof.
  intros Hcs Hc. apply assoc_In in Hcs.
  assert (Hall : forallb (fun kv : string * list string =>
                   forallb (fun c => in_list c cached) (snd kv))
                   set_children = true) by (vm_compute; reflexivity).
  rewrite forallb_forall in Hall. specialize (Hall _ Hcs).
  rewrite forallb_forall in Hall. apply in_list_In, Hall, Hc.
Qed.

Lemma update_deletes_cached (c : string) : In c update_deletes -> In c cached.
Proof.
  intros Hc.
  assert (Hall : forallb (fun c => in_list c cached) update_deletes = true)
    by (vm_compute; reflexivity).
  rewrite forallb_forall in Hall. apply in_list_In, Hall, Hc.
Qed.

(** The dependents of a cached quantity contain every quantity that reads
    one of them. *)
Lemma dependents_closed_under_reads (c q r : string) :
  In c cached -> In r (dependents c) -> In r (reads_of q) ->
  In q (dependents c).
Proof.
  intros Hc Hr Hq.
  assert (Hall : forallb (fun c => forallb (fun r => forallb
                   (fun qr : string * list string =>
                      implb (in_list r (snd qr))
                            (in_list (fst qr) (dependents c)))
                   cached_reads) (dependents c)) cached = true)
    by (vm_compute; reflexivity).
  rewrite forallb_forall in Hall. specialize (Hall c Hc).
  rewrite forallb_forall in Hall. specialize (Hall r Hr).
  rewrite forallb_forall in Hall.
  unfold reads_of in Hq.
  destruct (assoc q cached_reads) as [rs |] eqn:E; [| destruct Hq].
  specialize (Hall (q, rs) (assoc_In _ _ _ E)). cbn [fst snd] in Hall.
  apply in_list_In in Hq. rewrite Hq in Hall. apply in_list_In, Hall.
Qed.

(** A settable parameter is not a cached quantity: it reads nothing. *)
Lemma settable_reads_nothing (p : string) : In p settable -> reads_of p = [].
Proof.
  intros Hp.
  assert (Hall : forallb (fun p => match assoc p cached_reads with
                                   | None => true
                                   | Some _ => false
                                   end) settable = true)
    by (vm_compute; reflexivity).
  rewrite forallb_forall in Hall. specialize (Hall p Hp).
  unfold reads_of. destruct (assoc p cached_reads); [discriminate | reflexivity].
Qed.

(** Every parameter that a cached quantity reads has that quantity among the
    dependents of the children it deletes when set. *)
Lemma parameter_reads_covered :
  forallb (fun qp : string * list string =>
    forallb (fun p =>
      match assoc p set_children with
      | Some cs => existsb (fun c => in_list (fst qp) (dependents c)) cs
      | None => false
      end) (snd qp)) parameter_reads = true.
Proof. vm_compute. reflexivity. Qed.

Lemma check_of_settable (hp : bool) (fos : string -> option pyfloat)
    (key : string) (val v : pyval) :
  check_of hp fos key val = Ok v -> In key settable.
Proof.
  unfold check_of, settable. cbn [map fst set_children].
  destruct (String.eqb_spec key "lnk_min") as [-> | _]; [cbn; tauto |].
  destruct (String.eqb_spec key "lnk_max") as [-> | _]; [cbn; tauto |].
  destruct (String.eqb_spec key "dlnk") as [-> | _]; [cbn; tauto |].
  destruct (String.eqb_spec key "z") as [-> | _]; [cbn; tauto |].
  destruct (String.eqb_spec key "wdm_mass") as [-> | _]; [cbn; tauto |].
  destruct (String.eqb_spec key "transfer_fit") as [-> | _]; [cbn; tauto |].
  discriminate.
Qed.

End GraphFacts.

Module InvariantFacts.
Import Py TransferObj TransferFacts Invariants KeepsFacts GraphFacts.
Local Open Scope list_scope.

(** What the checks of [z] and [wdm_mass] let through. *)
Lemma z_accepts (fos : string -> option pyfloat) (val v : pyval) :
  z fos val = Ok v -> exists x, v = VFloat x /\ float_ltb x zero = false.
Proof.
  unfold z. destruct (py_float fos val) as [x | e].
  - destruct (float_ltb x zero) eqn:E; [discriminate |].
    intros [= <-]. eauto.
  - destruct e; discriminate.
Qed.

Lemma wdm_mass_accepts (fos : string -> option pyfloat) (val v : pyval) :
  wdm_mass fos val = Ok v ->
  v = VNone \/ exists x, v = VFloat x /\ float_leb x zero = false.
Proof.
  unfold wdm_mass.
  assert (H : match py_float fos val with
              | Ok x => if float_leb x zero
                        then Raise (ValueError
                               [VStr "wdm_mass must be > 0 ("; VFloat x;
                                VStr ")"])
                        else Ok (VFloat x)
              | Raise (ValueError _) =>
                  Raise (ValueError
                    [VStr "wdm_mass must be a number ("; val; VStr ")"])
              | Raise e => Raise e
              end = Ok v ->
              exists x, v = VFloat x /\ float_leb x zero = false).
  { destruct (py_float fos val) as [x | e].
    - destruct (float_leb x zero) eqn:E; [discriminate |].
      intros [= <-]. eauto.
    - destruct e; discriminate. }
  destruct val; try (intros Hv; right; exact (H Hv)).
  intros [= <-]. now left.
Qed.

Lemma well_formed_without (c : string) (d : gmap string pyval) :
  In c cached -> well_formed d -> well_formed (without c d).
Proof.
  intros Hc (Hp & Hz & Hm). split; [| split].
  - intros p Hin. rewrite without_frame; [apply Hp, Hin |].
    rewrite In_mangle. apply parameters_not_dependent; assumption.
  - intros v Hv. apply Hz. eapply without_Some, Hv.
  - intros v Hv. apply Hm. eapply without_Some, Hv.
Qed.

Lemma well_formed_insert (hp : bool) (fos : string -> option pyfloat)
    (key : string) (val v : pyval) (d : gmap string pyval) :
  check_of hp fos key val = Ok v ->
  well_formed d -> well_formed (<[mangle key := v]> d).
Proof.
  intros Hcheck (Hp & Hz & Hm). split; [| split].
  - intros p Hin. rewrite lookup_insert_is_Some.
    destruct (decide (mangle key = mangle p)); [now left | right].
    split; [assumption | apply Hp, Hin].
  - intros u Hu. destruct (decide (mangle key = mangle "z")) as [E | E].
    + rewrite E, lookup_insert_eq in Hu. injection Hu as <-.
      apply mangle_inj in E. subst key. apply (z_accepts fos val v Hcheck).
    + rewrite lookup_insert_ne in Hu by exact E. apply Hz, Hu.
  - intros u Hu. destruct (decide (mangle key = mangle "wdm_mass")) as [E | E].
    + rewrite E, lookup_insert_eq in Hu. injection Hu as <-.
      apply mangle_inj in E. subst key.
      apply (wdm_mass_accepts fos val v Hcheck).
    + rewrite lookup_insert_ne in Hu by exact E. apply Hm, Hu.
Qed.

Lemma consistent_without (c : string) (d : gmap string pyval) :
  In c cached -> consistent d -> consistent (without c d).
Proof.
  intros Hc Hd q r Hr [v Hq].
  pose proof (without_Some _ _ _ _ Hq) as Hq'.
  destruct (Hd q r Hr (ex_intro _ v Hq')) as [u Hu].
  destruct (in_dec string_dec (mangle r) (map mangle (dependents c)))
    as [Hin | Hout].
  - apply (proj1 (In_mangle _ _)) in Hin.
    pose proof (dependents_closed_under_reads c q r Hc Hin Hr) as Hqc.
    rewrite without_hit in Hq by (apply In_mangle; exact Hqc).
    discriminate.
  - exists u. rewrite without_frame by exact Hout. exact Hu.
Qed.

Lemma consistent_insert (p : string) (v : pyval) (d : gmap string pyval) :
  In p settable -> consistent d -> consistent (<[mangle p := v]> d).
Proof.
  intros Hp Hd q r Hr Hq.
  destruct (decide (mangle p = mangle q)) as [E | E].
  - apply mangle_inj in E. subst q.
    rewrite (settable_reads_nothing p Hp) in Hr. destruct Hr.
  - rewrite lookup_insert_ne in Hq by exact E.
    rewrite lookup_insert_is_Some.
    destruct (decide (mangle p = mangle r)); [now left | right].
    split; [assumption | apply (Hd q r Hr Hq)].
Qed.

(** The two checks let nan through: [nan < 0] and [nan <= 0] are false. *)
Lemma nan_passes_the_checks (fos : string -> option pyfloat) :
  z fos (VFloat NaN) = Ok (VFloat NaN) /\
  wdm_mass fos (VFloat NaN) = Ok (VFloat NaN).
Proof. split; reflexivity. Qed.

(** The checks decide the invariants. *)
Lemma is_set_Some (d : gmap string pyval) (name : string) :
  is_set d name = true -> is_Some (d !! mangle name).
Proof.
  unfold is_set. destruct (d !! mangle name) as [v |]; [eauto | discriminate].
Qed.

Lemma well_formed_check (d : gmap string pyval) :
  well_formedb d = true -> well_formed d.
Proof.
  unfold well_formedb, well_formed.
  rewrite !Bool.andb_true_iff, forallb_forall.
  intros [[Hset Hz] Hw]. split; [| split].
  - intros p Hp. apply is_set_Some, Hset, Hp.
  - intros v Hv. rewrite Hv in Hz. destruct v; try discriminate.
    eexists. split; [reflexivity |].
    now apply Bool.negb_true_iff in Hz.
  - intros v Hv. rewrite Hv in Hw. destruct v; try discriminate.
    + now left.
    + right. eexists. split; [reflexivity |].
      now apply Bool.negb_true_iff in Hw.
Qed.

Lemma consistent_check (d : gmap string pyval) :
  consistentb d = true -> consistent d.
Proof.
  unfold consistentb, consistent. rewrite forallb_forall.
  intros Hall q r Hr Hq. unfold reads_of in Hr.
  destruct (assoc q cached_reads) as [rs |] eqn:E; [| contradiction].
  apply assoc_In in E. specialize (Hall _ E). cbn [fst snd] in Hall.
  unfold is_set in Hall at 1. destruct Hq as [v Hq]. rewrite Hq in Hall.
  cbn [implb] in Hall. rewrite forallb_forall in Hall.
  apply is_set_Some, Hall, Hr.
Qed.

Section Object.

Variable Cosmo : Type.
Variable Cosmology : gmap string pyval -> Cosmo.
Variable HAVE_PYCAMB : bool.
Variable float_of_string : string -> option pyfloat.

(** Setting any attribute to any value, accepted or not, keeps the instance
    well formed and the cache consistent. *)
Lemma setattr_keeps_well_formed (key : string) (val : pyval) :
  keeps well_formed (setattr Cosmo HAVE_PYCAMB float_of_string key val).
Proof.
  apply setattr_keeps.
  - intros v d Hcheck. apply (well_formed_insert _ _ _ _ _ _ Hcheck).
  - intros cs c Hcs Hc d. apply well_formed_without.
    apply (children_cached key c cs Hcs Hc).
Qed.

Lemma setattr_keeps_consistent (key : string) (val : pyval) :
  keeps consistent (setattr Cosmo HAVE_PYCAMB float_of_string key val).
Proof.
  apply setattr_keeps.
  - intros v d Hcheck. apply consistent_insert.
    apply (check_of_settable _ _ _ _ _ Hcheck).
  - intros cs c Hcs Hc d. apply consistent_without.
    apply (children_cached key c cs Hcs Hc).
Qed.

(** Whatever the keywords, and whether [update] returns or raises, a well
    formed instance stays well formed: its six parameters stay set, [z] is
    still a float for which [z < 0] is false and [wdm_mass] is still [None]
    or a float for which [wdm_mass <= 0] is false (a positive number, [inf]
    or nan; see [nan_passes_the_checks]). *)
Theorem update_keeps_well_formed (kwargs : list (string * pyval))
    (w : World Cosmo) :
  well_formed (__dict__ (self w)) ->
  well_formed
    (__dict__ (self (snd (update Cosmo Cosmology HAVE_PYCAMB float_of_string
                                 kwargs w)))).
Proof.
  apply (update_keeps Cosmo Cosmology HAVE_PYCAMB float_of_string well_formed).
  - intros c Hc d. apply well_formed_without, update_deletes_cached, Hc.
  - intros kv _. apply setattr_keeps_well_formed.
Qed.

(** Whatever the keywords, and whether [update] returns or raises, no cached
    quantity outlives a cached quantity it was computed from: if the cache
    was consistent before, it is consistent after. *)
Theorem update_keeps_consistent (kwargs : list (string * pyval))
    (w : World Cosmo) :
  consistent (__dict__ (self w)) ->
  consistent
    (__dict__ (self (snd (update Cosmo Cosmology HAVE_PYCAMB float_of_string
                                 kwargs w)))).
Proof.
  apply (update_keeps Cosmo Cosmology HAVE_PYCAMB float_of_string consistent).
  - intros c Hc d. apply consistent_without, update_deletes_cached, Hc.
  - intros kv _. apply setattr_keeps_consistent.
Qed.

End Object.

(** The sample object, given a new [sigma_8] and a redshift below zero:
    [update] raises at the redshift, after the cosmology has changed. *)
Lemma update_keeps_well_formed_witness :
  well_formed (__dict__ (self Sample.world0)) /\
  fst (update (gmap string pyval) Sample.Cosmology false
         Sample.float_of_string
         [("sigma_8", VFloat (Fin 0.9)); ("z", VInt (-1))] Sample.world0)
    = Raise (ValueError [VStr "z must be > 0 ("; VFloat (Fin (-1)); VStr ")"]) /\
  well_formed
    (__dict__ (self (snd (update (gmap string pyval) Sample.Cosmology false
                            Sample.float_of_string
                            [("sigma_8", VFloat (Fin 0.9)); ("z", VInt (-1))]
                            Sample.world0)))).
Proof.
  split; [apply well_formed_check; vm_compute; reflexivity |].
  split; [vm_compute; reflexivity |].
  apply (update_keeps_well_formed (gmap string pyval) Sample.Cosmology false
           Sample.float_of_string
           [("sigma_8", VFloat (Fin 0.9)); ("z", VInt (-1))] Sample.world0).
  apply well_formed_check. vm_compute. reflexivity.
Defined.

(** The object with the cache filled up to the normalised power, given a new
    [sigma_8] and another fit. *)
Lemma update_keeps_consistent_witness :
  consistent (__dict__ (self SampleCache.world1)) /\
  consistent
    (__dict__ (self (snd (update (gmap string pyval) Sample.Cosmology false
                            Sample.float_of_string
                            [("sigma_8", VFloat (Fin 0.9));
                             ("transfer_fit", VStr "bbks")]
                            SampleCache.world1)))).
Proof.
  split; [apply consistent_check; vm_compute; reflexivity |].
  apply (update_keeps_consistent (gmap string pyval) Sample.Cosmology false
           Sample.float_of_string
           [("sigma_8", VFloat (Fin 0.9)); ("transfer_fit", VStr "bbks")]
           SampleCache.world1).
  apply consistent_check. vm_compute. reflexivity.
Defined.

End InvariantFacts.

(** ** Setting a parameter to an accepted value *)

Module SetterRuns.
Import Py TransferObj TransferFacts Invariants KeepsFacts GraphFacts.
Local Open Scope list_scope.

Lemma without_all_frame (cs : list string) (key : string)
    (d : gmap string pyval) :
  ~ In key (map mangle (flat_map dependents cs)) ->
  fold_left (fun d c => without c d) cs d !! key = d !! key.
Proof.
  revert d. induction cs as [| c cs IH]; intros d Hnot; [reflexivity |].
  cbn [fold_left flat_map] in *.
  rewrite map_app, in_app_iff in Hnot.
  rewrite IH by tauto. apply without_frame. tauto.
Qed.

Lemma without_all_None (cs : list string) (key : string)
    (d : gmap string pyval) :
  d !! key = None -> fold_left (fun d c => without c d) cs d !! key = None.
Proof.
  revert d. induction cs as [| c cs IH]; intros d Hd; [exact Hd |].
  cbn [fold_left]. apply IH.
  destruct (without c d !! key) as [v |] eqn:E; [| reflexivity].
  apply without_Some in E. congruence.
Qed.

Lemma without_all_hit (cs : list string) (key : string)
    (d : gmap string pyval) :
  In key (map mangle (flat_map dependents cs)) ->
  fold_left (fun d c => without c d) cs d !! key = None.
Proof.
  revert d. induction cs as [| c cs IH]; intros d Hin; [destruct Hin |].
  cbn [fold_left flat_map] in *.
  rewrite map_app, in_app_iff in Hin.
  destruct (in_dec string_dec key (map mangle (dependents c))) as [H | H].
  - apply without_all_None, without_hit, H.
  - apply IH. tauto.
Qed.

Section Object.

Variable Cosmo : Type.
Variable HAVE_PYCAMB : bool.
Variable float_of_string : string -> option pyfloat.

(** Deleting a list of cached quantities in turn. *)
Lemma for_each_del_run (cs : list string) (w : World Cosmo) :
  for_each Cosmo cs (del_cached Cosmo) w
    = (Ok tt,
       mkWorld (set_dict Cosmo
                  (fold_left (fun d c => without c d) cs (__dict__ (self w)))
                  (self w))
               (stdout w) (tools_calls w)).
Proof.
  revert w. induction cs as [| c cs IH]; intros w.
  - destruct w as [[cp co cm d] out calls]. reflexivity.
  - cbn [for_each]. unfold bind. rewrite del_cached_run, IH. reflexivity.
Qed.

(** A value that passes the check of its parameter is stored under the
    parameter's name; the cached quantities below the parameter are gone
    afterwards; every other entry of the instance, the cosmology, the CAMB
    options and the output are as before. *)
Theorem setattr_accepted (w : World Cosmo) (key : string) (val v : pyval) :
  check_of HAVE_PYCAMB float_of_string key val = Ok v ->
  exists w',
    setattr Cosmo HAVE_PYCAMB float_of_string key val w = (Ok tt, w') /\
    __dict__ (self w') !! mangle key = Some v /\
    (forall q, In q (invalidated key) ->
       __dict__ (self w') !! mangle q = None) /\
    (forall k, k <> mangle key -> ~ In k (map mangle (invalidated key)) ->
       __dict__ (self w') !! k = __dict__ (self w) !! k) /\
    _cpdict (self w') = _cpdict (self w) /\
    _camb_options (self w') = _camb_options (self w) /\
    cosmo (self w') = cosmo (self w) /\
    stdout w' = stdout w /\ tools_calls w' = tools_calls w.
Proof.
  intros Hcheck.
  pose proof (check_of_settable _ _ _ _ _ Hcheck) as Hkey.
  rewrite setattr_as_set_property.
  rewrite (proj2 (in_list_In key settable) Hkey).
  unfold set_property, bind at 1, lift. rewrite Hcheck.
  unfold bind, modify. rewrite for_each_del_run.
  eexists. split; [reflexivity |].
  cbn [self __dict__ set_dict _cpdict _camb_options cosmo stdout tools_calls].
  fold (invalidated key).
  split; [| split; [| split; [| repeat split]]].
  - rewrite without_all_frame; [apply lookup_insert_eq |].
    fold (invalidated key). rewrite In_mangle. unfold invalidated.
    rewrite in_flat_map. intros (c & Hc & Hin).
    destruct (assoc key set_children) as [cs |] eqn:Ecs; [| destruct Hc].
    apply (parameters_not_dependent c key); [| assumption | assumption].
    apply (children_cached key c cs Ecs Hc).
  - intros q Hq. apply without_all_hit.
    apply In_mangle. exact Hq.
  - intros k Hk Hnot. rewrite without_all_frame by exact Hnot.
    apply lookup_insert_ne. congruence.
Qed.

End Object.

(** What each parameter invalidates, by name. *)
Lemma invalidated_names :
  invalidated "lnk_min" = dependents "lnk" /\
  invalidated "lnk_max" = dependents "lnk" /\
  invalidated "dlnk" = dependents "lnk" /\
  dependents "lnk" =
    ["lnk"; "_unnormalised_lnT"; "_unnormalised_lnP"; "_lnP_cdm_0"; "_lnP_0";
     "power"; "delta_k"; "nonlinear_delta_k"; "nonlinear_power";
     "_lnT_cdm"; "transfer"]%string /\
  invalidated "z" =
    ["growth"; "power"; "delta_k"; "nonlinear_delta_k";
     "nonlinear_power"]%string /\
  invalidated "wdm_mass" =
    ["_lnP_0"; "power"; "delta_k"; "nonlinear_delta_k"; "nonlinear_power";
     "transfer"]%string /\
  invalidated "transfer_fit" =
    ["_unnormalised_lnT"; "_unnormalised_lnP"; "_lnP_cdm_0"; "_lnP_0";
     "power"; "delta_k"; "nonlinear_delta_k"; "nonlinear_power";
     "_lnT_cdm"; "transfer"]%string.
Proof. vm_compute. repeat split. Qed.

(** [z = 2.0] on the sample object. *)
Lemma setattr_accepted_witness :
  exists w',
    setattr (gmap string pyval) false Sample.float_of_string
            "z" (VFloat (Fin 2)) Sample.world0 = (Ok tt, w') /\
    __dict__ (self w') !! mangle "z" = Some (VFloat (Fin 2)) /\
    (forall q, In q (invalidated "z") ->
       __dict__ (self w') !! mangle q = None) /\
    (forall k, k <> mangle "z" -> ~ In k (map mangle (invalidated "z")) ->
       __dict__ (self w') !! k = __dict__ (self Sample.world0) !! k) /\
    _cpdict (self w') = _cpdict (self Sample.world0) /\
    _camb_options (self w') = _camb_options (self Sample.world0) /\
    cosmo (self w') = cosmo (self Sample.world0) /\
    stdout w' = stdout Sample.world0 /\
    tools_calls w' = tools_calls Sample.world0.
Proof.
  apply (setattr_accepted (gmap string pyval) false Sample.float_of_string
           Sample.world0 "z" (VFloat (Fin 2)) (VFloat (Fin 2))).
  reflexivity.
Defined.

End SetterRuns.

(** ** [update], keyword by keyword *)

Module UpdateRuns.
Import Py TransferObj TransferFacts Invariants KeepsFacts GraphFacts.
Local Open Scope list_scope.

Section Object.

Variable Cosmo : Type.
Variable Cosmology : gmap string pyval -> Cosmo.
Variable HAVE_PYCAMB : bool.
Variable float_of_string : string -> option pyfloat.

(** The block that updates the cosmology, in one step: the changed keywords
    go into [_cpdict], the cosmology is rebuilt from it, and the deletions
    depend only on which keywords changed. *)
Lemma update_cosmology_run (cp kwargs : list (string * pyval))
    (w : World Cosmo) :
  update_cosmology Cosmo Cosmology cp kwargs w =
    (Ok (List.filter
           (fun kv : string * pyval => negb (has_key (fst kv) cp)) kwargs),
     mkWorld
       (mkTransfer
          (fold_left (fun d (kv : string * pyval) => <[fst kv := snd kv]> d)
                     (true_cp_of (_cpdict (self w)) cp) (_cpdict (self w)))
          (_camb_options (self w))
          (Cosmology
             (fold_left (fun d (kv : string * pyval) => <[fst kv := snd kv]> d)
                        (true_cp_of (_cpdict (self w)) cp)
                        (_cpdict (self w))))
          (cosmology_drops
             (fun k => has_key k (true_cp_of (_cpdict (self w)) cp))
             (__dict__ (self w))))
       (stdout w) (tools_calls w)).
Proof.
  unfold update_cosmology, cosmology_drops, matter_keywords, true_cp_of.
  unfold bind at 1. unfold gets at 1.
  generalize (List.filter
    (fun kv : string * pyval =>
       match _cpdict (self w) !! fst kv with
       | Some old => negb (py_eq (snd kv) old)
       | None => true
       end) cp).
  intros true_cp.
  cbn [for_each fold_left].
  destruct (has_key "n" true_cp), (has_key "sigma_8" true_cp),
    (has_key "omegab" true_cp), (has_key "omegac" true_cp),
    (has_key "h" true_cp), (has_key "H0" true_cp),
    (has_key "omegab_h2" true_cp), (has_key "omegac_h2" true_cp);
    reflexivity.
Qed.

(** A CAMB option given a new value is stored.  The number of threads
    changes nothing else; any other option deletes the transfer function
    with everything computed from it, and nothing else. *)
Theorem update_camb_option (w : World Cosmo) (key : string) (val old : pyval) :
  in_list key _cp = false ->
  key <> "z" ->
  _camb_options (self w) !! key = Some old ->
  py_eq old val = false ->
  update Cosmo Cosmology HAVE_PYCAMB float_of_string [(key, val)] w =
    (Ok tt,
     mkWorld
       (mkTransfer (_cpdict (self w))
                   (<[key := val]> (_camb_options (self w)))
                   (cosmo (self w))
                   (if String.eqb key "ThreadNum" then __dict__ (self w)
                    else without "_unnormalised_lnT" (__dict__ (self w))))
       (stdout w) (tools_calls w)).
Proof.
  intros Hcp Hz Hopt Hne. unfold update.
  cbn [List.filter fst]. rewrite Hcp.
  unfold bind at 1. unfold ret at 1.
  cbn [for_each]. unfold bind at 1. unfold bind at 1.
  unfold update_other. cbn [fst snd]. unfold bind at 1, gets at 1.
  rewrite Hopt, Hne. cbn [negb].
  unfold update_growth. cbn [has_key assoc orb].
  destruct (String.eqb_spec "z" key) as [E | _]; [congruence |].
  destruct (String.eqb key "ThreadNum"); reflexivity.
Qed.

(** Without a keyword for the grid, [update] leaves the cached wavenumber
    grid as it is, whatever else it is given and whether it returns or
    raises. *)
Theorem update_keeps_grid (kwargs : list (string * pyval)) (w : World Cosmo) :
  (forall kv, In kv kwargs -> ~ In (fst kv) grid_keywords) ->
  __dict__ (self (snd (update Cosmo Cosmology HAVE_PYCAMB float_of_string
                              kwargs w))) !! mangle "lnk"
    = __dict__ (self w) !! mangle "lnk".
Proof.
  intros Hkw.
  assert (Hother : forall c, In c cached -> c <> "lnk" ->
            ~ In "lnk" (dependents c)).
  { intros c Hc Hne Hin.
    assert (Hall : forallb (fun c => String.eqb c "lnk"
                     || negb (in_list "lnk" (dependents c))) cached = true)
      by (vm_compute; reflexivity).
    rewrite forallb_forall in Hall. specialize (Hall c Hc).
    apply in_list_In in Hin. rewrite Hin, Bool.orb_false_r in Hall.
    apply String.eqb_eq in Hall. contradiction. }
  apply (update_keeps Cosmo Cosmology HAVE_PYCAMB float_of_string
           (fun d => d !! mangle "lnk" = __dict__ (self w) !! mangle "lnk")).
  - intros c Hc d Hd. rewrite without_frame; [exact Hd |].
    rewrite In_mangle. apply Hother; [apply update_deletes_cached, Hc |].
    intros ->. vm_compute in Hc. intuition discriminate.
  - intros kv Hkv. apply setattr_keeps.
    + intros v d Hcheck Hd. rewrite lookup_insert_ne; [exact Hd |].
      intros E. apply mangle_inj in E.
      apply check_of_settable in Hcheck. rewrite E in Hcheck.
      vm_compute in Hcheck. intuition discriminate.
    + intros cs c Hcs Hc d Hd. rewrite without_frame; [exact Hd |].
      rewrite In_mangle.
      apply Hother; [apply (children_cached _ _ _ Hcs Hc) |].
      intros ->. apply (Hkw kv Hkv). apply assoc_In in Hcs.
      assert (Hall : forallb (fun kc : string * list string =>
                       in_list (fst kc) grid_keywords
                       || negb (in_list "lnk" (snd kc))) set_children = true)
        by (vm_compute; reflexivity).
      rewrite forallb_forall in Hall. specialize (Hall _ Hcs).
      cbn [fst snd] in Hall.
      rewrite (proj2 (in_list_In "lnk" cs) Hc), Bool.orb_false_r in Hall.
      apply in_list_In, Hall.
  - reflexivity.
Qed.

(** The steps common to an [update] with one cosmological keyword. *)
Ltac run_cosmological_keyword :=
  unfold update;
  cbn [List.filter fst in_list existsb _cp String.eqb Ascii.eqb Bool.eqb orb];
  unfold bind at 1; rewrite update_cosmology_run;
  cbn [List.filter fst snd has_key assoc negb
       String.eqb Ascii.eqb Bool.eqb];
  unfold bind at 1; cbn [for_each]; unfold ret at 1;
  unfold update_growth;
  cbn [has_key assoc orb String.eqb Ascii.eqb Bool.eqb];
  unfold true_cp_of, cosmology_drops, matter_keywords;
  cbn [List.filter fst snd].

(** A keyword among w, cs2_lam, t_cmb, y_he, N_nu, omegan, force_flat and
    default, and also omegav when the redshift is not above zero, is stored
    into [_cpdict] and the cosmology is rebuilt, but no cached quantity is
    deleted: the entries of the instance are exactly as before. *)
Theorem update_inert_keyword (w : World Cosmo) (key : string) (v : pyval) :
  In key inert_keywords \/
    (key = "omegav" /\
     exists zv, __dict__ (self w) !! mangle "z" = Some zv /\
                py_gt_zero zv = false) ->
  update Cosmo Cosmology HAVE_PYCAMB float_of_string [(key, v)] w =
    (Ok tt,
     mkWorld
       (mkTransfer
          (fold_left (fun d (kv : string * pyval) => <[fst kv := snd kv]> d)
                     (true_cp_of (_cpdict (self w)) [(key, v)])
                     (_cpdict (self w)))
          (_camb_options (self w))
          (Cosmology
             (fold_left (fun d (kv : string * pyval) => <[fst kv := snd kv]> d)
                        (true_cp_of (_cpdict (self w)) [(key, v)])
                        (_cpdict (self w))))
          (__dict__ (self w)))
       (stdout w) (tools_calls w)).
Proof.
  intros [Hin | (-> & zv & Hz & Hpos)].
  - unfold inert_keywords in Hin. cbn [In] in Hin.
    repeat (destruct Hin as [<- | Hin]); try contradiction;
      run_cosmological_keyword;
      match goal with
      | |- context [_cpdict (self w) !! ?k] =>
          destruct (_cpdict (self w) !! k) as [old |];
            [destruct (py_eq v old) |]
      end; reflexivity.
  - run_cosmological_keyword.
    assert (Hrun : forall d : gmap string pyval,
              d !! mangle "z" = Some zv ->
              forall (t : Transfer Cosmo) (out calls : list string),
              __dict__ t = d ->
              bind Cosmo (get_property Cosmo "z")
                (fun zv0 => if py_gt_zero zv0 then del_cached Cosmo "growth"
                            else ret Cosmo tt)
                (mkWorld t out calls) = (Ok tt, mkWorld t out calls)).
    { intros d Hd t out calls Ht.
      unfold get_property, gets, bind. cbn [self]. rewrite Ht, Hd.
      unfold ret at 1. rewrite Hpos. reflexivity. }
    destruct (_cpdict (self w) !! "omegav") as [old |];
      [destruct (py_eq v old) |]; cbn [negb has_key assoc fold_left
         String.eqb Ascii.eqb Bool.eqb];
      apply (Hrun _ Hz); reflexivity.
Qed.

(** Deleting [_unnormalised_lnT] once among the matter keywords is enough. *)
Lemma matter_fold_keeps (changed : string -> bool) (key : string)
    (l : list string) (d : gmap string pyval) :
  d !! key = None ->
  fold_left (fun d item =>
               if changed item then without "_unnormalised_lnT" d else d)
            l d !! key = None.
Proof.
  revert d. induction l as [| a l IH]; intros d Hd; cbn [fold_left].
  - exact Hd.
  - apply IH. destruct (changed a); [| exact Hd].
    destruct (without "_unnormalised_lnT" d !! key) as [v |] eqn:E;
      [| reflexivity].
    apply without_Some in E. congruence.
Qed.

Lemma matter_fold_hits (changed : string -> bool) (item key : string)
    (l : list string) (d : gmap string pyval) :
  In item l -> changed item = true ->
  In key (map mangle (dependents "_unnormalised_lnT")) ->
  fold_left (fun d item =>
               if changed item then without "_unnormalised_lnT" d else d)
            l d !! key = None.
Proof.
  intros Hin Hch Hkey. revert d.
  induction l as [| a l IH]; intros d; [contradiction |].
  cbn [fold_left]. destruct Hin as [-> | Hin].
  - rewrite Hch. apply matter_fold_keeps, without_hit, Hkey.
  - apply IH, Hin.
Qed.

(** When one of omegab, omegac, h, H0, omegab_h2 and omegac_h2 is given with
    a value that is new to [_cpdict], the transfer function and everything
    computed from it are gone from the cache after [update], whatever the
    other keywords are and whether [update] returns or raises. *)
Theorem update_matter_keyword (kwargs : list (string * pyval))
    (w : World Cosmo) (key : string) :
  In key matter_keywords ->
  has_key key
    (true_cp_of (_cpdict (self w))
       (List.filter (fun kv : string * pyval => in_list (fst kv) _cp) kwargs))
    = true ->
  forall q, In q (dependents "_unnormalised_lnT") ->
    __dict__ (self (snd (update Cosmo Cosmology HAVE_PYCAMB float_of_string
                                kwargs w))) !! mangle q = None.
Proof.
  intros Hkey Hch q Hq.
  assert (Hdel : forall c d, d !! mangle q = None ->
                   without c d !! mangle q = None).
  { intros c d Hd. destruct (without c d !! mangle q) as [v |] eqn:E;
      [| reflexivity].
    apply without_Some in E. congruence. }
  unfold update. cbv zeta.
  destruct (List.filter (fun kv : string * pyval => in_list (fst kv) _cp)
              kwargs) as [| kv0 cp0] eqn:Ecp; [discriminate Hch |].
  unfold bind at 1. rewrite update_cosmology_run.
  apply (keeps_bind Cosmo (fun d => d !! mangle q = None)).
  - apply keeps_for_each. intros kv _.
    apply update_other_keeps;
      [exact Cosmology | intros c _ d; apply Hdel |].
    apply setattr_keeps.
    + intros v d Hcheck Hd. rewrite lookup_insert_ne; [exact Hd |].
      intros E. apply mangle_inj in E. subst q.
      apply check_of_settable in Hcheck.
      apply (parameters_not_dependent "_unnormalised_lnT" (fst kv));
        [vm_compute; tauto | exact Hcheck | exact Hq].
    + intros cs c _ _ d. apply Hdel.
  - intros _. apply update_growth_keeps. intros c _ d. apply Hdel.
  - cbn [self __dict__]. unfold cosmology_drops.
    apply (matter_fold_hits _ key); [exact Hkey | exact Hch |].
    apply In_mangle, Hq.
Qed.

End Object.

(** The sample object with [AccuracyBoost] raised from 1 to 2. *)
Lemma update_camb_option_witness :
  update (gmap string pyval) Sample.Cosmology false Sample.float_of_string
         [("AccuracyBoost", VInt 2)] Sample.world0 =
    (Ok tt,
     mkWorld
       (mkTransfer (_cpdict (self Sample.world0))
          (<["AccuracyBoost" := VInt 2]> (_camb_options (self Sample.world0)))
          (cosmo (self Sample.world0))
          (if String.eqb "AccuracyBoost" "ThreadNum"
           then __dict__ (self Sample.world0)
           else without "_unnormalised_lnT" (__dict__ (self Sample.world0))))
       (stdout Sample.world0) (tools_calls Sample.world0)).
Proof.
  apply (update_camb_option (gmap string pyval) Sample.Cosmology false
           Sample.float_of_string Sample.world0 "AccuracyBoost" (VInt 2)
           (VInt 1)).
  - vm_compute. reflexivity.
  - discriminate.
  - vm_compute. reflexivity.
  - vm_compute. reflexivity.
Defined.

(** The sample object given another fit and a Hubble parameter: both empty
    most of the cache, the grid stays. *)
Lemma update_keeps_grid_witness :
  __dict__ (self (snd (update (gmap string pyval) Sample.Cosmology false
                         Sample.float_of_string
                         [("transfer_fit", VStr "bbks");
                          ("h", VFloat (Fin 0.7))] Sample.world0)))
    !! mangle "lnk"
  = __dict__ (self Sample.world0) !! mangle "lnk".
Proof.
  apply (update_keeps_grid (gmap string pyval) Sample.Cosmology false
           Sample.float_of_string
           [("transfer_fit", VStr "bbks"); ("h", VFloat (Fin 0.7))]
           Sample.world0).
  intros kv [<- | [<- | []]]; vm_compute; intuition discriminate.
Defined.

(** The sample object with the dark-energy equation of state set. *)
Lemma update_inert_keyword_witness :
  __dict__ (self (snd (update (gmap string pyval) Sample.Cosmology false
                         Sample.float_of_string
                         [("w", VFloat (Fin (-1)))] Sample.world0)))
  = __dict__ (self Sample.world0).
Proof.
  rewrite (update_inert_keyword (gmap string pyval) Sample.Cosmology false
             Sample.float_of_string Sample.world0 "w" (VFloat (Fin (-1)))).
  - reflexivity.
  - left. vm_compute. tauto.
Defined.

(** The sample object given a Hubble parameter, which its [_cpdict] does not
    hold yet. *)
Lemma update_matter_keyword_witness :
  __dict__ (self Sample.world0) !! mangle "_unnormalised_lnT"
    = Some (VArr [Fin 0; Fin (-(1 # 2))]) /\
  List.Forall
    (fun q =>
       __dict__ (self (snd (update (gmap string pyval) Sample.Cosmology false
                              Sample.float_of_string
                              [("h", VFloat (Fin 0.7))] Sample.world0)))
         !! mangle q = None)
    (dependents "_unnormalised_lnT").
Proof.
  split; [vm_compute; reflexivity |].
  apply List.Forall_forall.
  apply (update_matter_keyword (gmap string pyval) Sample.Cosmology false
           Sample.float_of_string [("h", VFloat (Fin 0.7))] Sample.world0
           "h").
  - vm_compute. tauto.
  - vm_compute. reflexivity.
Defined.

End UpdateRuns.

(** ** What [update] does to the cosmology when a later keyword fails *)

Module UpdateFrames.
Import Py TransferObj TransferFacts Invariants KeepsFacts GraphFacts UpdateRuns.
Local Open Scope list_scope.

Section Frames.

Variable Cosmo : Type.
Variable Cosmology : gmap string pyval -> Cosmo.
Variable HAVE_PYCAMB : bool.
Variable float_of_string : string -> option pyfloat.
Variable B : Type.
Variable f : Transfer Cosmo -> B.

(** The field is none of the instance's entries and none of the options of
    CAMB. *)
Hypothesis f_set_dict : forall d t, f (set_dict Cosmo d t) = f t.
Hypothesis f_set_camb_options : forall d t, f (set_camb_options Cosmo d t) = f t.

Lemma frames_ret {A : Type} (a : A) : frames f (ret Cosmo a).
Proof. intros w. reflexivity. Qed.

Lemma frames_raise {A : Type} (e : pyexn) : frames f (@raise Cosmo A e).
Proof. intros w. reflexivity. Qed.

Lemma frames_bind {A C : Type} (m : M Cosmo A) (g : A -> M Cosmo C) :
  frames f m -> (forall a, frames f (g a)) -> frames f (bind Cosmo m g).
Proof.
  intros Hm Hg w. unfold bind. specialize (Hm w).
  destruct (m w) as [[a | e] w']; cbn [snd] in *.
  - rewrite Hg. exact Hm.
  - exact Hm.
Qed.

Lemma frames_for_each {A : Type} (l : list A) (body : A -> M Cosmo unit) :
  (forall a, frames f (body a)) -> frames f (for_each Cosmo l body).
Proof.
  intros Hbody. induction l as [| a l IH]; cbn [for_each].
  - apply frames_ret.
  - apply frames_bind; [apply Hbody | intros _; exact IH].
Qed.

Lemma frames_del_cached (c : string) : frames f (del_cached Cosmo c).
Proof. intros w. unfold del_cached, modify. cbn [snd self]. apply f_set_dict. Qed.

Lemma frames_get_property (name : string) :
  frames f (get_property Cosmo name).
Proof.
  unfold get_property. apply frames_bind; [intros w; reflexivity |].
  intros d. destruct (d !! mangle name); [apply frames_ret | apply frames_raise].
Qed.

Lemma frames_set_property (name : string) (check : pyval -> result pyval)
    (val : pyval) :
  frames f (set_property Cosmo name check val).
Proof.
  unfold set_property.
  apply frames_bind; [intros w; reflexivity | intros v].
  apply frames_bind.
  - intros w. unfold modify. cbn [snd self]. apply f_set_dict.
  - intros _. apply frames_for_each. intros c. apply frames_del_cached.
Qed.

Lemma frames_setattr (key : string) (val : pyval) :
  frames f (setattr Cosmo HAVE_PYCAMB float_of_string key val).
Proof.
  rewrite setattr_as_set_property.
  destruct (in_list key settable);
    [apply frames_set_property | apply frames_raise].
Qed.

Lemma frames_update_other (kv : string * pyval) :
  frames f (update_other Cosmo HAVE_PYCAMB float_of_string kv).
Proof.
  unfold update_other. cbv zeta.
  apply frames_bind; [intros w; reflexivity | intros opts].
  destruct (opts !! fst kv) as [old |].
  - destruct (negb (py_eq old (snd kv))); [| apply frames_ret].
    apply frames_bind.
    + intros w. unfold modify. cbn [snd self]. apply f_set_camb_options.
    + intros _. destruct (negb (String.eqb (fst kv) "ThreadNum"));
        [apply frames_del_cached | apply frames_ret].
  - apply frames_bind; [intros w; reflexivity | intros d].
    destruct (d !! mangle (fst kv)) as [cur |].
    + repeat match goal with
             | |- frames f (if ?b then _ else _) => destruct b
             | |- frames f (match ?r with Ok _ => _ | Raise _ => _ end) =>
                 destruct r
             | |- frames f (bind _ _ _) => apply frames_bind; [| intros ?]
             | |- frames f (ret _ _) => apply frames_ret
             | |- frames f (raise _ _) => apply frames_raise
             | |- frames f (setattr _ _ _ _ _) => apply frames_setattr
             | |- frames f (print _ _) => intros w; reflexivity
             | |- frames f (lift _ _) => intros w; reflexivity
             end.
    + repeat match goal with
             | |- frames f (bind _ _ _) => apply frames_bind; [| intros ?]
             | |- frames f (ret _ _) => apply frames_ret
             | |- frames f (print _ _) => intros w; reflexivity
             end.
Qed.

Lemma frames_update_growth (cp kwargs : list (string * pyval)) :
  frames f (update_growth Cosmo cp kwargs).
Proof.
  assert (Hz : frames f
    match assoc "z" kwargs with
    | Some v => if py_eq v (VInt 0) then del_cached Cosmo "growth"
                else ret Cosmo tt
    | None => ret Cosmo tt
    end).
  { destruct (assoc "z" kwargs) as [v |]; [| apply frames_ret].
    destruct (py_eq v (VInt 0)); [apply frames_del_cached | apply frames_ret]. }
  unfold update_growth. cbv zeta.
  destruct (has_key "omegab" cp || has_key "omegac" cp || has_key "omegav" cp);
    [| exact Hz].
  apply frames_bind; [apply frames_get_property | intros zv].
  destruct (py_gt_zero zv); [apply frames_del_cached | exact Hz].
Qed.

Lemma frames_update_rest (cp kwargs : list (string * pyval)) :
  frames f
    (bind Cosmo
       (for_each Cosmo kwargs (update_other Cosmo HAVE_PYCAMB float_of_string))
       (fun _ => update_growth Cosmo cp kwargs)).
Proof.
  apply frames_bind.
  - apply frames_for_each. intros kv. apply frames_update_other.
  - intros _. apply frames_update_growth.
Qed.

End Frames.

Section Object.

Variable Cosmo : Type.
Variable Cosmology : gmap string pyval -> Cosmo.
Variable HAVE_PYCAMB : bool.
Variable float_of_string : string -> option pyfloat.

(** [update] is not atomic.  The cosmological keywords are dealt with first:
    whatever the other keywords are, and also when one of them makes
    [update] raise, the new values are in [_cpdict] afterwards and the
    cosmology has been rebuilt from them; without a cosmological keyword
    both are untouched. *)
Theorem update_applies_cosmology (kwargs : list (string * pyval))
    (w : World Cosmo) :
  let cp := List.filter (fun kv : string * pyval => in_list (fst kv) _cp)
                        kwargs in
  let cpd := fold_left (fun d (kv : string * pyval) => <[fst kv := snd kv]> d)
                       (true_cp_of (_cpdict (self w)) cp) (_cpdict (self w)) in
  let w' := snd (update Cosmo Cosmology HAVE_PYCAMB float_of_string kwargs w) in
  _cpdict (self w') = cpd /\
  cosmo (self w') = match cp with
                    | [] => cosmo (self w)
                    | _ :: _ => Cosmology cpd
                    end.
Proof.
  cbv zeta. unfold update. cbv zeta.
  destruct (List.filter (fun kv : string * pyval => in_list (fst kv) _cp)
              kwargs) as [| kv0 cp0] eqn:Ecp.
  - cbn [true_cp_of List.filter fold_left].
    split; unfold bind at 1, ret at 1.
    + apply (frames_update_rest Cosmo HAVE_PYCAMB float_of_string _ _cpdict);
        reflexivity.
    + apply (frames_update_rest Cosmo HAVE_PYCAMB float_of_string _ cosmo);
        reflexivity.
  - split; unfold bind at 1; rewrite update_cosmology_run.
    + rewrite (frames_update_rest Cosmo HAVE_PYCAMB float_of_string _ _cpdict)
        by reflexivity.
      reflexivity.
    + rewrite (frames_update_rest Cosmo HAVE_PYCAMB float_of_string _ cosmo)
        by reflexivity.
      reflexivity.
Qed.

End Object.

End UpdateFrames.

(** ** From the power spectrum to the dimensionless one and back *)

Module SpectraFacts.
Import Numpy Halofit Spectra MaskFacts.
Local Open Scope list_scope.
Local Open Scope R_scope.

Lemma np_add_same (a b : list R) :
  length a = length b -> np_add a b = Ok (zip_with Rplus a b).
Proof.
  intros H. unfold np_add. rewrite (proj2 (Nat.eqb_eq _ _) H). reflexivity.
Qed.

Lemma delta_k_same (lnk power : list R) :
  length power = length lnk ->
  delta_k lnk power
    = Ok (map (fun x => x - ln (2 * PI ^ 2))
              (zip_with Rplus (map (Rmult 3) lnk) power)).
Proof.
  intros H. unfold delta_k. rewrite np_add_same; [reflexivity |].
  rewrite length_map. symmetry. exact H.
Qed.

Lemma nonlinear_power_same (lnk nl : list R) :
  length nl = length lnk ->
  nonlinear_power lnk nl
    = Ok (map (fun x => x + ln (2 * PI ^ 2))
              (zip_with Rplus (map (Rmult (-3)) lnk) nl)).
Proof.
  intros H. unfold nonlinear_power. rewrite np_add_same; [reflexivity |].
  rewrite length_map. symmetry. exact H.
Qed.

Lemma there_and_back (c : R) (lnk : list R) : forall power,
  length power = length lnk ->
  map (fun x => x + c)
      (zip_with Rplus (map (Rmult (-3)) lnk)
         (map (fun x => x - c) (zip_with Rplus (map (Rmult 3) lnk) power)))
    = power.
Proof.
  induction lnk as [| x lnk IH]; intros [| p power] Hlen;
    simpl in Hlen; try discriminate; [reflexivity |].
  injection Hlen as Hlen. cbn [map zip_with]. rewrite (IH power Hlen).
  f_equal. lra.
Qed.

(** On a power spectrum of the length of the grid, [delta_k] returns an
    array of that length, and [nonlinear_power] applied to it gives the power
    spectrum back: the two conversions are inverse to each other. *)
Theorem nonlinear_power_undoes_delta_k (lnk power : list R) :
  length power = length lnk ->
  exists dk,
    delta_k lnk power = Ok dk /\
    length dk = length lnk /\
    nonlinear_power lnk dk = Ok power.
Proof.
  intros Hlen. eexists. split; [apply delta_k_same, Hlen |].
  assert (Hdk : length (map (fun x => x - ln (2 * PI ^ 2))
                          (zip_with Rplus (map (Rmult 3) lnk) power))
                = length lnk).
  { rewrite length_map, length_zip_with, length_map. lia. }
  split; [exact Hdk |].
  rewrite nonlinear_power_same by exact Hdk.
  rewrite there_and_back by exact Hlen. reflexivity.
Qed.

Lemma nonlinear_power_undoes_delta_k_witness :
  exists dk,
    delta_k [0; 1] [1; 2] = Ok dk /\
    length dk = length [0; 1] /\
    nonlinear_power [0; 1] dk = Ok [1; 2].
Proof.
  apply (nonlinear_power_undoes_delta_k [0; 1] [1; 2]). reflexivity.
Defined.

Section Backend.

Variable simps : list R -> list R -> R.
Variable spline : list R -> list R -> nat -> R -> R.
Variable spline_derivatives : list R -> list R -> nat -> R -> result (list R).
Variable omega_M_z : R -> cosmology -> R.
Variable e_z : R -> cosmology -> R.

(** Over the reals, from the power spectrum through [delta_k],
    [nonlinear_delta_k] and [nonlinear_power]: whenever [_get_spec] returns,
    the non-linear power is the linear power at every [k] at or below 0.005.
    On float64 the two agree up to the rounding of the conversions only. *)
Theorem nonlinear_power_large_scales (self_cosmo : cosmology) (self_z : R)
    (lnk power dk : list R) (rknl rneff rncur : R) :
  length power = length lnk ->
  delta_k lnk power = Ok dk ->
  _get_spec simps spline spline_derivatives self_cosmo lnk dk
    = Ok (rknl, rneff, rncur) ->
  exists nl out,
    nonlinear_delta_k simps spline spline_derivatives omega_M_z e_z
                      self_cosmo self_z lnk dk = Ok nl /\
    nonlinear_power lnk nl = Ok out /\
    length out = length lnk /\
    forall (i : nat) (x p : R),
      lnk !! i = Some x -> power !! i = Some p ->
      exp x <= 0.005 -> out !! i = Some p.
Proof.
  intros Hlen Hdk Hspec.
  rewrite (delta_k_same _ _ Hlen) in Hdk. injection Hdk as Hdk.
  assert (Hldk : length dk = length lnk).
  { subst dk. rewrite length_map, length_zip_with, length_map. lia. }
  unfold nonlinear_delta_k. rewrite Hspec. cbn [rbind fst snd].
  unfold _halofit.
  rewrite (put_mask_in_place (fun x => Rltb 0.005 (exp x)) exp exp
             (_halofit_at omega_M_z e_z self_cosmo self_z rneff rncur rknl)
             lnk dk Hldk).
  cbn [rbind]. eexists. eexists. split; [reflexivity |].
  match goal with
  | |- nonlinear_power lnk ?nl = _ /\ _ =>
      assert (Hlnl : length nl = length lnk)
        by (rewrite length_map, length_zip_with; lia)
  end.
  split; [apply nonlinear_power_same, Hlnl |]. split.
  - rewrite length_map, length_zip_with, length_map, length_map,
      length_zip_with. lia.
  - intros i x p Hx Hp Hlow.
    assert (Hd : dk !! i = Some (3 * x + p - ln (2 * PI ^ 2))).
    { subst dk. rewrite list_lookup_fmap, lookup_zip_with, list_lookup_fmap,
        Hx, Hp. reflexivity. }
    repeat (rewrite list_lookup_fmap || rewrite lookup_zip_with).
    rewrite Hx, Hd. cbn.
    unfold Rltb. destruct (Rlt_dec 0.005 (exp x)) as [Hgt | Hle]; [lra |].
    rewrite ln_exp. f_equal. lra.
Qed.

End Backend.

(** Two wavenumbers, k = 0.001 below the threshold and k = 1 above it, with
    the sample backend. *)
Lemma nonlinear_power_large_scales_witness :
  exists nl out,
    nonlinear_delta_k simpson SampleBackend.spline
        SampleBackend.spline_derivatives SampleBackend.omega_M_z
        SampleBackend.e_z SampleBackend.cosmo_planck 0 [ln 0.001; ln 1]
        [3 * ln 0.001 + 0 - ln (2 * PI ^ 2); 3 * ln 1 + 0 - ln (2 * PI ^ 2)]
      = Ok nl /\
    nonlinear_power [ln 0.001; ln 1] nl = Ok out /\
    length out = length [ln 0.001; ln 1] /\
    forall (i : nat) (x p : R),
      [ln 0.001; ln 1] !! i = Some x -> [0; 0] !! i = Some p ->
      exp x <= 0.005 -> out !! i = Some p.
Proof.
  apply (nonlinear_power_large_scales simpson SampleBackend.spline
           SampleBackend.spline_derivatives SampleBackend.omega_M_z
           SampleBackend.e_z SampleBackend.cosmo_planck 0
           [ln 0.001; ln 1] [0; 0]
           [3 * ln 0.001 + 0 - ln (2 * PI ^ 2);
            3 * ln 1 + 0 - ln (2 * PI ^ 2)]
           (1.0 / exp 0.0) (- 0 - 3.0) (- 0)).
  - reflexivity.
  - reflexivity.
  - apply HalofitRuns.get_spec_planck.
Defined.

End SpectraFacts.

(** ** The search for the radius where the variance crosses one *)

Module SearchFacts.
Import Numpy Halofit GetSpecFacts.
Local Open Scope list_scope.
Local Open Scope R_scope.

Section Backend.

Variable simps : list R -> list R -> R.

(** The loop over the radii returns [ln sigma^2] at the last radius before
    the first one where it is negative; when it is negative at no radius,
    the loop runs to its end and returns the value at the last radius, and
    nothing tells that there was no crossing. *)
Theorem search_last_nonnegative (k delta_k pre post : list R) (r : R)
    (old : option R) :
  (forall x, In x (pre ++ [r]) -> 0 <= ln (sigma2 simps k delta_k x)) ->
  match post with
  | [] => True
  | r' :: _ => ln (sigma2 simps k delta_k r') < 0
  end ->
  search simps k delta_k (pre ++ r :: post) old
    = Ok (ln (sigma2 simps k delta_k r)).
Proof.
  revert old. induction pre as [| a pre IH]; intros old Hpre Hpost.
  - cbn [app]. rewrite search_step.
    rewrite Rltb_false by (apply Rle_not_lt, Hpre; cbn; tauto).
    destruct post as [| r' post]; [reflexivity |].
    rewrite search_step, (Rltb_true _ _ Hpost). reflexivity.
  - cbn [app]. rewrite search_step.
    rewrite Rltb_false by (apply Rle_not_lt, Hpre; cbn; tauto).
    apply IH; [| exact Hpost].
    intros x Hx. apply Hpre. cbn. tauto.
Qed.

End Backend.

(** The flat spectrum of unit power on k = 1000, 3000, 9000 h/Mpc: the
    variance is above 1 at R = 1e-4 and below 1 at R = 1e-3. *)
Lemma search_last_nonnegative_witness :
  search simpson (map exp SampleBackend.lnk3) (map exp [0; 0; 0])
         candidates None
    = Ok (ln (sigma2 simpson (map exp SampleBackend.lnk3) (map exp [0; 0; 0])
                     0.0001)).
Proof.
  apply (search_last_nonnegative simpson (map exp SampleBackend.lnk3)
           (map exp [0; 0; 0]) []
           [0.001; 0.01; 0.1; 1.0; 10.0; 100.0; 1000.0] 0.0001 None).
  - intros x [<- | []]. pose proof SampleRuns.flat_first_candidate. lra.
  - exact SampleRuns.flat_second_candidate.
Defined.

End SearchFacts.

(** ** The sign of the HALOFIT formula *)

Module HalofitSign.
Import Numpy Halofit.
Local Open Scope list_scope.
Local Open Scope R_scope.

Section Backend.

Variable omega_M_z : R -> cosmology -> R.
Variable e_z : R -> cosmology -> R.

Lemma Rpower_pos (x y : R) : 0 < Rpower x y.
Proof. unfold Rpower. apply exp_pos. Qed.

(** Over the reals: without massive neutrinos, at a positive wavenumber, a
    positive non-linear wavenumber and a positive linear power, the HALOFIT
    formula is positive, whatever the effective index and the curvature are.
    On float64 its powers can overflow, and the code then returns [inf] or
    nan (at an effective index of 5 or 10, say).  The
    matter density is positive, the expansion rate is not zero and the
    universe is flat or open, so that no division is by zero and every
    power in the routine has a positive base. *)
Theorem halofit_positive (self_cosmo : cosmology) (self_z : R)
    (neff rncur rknl k plin : R) :
  omegan self_cosmo = 0 -> omegam self_cosmo <> 0 ->
  e_z self_z self_cosmo <> 0 ->
  0 < omega_M_z self_z self_cosmo ->
  0 <= omegav self_cosmo / e_z self_z self_cosmo ^ 2
    <= 1 - omega_M_z self_z self_cosmo ->
  0 < k -> 0 < rknl -> 0 < plin ->
  0 < _halofit_at omega_M_z e_z self_cosmo self_z neff rncur rknl k plin.
Proof.
  intros Hn _ _ _ _ Hk Hr Hp. unfold _halofit_at. cbv zeta.
  rewrite Hn.
  replace (0 / omegam self_cosmo) with 0 by (unfold Rdiv; ring).
  assert (Hy : 0 < k / rknl) by (apply Rdiv_lt_0_compat; assumption).
  assert (E : forall u v, 0 * 47.48 * u / v = 0)
    by (intros; unfold Rdiv; ring).
  rewrite E, !Rmult_0_l, !Rplus_0_r, !Rmult_1_r.
  apply Rplus_lt_0_compat.
  - apply Rmult_lt_0_compat; [| apply exp_pos].
    apply Rdiv_lt_0_compat.
    + apply Rmult_lt_0_compat; [exact Hp | apply Rpower_pos].
    + match goal with
      | |- 0 < 1 + plin * Rabs ?t =>
          pose proof (Rabs_pos t);
          assert (0 <= plin * Rabs t) by (apply Rmult_le_pos; lra)
      end.
      lra.
  - apply Rdiv_lt_0_compat.
    + apply Rdiv_lt_0_compat.
      * apply Rmult_lt_0_compat; apply Rpower_pos.
      * match goal with
        | |- 0 < 1 + Rpower ?a ?b * Rpower ?c ?d + Rpower ?e ?g =>
            pose proof (Rpower_pos a b); pose proof (Rpower_pos c d);
            pose proof (Rpower_pos e g);
            assert (0 < Rpower a b * Rpower c d)
              by (apply Rmult_lt_0_compat; assumption)
        end.
        lra.
    + match goal with
      | |- 0 < 1 + ?m + Rpower ?a ?b * / ?y2 =>
          pose proof (Rpower_pos a b);
          assert (0 < / y2) by (apply Rinv_0_lt_compat, pow_lt; exact Hy);
          assert (0 < Rpower a b * / y2)
            by (apply Rmult_lt_0_compat; assumption);
          assert (m = 0) by lra
      end.
      lra.
Qed.

End Backend.

(** The sample cosmology at [z = 0], at [k = 1] with unit linear power. *)
Lemma halofit_positive_witness :
  0 < _halofit_at SampleBackend.omega_M_z SampleBackend.e_z
        SampleBackend.cosmo_planck 0 (-3) 0 1 1 1.
Proof.
  apply (halofit_positive SampleBackend.omega_M_z SampleBackend.e_z
           SampleBackend.cosmo_planck 0 (-3) 0 1 1 1);
    unfold SampleBackend.omega_M_z, SampleBackend.e_z; cbn; lra.
Defined.

End HalofitSign.

(** ** The transfer functions of BBKS and of Bond and Efstathiou *)

Module FitsFacts.
Import Fits.
Local Open Scope R_scope.

Lemma ln_below (x : R) : 0 < x -> 0 < ln (1 + x) < x.
Proof.
  intros Hx. split.
  - rewrite <- ln_1. apply ln_increasing; lra.
  - rewrite <- (ln_exp x) at 2. apply ln_increasing; [lra |].
    apply exp_ineq1. lra.
Qed.

Lemma Rpower_neg_below_1 (u p : R) : 1 < u -> p < 0 -> 0 < Rpower u p < 1.
Proof.
  intros Hu Hp. unfold Rpower. split; [apply exp_pos |].
  rewrite <- exp_0. apply exp_increasing.
  assert (0 < ln u) by (rewrite <- ln_1; apply ln_increasing; lra).
  nra.
Qed.

Lemma ln_Rpower (u p : R) : ln (Rpower u p) = p * ln u.
Proof. unfold Rpower. apply ln_exp. Qed.

(** Over the reals: with a positive matter density and a positive Hubble
    parameter, the BBKS formula lies strictly between 0 and 1 at every
    wavenumber, and its logarithm is negative.  On float64 the quotient
    [log(1 + 2.34 q) / (2.34 q)] loses its digits at very small [q], and the
    code returns values slightly above 0 from about [ln k = -30] down. *)
Theorem bbks_below_one (self_cosmo : cosmology) (k : R) :
  0 < omegam self_cosmo -> 0 < h self_cosmo ->
  _bbks_at self_cosmo k < 0.
Proof.
  intros Hm Hh. unfold _bbks_at. cbv zeta.
  set (q := exp k / (omegam self_cosmo * h self_cosmo) *
            exp (omegab self_cosmo + sqrt (2 * h self_cosmo) *
                 omegab self_cosmo / omegam self_cosmo)).
  assert (Hq : 0 < q).
  { unfold q. apply Rmult_lt_0_compat; [| apply exp_pos].
    apply Rdiv_lt_0_compat; [apply exp_pos |].
    apply Rmult_lt_0_compat; assumption. }
  assert (HX : 0 < 2.34 * q) by lra.
  destruct (ln_below (2.34 * q) HX) as [Hl0 Hl1].
  replace (1.0 + 2.34 * q) with (1 + 2.34 * q) by lra.
  set (A := ln (1 + 2.34 * q) / (2.34 * q)).
  assert (HA : 0 < A < 1).
  { unfold A. split.
    - apply Rdiv_lt_0_compat; assumption.
    - apply (Rmult_lt_reg_r (2.34 * q)); [exact HX |].
      unfold Rdiv. rewrite Rmult_assoc, Rinv_l by lra. lra. }
  set (P := 1 + 3.89 * q + (16.1 * q) ^ 2 + (5.47 * q) ^ 3 + (6.71 * q) ^ 4).
  assert (HP : 1 < P).
  { unfold P.
    assert (0 <= (16.1 * q) ^ 2) by (apply pow_le; lra).
    assert (0 <= (5.47 * q) ^ 3) by (apply pow_le; lra).
    assert (0 <= (6.71 * q) ^ 4) by (apply pow_le; lra).
    lra. }
  destruct (Rpower_neg_below_1 P (-0.25) HP ltac:(lra)) as [HB0 HB1].
  set (B := Rpower P (-0.25)) in *.
  assert (HT0 : 0 < A * B) by (apply Rmult_lt_0_compat; lra).
  assert (HT1 : A * B < 1).
  { assert (A * B < 1 * B) by (apply Rmult_lt_compat_r; lra). lra. }
  rewrite <- ln_1. apply ln_increasing; assumption.
Qed.

Lemma bbks_below_one_witness :
  _bbks_at (mkCosmology 0.3 0.05 0.7) 0 < 0.
Proof.
  apply (bbks_below_one (mkCosmology 0.3 0.05 0.7) 0); cbn; lra.
Defined.

(** Over the reals: with a positive matter density and a Hubble parameter
    that is not zero, the formula of Bond and Efstathiou is below 1 at every
    wavenumber and falls strictly as the wavenumber grows.  On float64 the
    sum [1 + x ** 1.13] rounds to 1 at very small [k], and the code returns
    0.0 from about [ln k = -40] down. *)
Theorem bond_efs_falls (self_cosmo : cosmology) :
  0 < omegam self_cosmo -> h self_cosmo <> 0 ->
  (forall k, _bond_efs_at self_cosmo k < 0) /\
  (forall k1 k2, k1 < k2 ->
     _bond_efs_at self_cosmo k2 < _bond_efs_at self_cosmo k1).
Proof.
  intros Hm Hh. unfold _bond_efs_at. cbv zeta.
  set (o := 1.0 / (omegam self_cosmo * h self_cosmo ^ 2)).
  assert (Ho : 0 < o).
  { unfold o. apply Rdiv_lt_0_compat; [lra |].
    apply Rmult_lt_0_compat; [exact Hm |].
    rewrite <- Rsqr_pow2. apply Rsqr_pos_lt. exact Hh. }
  set (S := fun e : R =>
              6.4 * o * e + Rpower (3.0 * o * e) 1.5 + (1.7 * o * e) ^ 2).
  assert (HS : forall e, 0 < e -> 0 < S e).
  { intros e He. unfold S.
    assert (0 < 6.4 * o * e) by (apply Rmult_lt_0_compat; nra).
    assert (0 < Rpower (3.0 * o * e) 1.5) by (unfold Rpower; apply exp_pos).
    assert (0 <= (1.7 * o * e) ^ 2) by apply pow2_ge_0.
    lra. }
  assert (HSm : forall e1 e2, 0 < e1 -> e1 < e2 -> S e1 < S e2).
  { intros e1 e2 H1 H12. unfold S.
    assert (6.4 * o * e1 < 6.4 * o * e2)
      by (apply Rmult_lt_compat_l; nra).
    assert (0 < 3.0 * o * e1 < 3.0 * o * e2).
    { split; [apply Rmult_lt_0_compat; nra |].
      apply Rmult_lt_compat_l; nra. }
    assert (Rpower (3.0 * o * e1) 1.5 < Rpower (3.0 * o * e2) 1.5)
      by (apply Rlt_Rpower_l; [lra | assumption]).
    assert (0 < 1.7 * o * e1 < 1.7 * o * e2).
    { split; [apply Rmult_lt_0_compat; nra |].
      apply Rmult_lt_compat_l; nra. }
    assert ((1.7 * o * e1) ^ 2 < (1.7 * o * e2) ^ 2) by nra.
    lra. }
  assert (Hval : forall k,
            ln (Rpower (1 + Rpower (6.4 * o * exp k
                                    + Rpower (3.0 * o * exp k) 1.5
                                    + (1.7 * o * exp k) ^ 2) 1.13)
                       (-1 / 1.13))
            = (-1 / 1.13) * ln (1 + Rpower (S (exp k)) 1.13)).
  { intros k. apply ln_Rpower. }
  assert (Hin : forall e, 0 < e -> 0 < Rpower (S e) 1.13)
    by (intros; unfold Rpower; apply exp_pos).
  split.
  - intros k. rewrite Hval.
    specialize (Hin (exp k) (exp_pos k)).
    assert (0 < ln (1 + Rpower (S (exp k)) 1.13))
      by (rewrite <- ln_1; apply ln_increasing; lra).
    nra.
  - intros k1 k2 H12. rewrite !Hval.
    pose proof (exp_pos k1) as He1.
    pose proof (exp_increasing _ _ H12) as He.
    pose proof (HSm _ _ He1 He) as Hs.
    pose proof (HS _ He1) as Hs1.
    assert (Hp : Rpower (S (exp k1)) 1.13 < Rpower (S (exp k2)) 1.13)
      by (apply Rlt_Rpower_l; [lra | split; assumption]).
    pose proof (Hin _ He1) as Hp1.
    assert (ln (1 + Rpower (S (exp k1)) 1.13)
            < ln (1 + Rpower (S (exp k2)) 1.13))
      by (apply ln_increasing; lra).
    nra.
Qed.

Lemma bond_efs_falls_witness :
  (forall k, _bond_efs_at (mkCosmology 0.3 0.05 0.7) k < 0) /\
  (forall k1 k2, k1 < k2 ->
     _bond_efs_at (mkCosmology 0.3 0.05 0.7) k2
       < _bond_efs_at (mkCosmology 0.3 0.05 0.7) k1).
Proof.
  apply (bond_efs_falls (mkCosmology 0.3 0.05 0.7)); cbn; lra.
Defined.

End FitsFacts.

(** ** What the constructor builds *)

Module InitFacts.
Import Py TransferObj TransferFacts Invariants KeepsFacts GraphFacts.
Import SetterRuns InvariantFacts TransferInit.
Local Open Scope list_scope.

(** Deleting takes entries away and changes none. *)
Lemma without_all_Some (cs : list string) (key : string) (u : pyval)
    (d : gmap string pyval) :
  fold_left (fun d c => without c d) cs d !! key = Some u -> d !! key = Some u.
Proof.
  revert d. induction cs as [| c cs IH]; intros d H; [exact H |].
  cbn [fold_left] in H. apply IH in H. eapply without_Some, H.
Qed.

(** An assignment changes no other parameter. *)
Lemma stored_param (key p : string) (v : pyval) (d : gmap string pyval) :
  In p settable ->
  stored key v d !! mangle p = <[mangle key := v]> d !! mangle p.
Proof.
  intros Hp. unfold stored. apply without_all_frame.
  rewrite In_mangle, in_flat_map. intros (c & Hc & Hin).
  destruct (assoc key set_children) as [cs |] eqn:Ecs; [| destruct Hc].
  apply (parameters_not_dependent c p); [| assumption | assumption].
  apply (children_cached key c cs Ecs Hc).
Qed.

Lemma settable_not_cached (key q : string) :
  In key settable -> In q cached -> mangle key <> mangle q.
Proof.
  intros Hk Hq E. apply mangle_inj in E. subst q.
  assert (Hall : forallb (fun p => negb (in_list p cached)) settable = true)
    by (vm_compute; reflexivity).
  rewrite forallb_forall in Hall. specialize (Hall key Hk).
  rewrite (proj2 (in_list_In key cached) Hq) in Hall. discriminate.
Qed.

(** An assignment caches nothing. *)
Lemma stored_not_cached (key q : string) (v : pyval) (d : gmap string pyval) :
  In key settable -> In q cached ->
  d !! mangle q = None -> stored key v d !! mangle q = None.
Proof.
  intros Hk Hq Hd. unfold stored. apply without_all_None.
  rewrite lookup_insert_ne; [exact Hd | apply settable_not_cached; assumption].
Qed.

Lemma reads_are_cached (q r : string) : In r (reads_of q) -> In q cached.
Proof.
  intros Hr. unfold reads_of in Hr.
  destruct (assoc q cached_reads) as [rs |] eqn:E; [| destruct Hr].
  apply assoc_In in E.
  assert (Hall : forallb (fun qr : string * list string =>
                            in_list (fst qr) cached) cached_reads = true)
    by (vm_compute; reflexivity).
  rewrite forallb_forall in Hall. apply in_list_In, (Hall _ E).
Qed.

Lemma keys_in_kept (keep : string -> bool) (d : gmap string pyval)
    (k : string) :
  is_Some (keys_in keep d !! k) -> keep k = true.
Proof.
  intros [v Hv]. unfold keys_in in Hv.
  apply map_lookup_filter_Some in Hv. exact (proj2 Hv).
Qed.

Lemma keys_in_keeps (keep : string -> bool) (d : gmap string pyval)
    (k : string) :
  keep k = true -> is_Some (d !! k) -> is_Some (keys_in keep d !! k).
Proof.
  intros Hk [v Hv]. exists v. unfold keys_in.
  apply map_lookup_filter_Some. split; assumption.
Qed.

Lemma keys_in_insert_other (keep : string -> bool) (d : gmap string pyval)
    (k : string) (v : pyval) :
  keep k = false -> keys_in keep (<[k := v]> d) = keys_in keep d.
Proof.
  intros Hk. unfold keys_in. apply map_filter_insert_not.
  intros y. cbn. rewrite Hk. discriminate.
Qed.

Lemma del_key_sub (j k : string) (d d' : gmap string pyval) :
  del_key j d = Built d' -> is_Some (d' !! k) -> is_Some (d !! k).
Proof.
  unfold del_key. destruct (d !! j); [| discriminate].
  intros [= <-] [v Hv]. apply lookup_delete_Some in Hv. exists v. tauto.
Qed.

Section Object.

Variable Cosmo : Type.
Variable Cosmology : gmap string pyval -> Cosmo.
Variable HAVE_PYCAMB : bool.
Variable float_of_string : string -> option pyfloat.
Variable cosmo_dict : Cosmo -> gmap string pyval.

Lemma bind_Ok {A B : Type} (m : M Cosmo A) (f : A -> M Cosmo B)
    (w w' : World Cosmo) (b : B) :
  bind Cosmo m f w = (Ok b, w') ->
  exists a w1, m w = (Ok a, w1) /\ f a w1 = (Ok b, w').
Proof.
  unfold bind. destruct (m w) as [[a | e] w1]; [eauto | discriminate].
Qed.

(** What a successful assignment has done. *)
Lemma setattr_Ok (w w' : World Cosmo) (key : string) (val : pyval) (u : unit) :
  setattr Cosmo HAVE_PYCAMB float_of_string key val w = (Ok u, w') ->
  exists v,
    check_of HAVE_PYCAMB float_of_string key val = Ok v /\
    __dict__ (self w') = stored key v (__dict__ (self w)) /\
    _cpdict (self w') = _cpdict (self w).
Proof.
  rewrite setattr_as_set_property.
  destruct (in_list key settable); [| discriminate].
  unfold set_property, bind at 1, lift.
  destruct (check_of HAVE_PYCAMB float_of_string key val) as [v | e];
    [| discriminate].
  unfold bind, modify. rewrite for_each_del_run. intros [= _ <-].
  exists v. repeat split.
Qed.

(** What a successful construction has done: the three checks have passed,
    the six parameters have been stored in turn, and [_cpdict] is the
    cosmological part of the keywords under the attributes of the
    cosmology. *)
Lemma init_Built
    (zv lo hi step wdm fit o1 o2 o3 o4 o5 o6 o7 : pyval)
    (kwargs : gmap string pyval) (t : Transfer Cosmo) :
  __init__ Cosmo Cosmology HAVE_PYCAMB float_of_string cosmo_dict
           zv lo hi step wdm fit o1 o2 o3 o4 o5 o6 o7 kwargs = Built t ->
  exists v4 v5 v6 actual,
    check_of HAVE_PYCAMB float_of_string "wdm_mass" wdm = Ok v4 /\
    check_of HAVE_PYCAMB float_of_string "z" zv = Ok v5 /\
    check_of HAVE_PYCAMB float_of_string "transfer_fit" fit = Ok v6 /\
    __dict__ t =
      stored "transfer_fit" v6
        (stored "z" v5
           (stored "wdm_mass" v4
              (stored "dlnk" step
                 (stored "lnk_max" hi (stored "lnk_min" lo ∅))))) /\
    _cpdict t =
      actual ∪
      keys_in (fun k => in_list k _cp)
              (if contains "default" kwargs then kwargs
               else <["default" := VStr "planck1_base"]> kwargs) /\
    (forall k, is_Some (actual !! k) -> in_list k _cp = true).
Proof.
  unfold __init__. cbv zeta.
  set (kw := if contains "default" kwargs then kwargs
             else <["default" := VStr "planck1_base"]> kwargs).
  set (cpdict := keys_in (fun k => in_list k _cp) kw).
  match goal with
  | |- context [mkWorld (mkTransfer cpdict ?c _ _) _ _] =>
      set (camb_options := c)
  end.
  set (w0 := mkWorld (mkTransfer cpdict camb_options (Cosmology cpdict) ∅)
                     [] []).
  match goal with
  | |- match ?run with _ => _ end = _ -> _ =>
      destruct run as [[u | e] w] eqn:Hrun; [| discriminate]
  end.
  apply bind_Ok in Hrun as (u1 & w1 & H1 & Hrun).
  apply bind_Ok in Hrun as (u2 & w2 & H2 & Hrun).
  apply bind_Ok in Hrun as (u3 & w3 & H3 & Hrun).
  apply bind_Ok in Hrun as (u4 & w4 & H4 & Hrun).
  apply bind_Ok in Hrun as (u5 & w5 & H5 & H6).
  apply setattr_Ok in H1 as (v1 & C1 & D1 & P1).
  apply setattr_Ok in H2 as (v2 & C2 & D2 & P2).
  apply setattr_Ok in H3 as (v3 & C3 & D3 & P3).
  apply setattr_Ok in H4 as (v4 & C4 & D4 & P4).
  apply setattr_Ok in H5 as (v5 & C5 & D5 & P5).
  apply setattr_Ok in H6 as (v6 & C6 & D6 & P6).
  injection C1 as <-. injection C2 as <-. injection C3 as <-.
  match goal with
  | |- match ?del with _ => _ end = _ -> _ =>
      destruct del as [actual | e] eqn:Hact; [| discriminate]
  end.
  intros [= <-]. exists v4, v5, v6, actual.
  split; [exact C4 |]. split; [exact C5 |]. split; [exact C6 |].
  cbn [__dict__ _cpdict set_cpdict set_cosmo].
  split; [| split].
  - rewrite D6, D5, D4, D3, D2, D1. reflexivity.
  - rewrite P6, P5, P4, P3, P2, P1. reflexivity.
  - intros k Hk.
    assert (Hsub : forall left_out c,
              is_Some (keys_in (fun k => in_list k _cp
                                         && negb (in_list k left_out))
                               (cosmo_dict c) !! k) ->
              in_list k _cp = true).
    { intros left_out c Hin. apply keys_in_kept in Hin.
      apply andb_prop in Hin. tauto. }
    destruct (contains "h" kw);
      [apply (del_key_sub _ k) in Hact; [eapply Hsub, Hact | exact Hk] |].
    destruct (contains "H0" kw);
      [apply (del_key_sub _ k) in Hact; [eapply Hsub, Hact | exact Hk] |].
    injection Hact as <-. eapply Hsub, Hk.
Qed.

(** An instance that has been constructed is well formed, and nothing is
    cached in it: its six parameters are set, [z] is a float for which
    [z < 0] is false, [wdm_mass] is [None] or a float for which
    [wdm_mass <= 0] is false (a positive number, [inf] or nan), and no
    derived quantity has been computed yet. *)
Theorem init_builds_well_formed
    (zv lo hi step wdm fit o1 o2 o3 o4 o5 o6 o7 : pyval)
    (kwargs : gmap string pyval) (t : Transfer Cosmo) :
  __init__ Cosmo Cosmology HAVE_PYCAMB float_of_string cosmo_dict
           zv lo hi step wdm fit o1 o2 o3 o4 o5 o6 o7 kwargs = Built t ->
  well_formed (__dict__ t) /\
  consistent (__dict__ t) /\
  (forall q, In q cached -> __dict__ t !! mangle q = None).
Proof.
  intros H.
  apply init_Built in H as (v4 & v5 & v6 & actual & C4 & C5 & C6 & Hd & _).
  assert (Hlookup : forall p, In p settable ->
            __dict__ t !! mangle p =
              Some (if String.eqb p "lnk_min" then lo
                    else if String.eqb p "lnk_max" then hi
                    else if String.eqb p "dlnk" then step
                    else if String.eqb p "wdm_mass" then v4
                    else if String.eqb p "z" then v5
                    else v6)).
  { intros p Hp. rewrite Hd.
    unfold settable in Hp. cbn [map fst set_children In] in Hp.
    repeat (destruct Hp as [<- | Hp]); try contradiction;
      repeat (rewrite stored_param by (vm_compute; tauto);
              first [ rewrite lookup_insert_eq
                    | rewrite lookup_insert_ne
                        by (unfold mangle; cbn; discriminate) ]);
      reflexivity. }
  assert (Hnone : forall q, In q cached -> __dict__ t !! mangle q = None).
  { intros q Hq. rewrite Hd.
    repeat (apply stored_not_cached; [vm_compute; tauto | exact Hq |]).
    apply lookup_empty. }
  split; [| split; [| exact Hnone]].
  - split; [| split].
    + intros p Hp. rewrite (Hlookup p Hp). eauto.
    + intros v Hv. rewrite (Hlookup "z") in Hv by (vm_compute; tauto).
      cbn in Hv. injection Hv as <-.
      apply (z_accepts float_of_string zv v5 C5).
    + intros v Hv. rewrite (Hlookup "wdm_mass") in Hv by (vm_compute; tauto).
      cbn in Hv. injection Hv as <-.
      apply (wdm_mass_accepts float_of_string wdm v4 C4).
  - intros q r Hr [v Hq].
    rewrite (Hnone q (reads_are_cached q r Hr)) in Hq. discriminate.
Qed.

(** After a construction, [_cpdict] holds cosmological keywords only; it
    always holds [default], and it holds every cosmological keyword that was
    given. *)
Theorem init_cpdict
    (zv lo hi step wdm fit o1 o2 o3 o4 o5 o6 o7 : pyval)
    (kwargs : gmap string pyval) (t : Transfer Cosmo) :
  __init__ Cosmo Cosmology HAVE_PYCAMB float_of_string cosmo_dict
           zv lo hi step wdm fit o1 o2 o3 o4 o5 o6 o7 kwargs = Built t ->
  (forall k, is_Some (_cpdict t !! k) -> in_list k _cp = true) /\
  is_Some (_cpdict t !! "default") /\
  (forall k, in_list k _cp = true -> is_Some (kwargs !! k) ->
     is_Some (_cpdict t !! k)).
Proof.
  intros H.
  apply init_Built in H as (v4 & v5 & v6 & actual & _ & _ & _ & _ & Hc & Ha).
  rewrite Hc. split; [| split].
  - intros k Hk. apply lookup_union_is_Some in Hk as [Hk | Hk].
    + apply Ha, Hk.
    + apply keys_in_kept in Hk. exact Hk.
  - apply lookup_union_is_Some. right.
    apply keys_in_keeps; [reflexivity |].
    unfold contains. destruct (kwargs !! "default") as [v |] eqn:E.
    + rewrite E. eauto.
    + rewrite lookup_insert_eq. eauto.
  - intros k Hk Hin. apply lookup_union_is_Some. right.
    apply keys_in_keeps; [exact Hk |].
    destruct (contains "default" kwargs); [exact Hin |].
    rewrite lookup_insert_is_Some. destruct (decide ("default" = k));
      [now left | right; split; assumption].
Qed.

(** A keyword that is no cosmological parameter is dropped by the
    constructor without a word: the instance is the one built without it,
    and so is the failure. *)
Theorem init_ignores_unknown_keyword
    (zv lo hi step wdm fit o1 o2 o3 o4 o5 o6 o7 : pyval)
    (kwargs : gmap string pyval) (k : string) (v : pyval) :
  in_list k _cp = false ->
  __init__ Cosmo Cosmology HAVE_PYCAMB float_of_string cosmo_dict
           zv lo hi step wdm fit o1 o2 o3 o4 o5 o6 o7 (<[k := v]> kwargs)
  = __init__ Cosmo Cosmology HAVE_PYCAMB float_of_string cosmo_dict
             zv lo hi step wdm fit o1 o2 o3 o4 o5 o6 o7 kwargs.
Proof.
  intros Hk.
  assert (Hc : forall j d, in_list j _cp = true ->
            contains j (<[k := v]> d) = contains j d).
  { intros j d Hj. unfold contains. rewrite lookup_insert_ne; [reflexivity |].
    intros ->. congruence. }
  assert (Hkw : (if contains "default" (<[k := v]> kwargs)
                 then <[k := v]> kwargs
                 else <["default" := VStr "planck1_base"]> (<[k := v]> kwargs))
                = <[k := v]> (if contains "default" kwargs then kwargs
                              else <["default" := VStr "planck1_base"]> kwargs)).
  { rewrite Hc by reflexivity.
    destruct (contains "default" kwargs); [reflexivity |].
    apply insert_insert_ne. intros <-. discriminate Hk. }
  unfold __init__. cbv zeta. rewrite Hkw.
  rewrite !(keys_in_insert_other _ _ k v Hk).
  rewrite !Hc by reflexivity. reflexivity.
Qed.

End Object.

(** The sample constructor with [h = 0.7]. *)
Lemma init_builds_well_formed_witness :
  exists t,
    SampleInit.init {["h" := VFloat (Fin 0.7)]} = Built t /\
    well_formed (__dict__ t) /\
    consistent (__dict__ t) /\
    (forall q, In q cached -> __dict__ t !! mangle q = None).
Proof.
  eexists. split; [vm_compute; reflexivity |].
  apply (init_builds_well_formed (gmap string pyval) Sample.Cosmology false
           Sample.float_of_string SampleInit.cosmo_dict
           (VFloat (Fin 0)) (VFloat (Fin (-18))) (VFloat (Fin 10))
           (VFloat (Fin 0.05)) VNone (VStr "EH")
           (VInt 1) (VInt 1) (VInt 1) (VBool false) (VInt 11) (VInt 5)
           (VInt 0) {["h" := VFloat (Fin 0.7)]}).
  vm_compute. reflexivity.
Defined.

Lemma init_cpdict_witness :
  exists t,
    SampleInit.init {["h" := VFloat (Fin 0.7)]} = Built t /\
    (forall k, is_Some (_cpdict t !! k) -> in_list k _cp = true) /\
    is_Some (_cpdict t !! "default") /\
    (forall k, in_list k _cp = true ->
       is_Some (({["h" := VFloat (Fin 0.7)]} : gmap string pyval) !! k) ->
       is_Some (_cpdict t !! k)).
Proof.
  eexists. split; [vm_compute; reflexivity |].
  apply (init_cpdict (gmap string pyval) Sample.Cosmology false
           Sample.float_of_string SampleInit.cosmo_dict
           (VFloat (Fin 0)) (VFloat (Fin (-18))) (VFloat (Fin 10))
           (VFloat (Fin 0.05)) VNone (VStr "EH")
           (VInt 1) (VInt 1) (VInt 1) (VBool false) (VInt 11) (VInt 5)
           (VInt 0) {["h" := VFloat (Fin 0.7)]}).
  vm_compute. reflexivity.
Defined.

(** The sample constructor with the keyword [foo]. *)
Lemma init_ignores_unknown_keyword_witness :
  SampleInit.init (<["foo" := VInt 1]> {["h" := VFloat (Fin 0.7)]})
  = SampleInit.init {["h" := VFloat (Fin 0.7)]}.
Proof.
  apply (init_ignores_unknown_keyword (gmap string pyval) Sample.Cosmology
           false Sample.float_of_string SampleInit.cosmo_dict).
  vm_compute. reflexivity.
Defined.

End InitFacts.

(** ** The cached growth factor under [update] *)

Module GrowthStays.
Import Py TransferObj TransferFacts Invariants KeepsFacts GraphFacts UpdateRuns.
Local Open Scope list_scope.

(** The growth factor is below none of the quantities that [update] deletes
    for another keyword than [z]. *)
Lemma growth_not_below (c : string) :
  In c ["_unnormalised_lnP"; "_lnP_cdm_0"; "_lnT_cdm"; "_unnormalised_lnT";
        "lnk"; "_lnP_0"; "transfer"] ->
  ~ In (mangle "growth") (map mangle (dependents c)).
Proof.
  intros Hc. rewrite In_mangle. cbn [In] in Hc.
  repeat (destruct Hc as [<- | Hc]); try contradiction;
    vm_compute; intuition discriminate.
Qed.

Lemma drops_keep_growth (changed : string -> bool) (d : gmap string pyval) :
  cosmology_drops changed d !! mangle "growth" = d !! mangle "growth".
Proof.
  assert (H : forall c d', In c ["_unnormalised_lnP"; "_lnP_cdm_0"; "_lnT_cdm";
                                 "_unnormalised_lnT"] ->
            without c d' !! mangle "growth" = d' !! mangle "growth").
  { intros c d' Hc. apply without_frame, growth_not_below.
    cbn [In] in *. tauto. }
  unfold cosmology_drops. cbv zeta.
  assert (Hfold : forall l d',
            fold_left (fun d item =>
                         if changed item then without "_unnormalised_lnT" d
                         else d) l d' !! mangle "growth"
            = d' !! mangle "growth").
  { induction l as [| a l IH]; intros d'; [reflexivity |].
    cbn [fold_left]. rewrite IH.
    destruct (changed a); [apply H; cbn; tauto | reflexivity]. }
  rewrite Hfold.
  destruct (changed "sigma_8"), (changed "n");
    repeat (rewrite H by (cbn; tauto)); reflexivity.
Qed.

Lemma assoc_missing {A : Type} (k : string) (l : list (string * A)) :
  (forall kv, In kv l -> fst kv <> k) -> assoc k l = None.
Proof.
  induction l as [| [k' a] l IH]; intros H; [reflexivity |].
  cbn [assoc]. destruct (String.eqb_spec k k') as [-> | _].
  - destruct (H (k', a)); [now left | reflexivity].
  - apply IH. intros kv Hkv. apply H. now right.
Qed.

Section Object.

Variable Cosmo : Type.
Variable Cosmology : gmap string pyval -> Cosmo.
Variable HAVE_PYCAMB : bool.
Variable float_of_string : string -> option pyfloat.

(** Unless one of omegab, omegac, omegav and z is among the keywords,
    [update] leaves the cached growth factor as it is: also when the
    cosmology is rebuilt from a new h, H0, w, omegab_h2, omegac_h2 or
    default, and whether [update] returns or raises. *)
Theorem update_keeps_growth (kwargs : list (string * pyval))
    (w : World Cosmo) :
  (forall kv, In kv kwargs -> ~ In (fst kv) growth_keywords) ->
  __dict__ (self (snd (update Cosmo Cosmology HAVE_PYCAMB float_of_string
                              kwargs w))) !! mangle "growth"
    = __dict__ (self w) !! mangle "growth".
Proof.
  intros Hkw.
  set (P := fun d : gmap string pyval =>
              d !! mangle "growth" = __dict__ (self w) !! mangle "growth").
  assert (Hw : forall c,
            In c ["_unnormalised_lnP"; "_lnP_cdm_0"; "_lnT_cdm";
                  "_unnormalised_lnT"; "lnk"; "_lnP_0"; "transfer"] ->
            forall d, P d -> P (without c d)).
  { intros c Hc d Hd. unfold P.
    rewrite without_frame; [exact Hd | apply growth_not_below, Hc]. }
  assert (Hset : forall kv, In kv kwargs ->
            keeps P (setattr Cosmo HAVE_PYCAMB float_of_string
                             (fst kv) (snd kv))).
  { intros kv Hkv. apply setattr_keeps.
    - intros v d Hcheck Hd. unfold P. rewrite lookup_insert_ne; [exact Hd |].
      intros E. apply mangle_inj in E.
      apply check_of_settable in Hcheck. rewrite E in Hcheck.
      vm_compute in Hcheck. intuition discriminate.
    - intros cs c Hcs Hc d. apply Hw.
      apply assoc_In in Hcs. unfold set_children in Hcs. cbn [In] in Hcs.
      repeat (destruct Hcs as [[= Hk <-] | Hcs]); try contradiction;
        try (cbn [In] in Hc |- *; tauto).
      destruct (Hkw kv Hkv). rewrite <- Hk. cbn. tauto. }
  assert (Hother : forall kv, In kv kwargs ->
            keeps P (update_other Cosmo HAVE_PYCAMB float_of_string kv)).
  { intros kv Hkv. unfold update_other. cbv zeta.
    apply keeps_bind; [apply keeps_gets | intros opts].
    destruct (opts !! fst kv) as [old |].
    - destruct (negb (py_eq old (snd kv))); [| apply keeps_ret].
      apply keeps_bind; [apply keeps_modify; reflexivity | intros _].
      destruct (negb (String.eqb (fst kv) "ThreadNum")); [| apply keeps_ret].
      apply keeps_del_cached, Hw. cbn. tauto.
    - apply keeps_bind; [apply keeps_gets | intros d].
      destruct (d !! mangle (fst kv)) as [cur |]; [| apply keeps_print].
      destruct (py_any_ne cur (snd kv)); [apply Hset, Hkv | apply keeps_ret]. }
  unfold update. cbv zeta.
  set (cp := List.filter _ kwargs).
  assert (Hcp : forall kv, In kv cp -> In kv kwargs).
  { intros kv Hkv. apply filter_In in Hkv. tauto. }
  assert (Hrest : forall kwargs', (forall kv, In kv kwargs' -> In kv kwargs) ->
            keeps P
              (bind Cosmo
                 (for_each Cosmo kwargs'
                    (update_other Cosmo HAVE_PYCAMB float_of_string))
                 (fun _ => update_growth Cosmo cp kwargs'))).
  { intros kwargs' Hsub. apply keeps_bind.
    - apply keeps_for_each. intros kv Hkv. apply Hother, Hsub, Hkv.
    - intros _. unfold update_growth, has_key.
      assert (Hno : forall k (l : list (string * pyval)),
                In k growth_keywords ->
                (forall kv, In kv l -> In kv kwargs) -> assoc k l = None).
      { intros k l Hk Hl. apply assoc_missing. intros kv Hkv E.
        apply (Hkw kv (Hl kv Hkv)). rewrite E. exact Hk. }
      rewrite (Hno "omegab" cp), (Hno "omegac" cp), (Hno "omegav" cp),
        (Hno "z" kwargs') by (assumption || (cbn; tauto)).
      apply keeps_ret. }
  unfold bind at 1.
  destruct cp as [| kv0 cp'] eqn:Ecp.
  - unfold ret at 1. apply Hrest; [tauto | reflexivity].
  - rewrite update_cosmology_run. apply Hrest.
    + intros kv Hkv. apply filter_In in Hkv. tauto.
    + cbn [self __dict__]. apply drops_keep_growth.
Qed.

End Object.

(** The sample object with a growth factor cached, given a new Hubble
    parameter and a new equation of state. *)
Lemma update_keeps_growth_witness :
  __dict__ (self (snd (update (gmap string pyval) Sample.Cosmology false
                         Sample.float_of_string
                         [("h", VFloat (Fin 0.7)); ("w", VFloat (Fin (-1)))]
                         (mkWorld
                            (set_dict (gmap string pyval)
                               (<[mangle "growth" := VFloat (Fin (1 # 2))]>
                                  Sample.dict0)
                               Sample.transfer0) [] []))))
    !! mangle "growth"
  = Some (VFloat (Fin (1 # 2))).
Proof.
  rewrite (update_keeps_growth (gmap string pyval) Sample.Cosmology false
             Sample.float_of_string).
  - vm_compute. reflexivity.
  - intros kv [<- | [<- | []]]; vm_compute; intuition discriminate.
Defined.

End GrowthStays.

(** ** The cached transfer function under a cosmological [update] *)

Module TransferStays.
Import Py TransferObj TransferFacts Invariants KeepsFacts GraphFacts UpdateRuns.
Import GrowthStays.
Local Open Scope list_scope.

Lemma filter_everything {A : Type} (f : A -> bool) (l : list A) :
  (forall a, In a l -> f a = true) -> List.filter f l = l.
Proof.
  induction l as [| a l IH]; intros H; [reflexivity |].
  cbn [List.filter]. rewrite (H a) by now left.
  rewrite IH; [reflexivity |]. intros b Hb. apply H. now right.
Qed.

Lemma filter_out_all {A : Type} (f : A -> bool) (l : list A) :
  (forall a, In a l -> f a = false) -> List.filter f l = [].
Proof.
  induction l as [| a l IH]; intros H; [reflexivity |].
  cbn [List.filter]. rewrite (H a) by now left.
  apply IH. intros b Hb. apply H. now right.
Qed.

Lemma has_key_of_In {A : Type} (kv : string * A) (l : list (string * A)) :
  In kv l -> has_key (fst kv) l = true.
Proof.
  unfold has_key. induction l as [| [k a] l IH]; intros H; [destruct H |].
  cbn [assoc]. destruct (String.eqb_spec (fst kv) k); [reflexivity |].
  destruct H as [<- | H]; [contradiction | exact (IH H)].
Qed.

(** The transfer function and the grid are below none of the quantities that
    a change of [n], of [sigma_8] or of the redshift deletes. *)
Lemma transfer_not_below (c q : string) :
  In c ["_unnormalised_lnP"; "_lnP_cdm_0"; "_lnT_cdm"; "growth"] ->
  In q ["_unnormalised_lnT"; "lnk"] ->
  ~ In (mangle q) (map mangle (dependents c)).
Proof.
  intros Hc Hq. rewrite In_mangle. cbn [In] in Hc, Hq.
  repeat (destruct Hc as [<- | Hc]); try contradiction;
    repeat (destruct Hq as [<- | Hq]); try contradiction;
    vm_compute; intuition discriminate.
Qed.

Section Object.

Variable Cosmo : Type.
Variable Cosmology : gmap string pyval -> Cosmo.
Variable HAVE_PYCAMB : bool.
Variable float_of_string : string -> option pyfloat.

(** When every keyword is a cosmological parameter and none is one of
    omegab, omegac, h, H0, omegab_h2 and omegac_h2, [update] keeps the cached
    unnormalised transfer function and the cached grid: a new [n], [sigma_8],
    [omegav] or dark-energy parameter never costs a new transfer function. *)
Theorem update_cosmology_keeps_transfer (kwargs : list (string * pyval))
    (w : World Cosmo) (q : string) :
  (forall kv, In kv kwargs ->
     in_list (fst kv) _cp = true /\ ~ In (fst kv) matter_keywords) ->
  In q ["_unnormalised_lnT"; "lnk"] ->
  __dict__ (self (snd (update Cosmo Cosmology HAVE_PYCAMB float_of_string
                              kwargs w))) !! mangle q
    = __dict__ (self w) !! mangle q.
Proof.
  intros Hkw Hq.
  set (P := fun d : gmap string pyval =>
              d !! mangle q = __dict__ (self w) !! mangle q).
  assert (Hw : forall c,
            In c ["_unnormalised_lnP"; "_lnP_cdm_0"; "_lnT_cdm"; "growth"] ->
            forall d, d !! mangle q = without c d !! mangle q).
  { intros c Hc d. symmetry. apply without_frame.
    apply transfer_not_below; assumption. }
  assert (Hgrowth : forall cp, keeps P (update_growth Cosmo cp [])).
  { intros cp. unfold update_growth. cbn [assoc].
    destruct (has_key "omegab" cp || has_key "omegac" cp
              || has_key "omegav" cp); [| apply keeps_ret].
    apply keeps_bind; [apply keeps_get_property | intros zv].
    destruct (py_gt_zero zv); [| apply keeps_ret].
    apply keeps_del_cached. intros d Hd. unfold P.
    rewrite <- Hw by (cbn; tauto). exact Hd. }
  unfold update. cbv zeta.
  rewrite (filter_everything _ kwargs) by (intros kv Hkv; apply Hkw, Hkv).
  destruct kwargs as [| kv0 rest] eqn:Ekw.
  - unfold bind at 1, ret at 1. cbn [for_each]. unfold bind at 1, ret at 1.
    apply (Hgrowth [] w). reflexivity.
  - unfold bind at 1. rewrite update_cosmology_run. rewrite <- Ekw in *.
    rewrite (filter_out_all _ kwargs)
      by (intros kv Hkv; rewrite (has_key_of_In kv kwargs Hkv); reflexivity).
    cbn [for_each]. unfold bind at 1, ret at 1.
    apply (Hgrowth kwargs). cbn [self __dict__].
    assert (Hch : forall k, In k matter_keywords ->
              has_key k (true_cp_of (_cpdict (self w)) kwargs) = false).
    { intros k Hk. unfold has_key. rewrite assoc_missing; [reflexivity |].
      intros kv Hkv E. unfold true_cp_of in Hkv. apply filter_In in Hkv.
      apply (proj2 (Hkw kv (proj1 Hkv))). rewrite E. exact Hk. }
    unfold cosmology_drops. cbv zeta.
    assert (Hfold : forall l d', (forall k, In k l -> In k matter_keywords) ->
              fold_left (fun d item =>
                           if has_key item
                                (true_cp_of (_cpdict (self w)) kwargs)
                           then without "_unnormalised_lnT" d else d) l d'
              = d').
    { induction l as [| a l IH]; intros d' Hl; [reflexivity |].
      cbn [fold_left]. rewrite (Hch a) by (apply Hl; now left).
      apply IH. intros k Hk. apply Hl. now right. }
    rewrite Hfold by tauto. unfold P.
    destruct (has_key "sigma_8" _), (has_key "n" _);
      repeat (rewrite <- Hw by (cbn; tauto)); reflexivity.
Qed.

End Object.

(** The sample object given a new spectral index, a new normalisation and a
    new equation of state. *)
Lemma update_cosmology_keeps_transfer_witness :
  __dict__ (self (snd (update (gmap string pyval) Sample.Cosmology false
                         Sample.float_of_string
                         [("n", VFloat (Fin 1)); ("sigma_8", VFloat (Fin 0.9));
                          ("w", VFloat (Fin (-1)))] Sample.world0)))
    !! mangle "_unnormalised_lnT"
  = Some (VArr [Fin 0; Fin (-(1 # 2))]).
Proof.
  rewrite (update_cosmology_keeps_transfer (gmap string pyval)
             Sample.Cosmology false Sample.float_of_string).
  - vm_compute. reflexivity.
  - intros kv [<- | [<- | [<- | []]]];
      (split; [reflexivity | vm_compute; intuition discriminate]).
  - cbn. tauto.
Defined.

End TransferStays.

(** ** The non-linear power on float64 *)

Module NonlinearFloat.
Import Numpy HalofitFloat.
Local Open Scope list_scope.

(** Selecting with a mask, computing on the selection and writing the
    results back through the same mask is a computation in place. *)
Lemma put_mask_float_in_place {F : Type} (m : F -> bool) (e e' : F -> F)
    (h : F -> F -> F) (xs ds : list F) :
  length ds = length xs ->
  put_mask (map e ds) (map m xs)
           (zip_with h (map e' (compress (map m xs) xs))
                       (compress (map m xs) (map e ds)))
    = Ok (zip_with (fun x d => if m x then h (e' x) (e d) else e d) xs ds).
Proof.
  revert ds. induction xs as [| x xs IH]; intros [| d ds] Hlen;
    simpl in Hlen; try discriminate; [reflexivity |].
  injection Hlen as Hlen. specialize (IH ds Hlen).
  cbn [map put_mask compress zip_with].
  destruct (m x); cbn [map zip_with]; rewrite IH; reflexivity.
Qed.

Section Arith.

Variable F : Type.
Variable A : arith F.
Variable simps : list F -> list F -> F.
Variable spline : list F -> list F -> nat -> F -> F.
Variable spline_derivatives : list F -> list F -> nat -> F -> result (list F).
Variable np_linspace : F -> F -> nat -> list F.
Variable omega_M_z : F -> cosmology F -> F.
Variable e_z : F -> cosmology F -> F.

Local Abbreviation lit := (f_lit A).
Local Notation "x + y" := (f_add A x y) : fl_scope.
Local Notation "x - y" := (f_sub A x y) : fl_scope.
Local Notation "x * y" := (f_mul A x y) : fl_scope.
Local Notation "x / y" := (f_div A x y) : fl_scope.
Local Notation "- x" := (f_neg A x) : fl_scope.
Local Notation "x ** y" := (f_pow A x y)
  (at level 30, right associativity) : fl_scope.
Local Notation "x <? y" := (f_lt A x y) : fl_scope.

(** The array that [nonlinear_delta_k] returns. *)
Lemma nonlinear_delta_k_run (self_cosmo : cosmology F) (self_z : F)
    (lnk delta_k : list F) (rknl rneff rncur : F) :
  length delta_k = length lnk ->
  _get_spec F A simps spline spline_derivatives np_linspace
            self_cosmo lnk delta_k = Ok (rknl, rneff, rncur) ->
  nonlinear_delta_k F A simps spline spline_derivatives np_linspace
                    omega_M_z e_z self_cosmo self_z lnk delta_k
    = Ok (map (f_log A)
            (zip_with
               (fun x d =>
                  if f_lt A (lit 0.005) (f_exp A x)
                  then _halofit_at F A omega_M_z e_z self_cosmo self_z
                                   rneff rncur rknl (f_exp A x) (f_exp A d)
                  else f_exp A d)
               lnk delta_k)).
Proof.
  intros Hlen Hspec.
  unfold nonlinear_delta_k. rewrite Hspec. cbn [rbind fst snd].
  unfold _halofit.
  rewrite (put_mask_float_in_place
             (fun x => f_lt A (lit 0.005) (f_exp A x)) (f_exp A) (f_exp A)
             (_halofit_at F A omega_M_z e_z self_cosmo self_z
                          rneff rncur rknl)
             lnk delta_k Hlen).
  reflexivity.
Qed.

(** C1 (amended): whenever [_get_spec] returns, [nonlinear_delta_k] returns
    an array on the grid.  At every [k = np.exp(lnk[i])] that is not above
    0.005 its entry is [np.log(np.exp(delta_k[i]))]: the entry of [delta_k]
    after a round trip through [np.exp] and [np.log], and the entry of
    [delta_k] itself exactly where that round trip returns its argument.
    At every [k] above 0.005 the entry is the logarithm of the HALOFIT
    formula, the quasi-linear term plus the halo term as the source writes
    them, at [k] and at the linear power [np.exp(delta_k[i])]. *)
Theorem nonlinear_delta_k_entries (self_cosmo : cosmology F) (self_z : F)
    (lnk delta_k : list F) (rknl neff rncur : F) :
  length delta_k = length lnk ->
  _get_spec F A simps spline spline_derivatives np_linspace
            self_cosmo lnk delta_k = Ok (rknl, neff, rncur) ->
  exists out,
    nonlinear_delta_k F A simps spline spline_derivatives np_linspace
                      omega_M_z e_z self_cosmo self_z lnk delta_k = Ok out /\
    length out = length lnk /\
    forall (i : nat) (x d : F),
      lnk !! i = Some x -> delta_k !! i = Some d ->
      (f_lt A (lit 0.005) (f_exp A x) = false ->
       out !! i = Some (f_log A (f_exp A d)) /\
       (out !! i = Some d <-> f_log A (f_exp A d) = d)) /\
      (f_lt A (lit 0.005) (f_exp A x) = true ->
       let k := f_exp A x in
       let plin := f_exp A d in
       let omegam_z := omega_M_z self_z self_cosmo in
       let omegav_z :=
         (omegav self_cosmo / e_z self_z self_cosmo ** lit 2)%fl in
       let w := w self_cosmo in
       let fnu := (omegan self_cosmo / omegam self_cosmo)%fl in
       let a := (lit 10 ** (lit 1.5222 + lit 2.8553 * neff
                            + lit 2.3706 * neff ** lit 2
                            + lit 0.9903 * neff ** lit 3
                            + lit 0.2250 * neff ** lit 4
                            + - lit 0.6038 * rncur
                            + lit 0.1749 * omegav_z * (lit 1 + w)))%fl in
       let b := (lit 10 ** (- lit 0.5642 + lit 0.5864 * neff
                            + lit 0.5716 * neff ** lit 2
                            + - lit 1.5474 * rncur
                            + lit 0.2279 * omegav_z * (lit 1 + w)))%fl in
       let c := (lit 10 ** (lit 0.3698 + lit 2.0404 * neff
                            + lit 0.8161 * neff ** lit 2
                            + lit 0.5869 * rncur))%fl in
       let gam := (lit 0.1971 - lit 0.0843 * neff + lit 0.8460 * rncur)%fl in
       let alpha := f_abs A (lit 6.0835 + lit 1.3373 * neff
                             - lit 0.1959 * neff ** lit 2
                             + - lit 5.5274 * rncur)%fl in
       let beta := (lit 2.0379 - lit 0.7354 * neff
                    + lit 0.3157 * neff ** lit 2
                    + lit 1.2490 * neff ** lit 3
                    + lit 0.3980 * neff ** lit 4
                    - lit 0.1682 * rncur
                    + fnu * (lit 1.081 + lit 0.395 * neff ** lit 2))%fl in
       let xmu := lit 0.0 in
       let xnu := (lit 10 ** (lit 5.2105 + lit 3.6902 * neff))%fl in
       let curved := f_lt A (lit 0.01) (f_abs A (lit 1 - omegam_z)%fl) in
       let frac := (omegav_z / (lit 1 - omegam_z))%fl in
       let f1 := if curved
                 then (frac * omegam_z ** (- lit 0.0307)
                       + (lit 1 - frac) * omegam_z ** (- lit 0.0732))%fl
                 else lit 1.0 in
       let f2 := if curved
                 then (frac * omegam_z ** (- lit 0.0585)
                       + (lit 1 - frac) * omegam_z ** (- lit 0.1423))%fl
                 else lit 1.0 in
       let f3 := if curved
                 then (frac * omegam_z ** lit 0.0743
                       + (lit 1 - frac) * omegam_z ** lit 0.0725)%fl
                 else lit 1.0 in
       let y := (k / rknl)%fl in
       let ph := (a * y ** (f1 * lit 3)
                  / (lit 1 + b * y ** f2
                     + (f3 * c * y) ** (lit 3 - gam)))%fl in
       let ph := (ph / (lit 1 + xmu * y ** (- lit 1) + xnu * y ** (- lit 2))
                  * (lit 1 + fnu * (lit 0.977
                                    - lit 18.015
                                      * (omegam self_cosmo - lit 0.3))))%fl in
       let plinaa := (plin * (lit 1 + fnu * lit 47.48 * k ** lit 2
                                      / (lit 1 + lit 1.5 * k ** lit 2)))%fl in
       let pq := (plin * (lit 1 + plinaa) ** beta
                  / (lit 1 + plinaa * alpha)
                  * f_exp A (- y / lit 4.0 - y ** lit 2 / lit 8.0))%fl in
       out !! i = Some (f_log A (pq + ph)%fl)).
Proof.
  intros Hlen Hspec.
  rewrite (nonlinear_delta_k_run self_cosmo self_z lnk delta_k
             rknl neff rncur Hlen Hspec).
  eexists. split; [reflexivity |]. split.
  - rewrite length_map, length_zip_with. lia.
  - intros i x d Hx Hd.
    rewrite list_lookup_fmap, lookup_zip_with, Hx, Hd. cbn [mbind option_bind
      fmap option_fmap option_map].
    split; intros Hmask; rewrite Hmask.
    + split; [reflexivity |].
      split; [intros [= E]; exact E | intros E; rewrite E; reflexivity].
    + reflexivity.
Qed.

End Arith.

(** On the sample of float64 and with the stand-ins for scipy, [_get_spec]
    returns whatever the grid is. *)
Lemma sample_get_spec (lnk delta_k : list SampleFloat.sample64) :
  exists rknl neff rncur,
    _get_spec SampleFloat.sample64 SampleFloat.arith64 SampleFloat.simps
              SampleFloat.spline SampleFloat.spline_derivatives
              SampleFloat.np_linspace SampleFloat.cosmo_planck lnk delta_k
      = Ok (rknl, neff, rncur).
Proof. do 3 eexists. reflexivity. Qed.

(** C1, as stated: on the grid that starts at [lnk = -700], with
    [delta_k = 4 lnk], the first wavenumber is [np.exp(-700)], below 0.0025
    and so not above 0.005, and the first entry of [delta_k] is -2800; the
    first entry of [nonlinear_delta_k] is
    [np.log(np.exp(-2800)) = np.log(0.0) = -inf], not -2800. *)
Lemma nonlinear_delta_k_underflow :
  exists out,
    SampleFloat.run SampleFloat.lnk_wide SampleFloat.delta_k_wide = Ok out /\
    SampleFloat.lnk_wide !! 0%nat = Some (SampleFloat.Known (Fin (-700))) /\
    SampleFloat.lt64 (SampleFloat.Known (Fin 0.005))
                     (SampleFloat.exp64 (SampleFloat.Known (Fin (-700))))
      = false /\
    SampleFloat.delta_k_wide !! 0%nat
      = Some (SampleFloat.Known (Fin (-2800))) /\
    out !! 0%nat = Some (SampleFloat.Known NInf).
Proof.
  destruct (sample_get_spec SampleFloat.lnk_wide SampleFloat.delta_k_wide)
    as (rknl & neff & rncur & Hspec).
  unfold SampleFloat.run.
  rewrite (nonlinear_delta_k_run SampleFloat.sample64 SampleFloat.arith64
             SampleFloat.simps SampleFloat.spline
             SampleFloat.spline_derivatives SampleFloat.np_linspace
             SampleFloat.omega_M_z SampleFloat.e_z
             SampleFloat.cosmo_planck (SampleFloat.Known (Fin 0))
             SampleFloat.lnk_wide SampleFloat.delta_k_wide
             rknl neff rncur eq_refl Hspec).
  eexists. split; [reflexivity |].
  repeat split; reflexivity.
Qed.

(** The same grid: the run returns, and the entry at the first wavenumber
    is as the theorem says. *)
Lemma nonlinear_delta_k_entries_witness :
  exists out,
    SampleFloat.run SampleFloat.lnk_wide SampleFloat.delta_k_wide = Ok out /\
    length out = length SampleFloat.lnk_wide /\
    out !! 0%nat
      = Some (SampleFloat.log64
                (SampleFloat.exp64 (SampleFloat.Known (Fin (-2800))))).
Proof.
  destruct (sample_get_spec SampleFloat.lnk_wide SampleFloat.delta_k_wide)
    as (rknl & neff & rncur & Hspec).
  destruct (nonlinear_delta_k_entries SampleFloat.sample64
              SampleFloat.arith64
              SampleFloat.simps SampleFloat.spline
              SampleFloat.spline_derivatives SampleFloat.np_linspace
              SampleFloat.omega_M_z SampleFloat.e_z
              SampleFloat.cosmo_planck (SampleFloat.Known (Fin 0))
              SampleFloat.lnk_wide SampleFloat.delta_k_wide
              rknl neff rncur eq_refl Hspec)
    as (out & Hrun & Hlen & Hentries).
  exists out. split; [exact Hrun |]. split; [exact Hlen |].
  destruct (Hentries 0%nat (SampleFloat.Known (Fin (-700)))
              (SampleFloat.Known (Fin (-2800))) eq_refl eq_refl)
    as [Hlow _].
  apply Hlow. reflexivity.
Defined.

End NonlinearFloat.
